(** * Integration adapters: visitor authentication (Okta) and webhook
    reconciliation (GitLab)

    A shallow embedding of
      - [src/integrations/va-okta/src/index.tsx]: the callback handler
        [handleFetchEvent], the redirect initiator
        [fetch_visitor_authentication], [sanitizeJWTTokenClaims] and the
        configuration component;
      - [src/integrations/gitlab/src/events.ts]: [shouldUpdateGitLabWebHook],
        [handleSpaceInstallationSetupEvent] and the Git Sync status
        handler.

    JavaScript values that may be [undefined] are [option]s, truthiness is
    written out, asynchronous code is sequential code in a small monad that
    records the calls made to the outside (host API, HTTP, signing) and
    carries thrown errors and rejected promises. The replies of the
    outside, and what the engine's URL parser makes of a string, are read
    from a [World] record. *)

From Stdlib Require Import ZArith Ascii List Lia.
From stdpp Require Import gmap strings pretty.

Open Scope Z_scope.

(** ** JavaScript primitives used by the adapters *)

Module Js.

(** [!!s] for a value of type [string | undefined]. *)
Definition truthy (o : option string) : bool :=
  match o with
  | Some s => negb (String.eqb s "")
  | None => false
  end.

(** The string behind a truthy value: [Some s] exactly when [truthy] holds.
    It is how a guard [if (!x) return ...] narrows [x] to a string. *)
Definition narrow (o : option string) : option string :=
  match o with
  | Some s => if String.eqb s "" then None else Some s
  | None => None
  end.

(** [`${x}`] for a value of type [string | undefined]. *)
Definition interpolate (o : option string) : string :=
  match o with
  | Some s => s
  | None => "undefined"
  end.

(** [x || ''] *)
Definition or_empty (o : option string) : string :=
  match narrow o with
  | Some s => s
  | None => ""
  end.

(** Strings are sequences of code units. The two string functions below
    are only used to find an ASCII character and to cut the string after
    it, which yields the same text whatever the unit is. *)

(** [s.indexOf(c)] for a one-character search string: the position of the
    first occurrence, [-1] when there is none. *)
Fixpoint indexOf (s : string) (c : ascii) : Z :=
  match s with
  | EmptyString => -1
  | String a rest =>
      if Ascii.eqb a c then 0
      else let i := indexOf rest c in
           if i <? 0 then -1 else i + 1
  end.

Fixpoint drop_chars (n : nat) (s : string) : string :=
  match n, s with
  | O, _ => s
  | S n', String _ rest => drop_chars n' rest
  | S _, EmptyString => EmptyString
  end.

(** [s.substring(start)]: a negative start counts as 0, one past the end
    as the length. *)
Definition substring (s : string) (start : Z) : string :=
  drop_chars (Z.to_nat (Z.max 0 start)) s.

(** [c] does not occur in [s]. *)
Fixpoint lacks (c : ascii) (s : string) : bool :=
  match s with
  | EmptyString => true
  | String a rest => negb (Ascii.eqb a c) && lacks c rest
  end.

(** The number behind a truthy value of type [number | undefined]: 0 and
    [undefined] are falsy. *)
Definition narrow_num (o : option Z) : option Z :=
  match o with
  | Some n => if n =? 0 then None else Some n
  | None => None
  end.

(** A value of type [boolean | string | undefined], as an expression built
    from [!==], [!], [&&] and [||] over strings may produce. *)
Inductive Value :=
  | VBool (b : bool)
  | VString (s : string)
  | VUndefined.

Definition of_string (o : option string) : Value :=
  match o with
  | Some s => VString s
  | None => VUndefined
  end.

Definition truthy_value (v : Value) : bool :=
  match v with
  | VBool b => b
  | VString s => negb (String.eqb s "")
  | VUndefined => false
  end.

(** [a || b] and [a && b] return one of their operands. *)
Definition or (a b : Value) : Value := if truthy_value a then a else b.
Definition and (a b : Value) : Value := if truthy_value a then b else a.

(** [a !== b] on values of type [string | undefined]. *)
Definition strict_ne (a b : option string) : bool := negb (bool_decide (a = b)).

(** Thrown values: [new Error(message)], the runtime's
    [new ExposableError(message)] and the engine's [TypeError] and
    [RangeError], none of which has a [status], and [Raised message status]
    for what a library call throws or rejects with: an error with whatever
    message and, possibly, a numeric [status]. The messages of the engine's
    errors are the engine's own; nothing below depends on them. *)
Inductive Error :=
  | PlainError (message : string)
  | ExposableError (message : string)
  | TypeError (message : string)
  | RangeError (message : string)
  | Raised (message : string) (status : option Z).

Definition message (e : Error) : string :=
  match e with
  | PlainError m => m
  | ExposableError m => m
  | TypeError m => m
  | RangeError m => m
  | Raised m _ => m
  end.

(** [error.status] *)
Definition status_of (e : Error) : option Z :=
  match e with
  | Raised _ status => status
  | PlainError _ | ExposableError _ | TypeError _ | RangeError _ => None
  end.

(** The result of a function body: a returned value or a thrown error. *)
Inductive Completion (A : Type) :=
  | Return (a : A)
  | Throw (e : Error).
Arguments Return {A} a.
Arguments Throw {A} e.

(** A computation over events of type [E]: the calls it made, oldest
    first, and how it completed. *)
Definition M (E A : Type) : Type := list E * Completion A.

Definition ret {E A} (a : A) : M E A := ([], Return a).
Definition throw {E A} (e : Error) : M E A := ([], Throw e).
Definition emit {E} (ev : E) : M E unit := ([ev], Return tt).

Definition bind {E A B} (m : M E A) (k : A -> M E B) : M E B :=
  match m with
  | (t, Return a) => let '(t', r) := k a in (t ++ t', r)
  | (t, Throw e) => (t, Throw e)
  end.

(** [try { m } catch (e) { h e }] *)
Definition try_catch {E A} (m : M E A) (h : Error -> M E A) : M E A :=
  match m with
  | (t, Return a) => (t, Return a)
  | (t, Throw e) => let '(t', r) := h e in (t ++ t', r)
  end.

Definition trace {E A} (m : M E A) : list E := fst m.
Definition completion {E A} (m : M E A) : Completion A := snd m.

End Js.

Notation "x <-- m ;; k" := (Js.bind m (fun x => k))
  (at level 100, m at next level, right associativity, only parsing).
Notation "m ;;; k" := (Js.bind m (fun _ => k))
  (at level 100, right associativity, only parsing).

(** ** Visitor authentication with Okta ([va-okta/src/index.tsx]) *)

Module Okta.

(** *** Data *)

(** Claim values: whatever JSON the access token's payload holds. *)
#[local] Set Warnings "-register-all".
Inductive Json :=
  | JNull
  | JBool (b : bool)
  | JNum (n : Z)
  | JStr (s : string)
  | JArr (items : list Json)
  | JObj (fields : list (string * Json)).

(** [OktaSiteInstallationConfiguration]: every field is optional. *)
Record OktaSiteInstallationConfiguration := {
  client_id : option string;
  okta_domain : option string;
  client_secret : option string;
}.

(** [environment.siteInstallation], with [urls.publicEndpoint] as
    [publicEndpoint]: [urls] is taken to be there, as the installation's
    type has it, and its [publicEndpoint] may be missing. *)
Record SiteInstallation := {
  site : option string;
  publicEndpoint : option string;
  configuration : OktaSiteInstallationConfiguration;
}.

(** The part of [context.environment] the adapter reads:
    [installation?.target?.organization] is [organization] and
    [signingSecrets.siteInstallation] is [signingSecret]. *)
Record Environment := {
  siteInstallation : option SiteInstallation;
  organization : option string;
  signingSecret : option string;
}.

(** The inbound request: [request.query.code] and
    [request.query.state?.toString()] are the two query fields. *)
Record Request := {
  method : string;
  url : string;
  query_code : option string;
  query_state : option string;
}.

(** A [URL] object, kept structured: [href] is the string its constructor
    parsed, with whatever query and fragment that string carries, and
    [searchParams] are the parameters appended to it since, in order. *)
Record URL := {
  href : string;
  searchParams : list (string * string);
}.

Definition searchParams_append (u : URL) (name value : string) : URL :=
  {| href := href u; searchParams := searchParams u ++ [(name, value)] |}.

(** [new Response(body, { status })] and [Response.redirect(url.toString())]. *)
Inductive Response :=
  | TextResponse (body : string) (status : Z)
  | Redirect (target : URL).

(** A JSON object in the body of the identity provider's reply, read as
    [OktaTokenResponseError] on failure and as [OktaTokenResponseData] on
    success. *)
Record OktaTokenBody := {
  error : option string;
  error_description : option string;
  access_token : option string;
}.

Record FetchRequest := {
  fetch_url : string;
  fetch_method : string;
  fetch_headers : list (string * string);
  fetch_body : list (string * string);
}.

(** The reply of the identity provider. [body] is what
    [await response.json()] gives: it rejects ([Js.Throw]) when the body is
    not JSON, and it resolves to [null] ([None]) or to a value with the
    fields of [OktaTokenBody] (a JSON value that is no object has none of
    them). *)
Record FetchResponse := {
  http_status : Z;
  body : Js.Completion (option OktaTokenBody);
}.

Definition no_fields : OktaTokenBody :=
  {| error := None; error_description := None; access_token := None |}.

(** The object the body holds; without one, an object without fields. *)
Definition json (r : FetchResponse) : OktaTokenBody :=
  match body r with
  | Js.Return (Some object) => object
  | Js.Return None | Js.Throw _ => no_fields
  end.

(** [response.ok]: the status is in the range 200-299. *)
Definition ok (r : FetchResponse) : bool :=
  (200 <=? http_status r) && (http_status r <=? 299).

(** [publishedContentData.data.urls] *)
Record SiteUrls := {
  published : option string;
}.

(** The [event] of [fetch_visitor_authentication]. *)
Record VisitorAuthEvent := {
  location : option string;
}.

(** *** The outside *)

(** Calls that leave the adapter. *)
Inductive Event :=
  | GetSiteById (organizationId : string) (siteId : option string)
  | TokenExchange (req : FetchRequest)
  | LoggerDebugJson (value : option OktaTokenBody)
  | LoggerDebug (msg : string)
  | LoggerError (msg : string) (e : Js.Error)
  | JwtSign (payload : gmap string Json) (privateKey : string).

(** What the outside answers.
    - [now]: [Date.now()], in milliseconds;
    - [parses s]: [new URL(s)] returns; it throws a [TypeError] otherwise;
    - [pathname s]: [new URL(s).pathname], for a string that parses;
    - [query s]: the search parameters [new URL(s)] starts with, those of
      the query in [s];
    - [routes m p r]: the router sends request [r] to the route registered
      for method [m] and path [p];
    - [getSiteById]: the [urls] of the host API's reply; the call is taken
      to get one;
    - [fetch]: the identity provider's reply; the request is taken to get
      one, whatever its status and body;
    - [jwt_decode]: what [jwt.decode(token)] gives, the [payload] (if it
      has one) or the error it throws;
    - [jwt_sign]: the token [jwt.sign] returns, [None] when it throws. *)
Record World := {
  now : Z;
  parses : string -> bool;
  pathname : string -> string;
  query : string -> list (string * string);
  routes : string -> string -> Request -> bool;
  getSiteById : string -> option string -> option SiteUrls;
  fetch : FetchRequest -> FetchResponse;
  jwt_decode : string -> Js.Completion (option (gmap string Json));
  jwt_sign : gmap string Json -> string -> option string;
}.

(** *** Pure helpers *)

(** [result[key] = value] on the plain object [result]: the key
    [__proto__] names the prototype accessor, so assigning to it adds no
    entry. *)
Definition assign (key : string) (value : Json) (result : gmap string Json)
  : gmap string Json :=
  if bool_decide (key = "__proto__") then result else <[key := value]> result.

(** [sanitizeJWTTokenClaims]: assign every entry but [iat] and [exp] to a
    new object. *)
Definition sanitizeJWTTokenClaims (claims : gmap string Json) : gmap string Json :=
  map_fold
    (fun key value result =>
       if bool_decide (key ∈ ["iat"; "exp"]) then result
       else assign key value result)
    ∅ claims.

(** The object handed to [jwt.sign] (lines 275-278). *)
Definition signedClaims (now_ms : Z) (payload : option (gmap string Json)) : gmap string Json :=
  <["exp" := JNum (now_ms / 1000 + 1 * (60 * 60))]>
    (sanitizeJWTTokenClaims (default ∅ payload)).

(** Lines 292-293:
    [state ? state.substring(state.indexOf('-') + 1) : '']. *)
Definition decodeLocation (state : option string) : string :=
  match Js.narrow state with
  | Some state => Js.substring state (Js.indexOf state "-"%char + 1)
  | None => ""
  end.

(** *** Procedures *)

Section Handlers.

Variable w : World.

(** [new URL(s)] *)
Definition new_URL (s : string) : Js.M Event URL :=
  if parses w s then Js.ret {| href := s; searchParams := [] |}
  else Js.throw (Js.TypeError "Invalid URL").

Definition assertSiteInstallation (environment : Environment)
  : Js.M Event SiteInstallation :=
  match siteInstallation environment with
  | None => Js.throw (Js.PlainError "No site installation found")
  | Some siteInstallation => Js.ret siteInstallation
  end.

Definition assertOrgId (environment : Environment) : Js.M Event string :=
  match Js.narrow (organization environment) with
  | None => Js.throw (Js.PlainError "No org ID found")
  | Some orgId => Js.ret orgId
  end.

(** [getPublishedContentUrls]: one call to the host API. *)
Definition getPublishedContentUrls (environment : Environment)
  : Js.M Event (option SiteUrls) :=
  organizationId <-- assertOrgId environment ;;
  siteInstallation <-- assertSiteInstallation environment ;;
  Js.emit (GetSiteById organizationId (site siteInstallation)) ;;;
  Js.ret (getSiteById w organizationId (site siteInstallation)).

(** The request of lines 231-243. *)
Definition tokenRequest (installationURL clientId clientSecret oktaDomain : string)
    (request : Request) : FetchRequest :=
  {| fetch_url := "https://" +:+ oktaDomain +:+ "/oauth2/v1/token/";
     fetch_method := "POST";
     fetch_headers := [("content-type", "application/x-www-form-urlencoded")];
     fetch_body :=
       [("grant_type", "authorization_code");
        ("client_id", clientId);
        ("client_secret", clientSecret);
        ("code", Js.interpolate (query_code request));
        ("redirect_uri", installationURL +:+ "/visitor-auth/response")] |}.

(** [await fetch(...)] of the token endpoint. *)
Definition exchange (req : FetchRequest) : Js.M Event FetchResponse :=
  Js.emit (TokenExchange req) ;;;
  Js.ret (fetch w req).

(** [await response.json()] *)
Definition await_json (response : FetchResponse) : Js.M Event (option OktaTokenBody) :=
  match body response with
  | Js.Return value => Js.ret value
  | Js.Throw e => Js.throw e
  end.

(** [await jwt.decode(token)], then [.payload] *)
Definition decode (token : string) : Js.M Event (option (gmap string Json)) :=
  match jwt_decode w token with
  | Js.Return payload => Js.ret payload
  | Js.Throw e => Js.throw e
  end.

(** [await jwt.sign(payload, privateKey)] *)
Definition sign (payload : gmap string Json) (privateKey : string)
  : Js.M Event string :=
  Js.emit (JwtSign payload privateKey) ;;;
  match jwt_sign w payload privateKey with
  | Some token => Js.ret token
  | None => Js.throw (Js.PlainError "jwt.sign failed")
  end.

(** Lines 267-302: the [try] block and its [catch]. *)
Definition signAndRedirect (environment : Environment) (request : Request)
    (publishedContentUrls : option SiteUrls)
    (decodedPayload : option (gmap string Json))
  : Js.M Event (option Response) :=
  Js.try_catch
    (match Js.narrow (signingSecret environment) with
     | None =>
         Js.ret (Some (TextResponse
           "Error: Missing private key from site installation" 400))
     | Some privateKey =>
         jwtToken <-- sign (signedClaims (now w) decodedPayload) privateKey ;;
         match Js.narrow (publishedContentUrls ≫= published),
               Js.narrow (Some jwtToken) with
         | Some publishedContentUrl, Some jwtToken =>
             let location := decodeLocation (query_state request) in
             url <-- new_URL (publishedContentUrl +:+ Js.or_empty (Some location)) ;;
             Js.ret (Some (Redirect (searchParams_append url "jwt_token" jwtToken)))
         | _, _ =>
             Js.ret (Some (TextResponse
               "Error: Either JWT token or site's published URL is missing" 500))
         end
     end)
    (fun _ => Js.ret (Some (TextResponse "Error: Could not sign JWT token" 500))).

(** Lines 245-303: what the handler does with the identity provider's
    reply. Reading [access_token] of [null] is a [TypeError]. *)
Definition afterExchange (environment : Environment) (request : Request)
    (publishedContentUrls : option SiteUrls) (oktaTokenResp : FetchResponse)
  : Js.M Event (option Response) :=
  if negb (ok oktaTokenResp) then
    errorResponse <-- await_json oktaTokenResp ;;
    Js.emit (LoggerDebugJson errorResponse) ;;;
    Js.emit (LoggerDebug
      ("Did not receive access token. Error: "
         +:+ Js.or_empty (errorResponse ≫= error) +:+ " "
         +:+ Js.or_empty (errorResponse ≫= error_description))) ;;;
    Js.ret (Some (TextResponse "Error: Could not fetch token from Okta" 401))
  else
    oktaTokenData <-- await_json oktaTokenResp ;;
    match oktaTokenData with
    | None => Js.throw (Js.TypeError "Cannot read properties of null")
    | Some oktaTokenData =>
        match Js.narrow (access_token oktaTokenData) with
        | None =>
            Js.ret (Some (TextResponse
              "Error: No Access Token found in response from Okta" 401))
        | Some accessToken =>
            decodedPayload <-- decode accessToken ;;
            signAndRedirect environment request publishedContentUrls decodedPayload
        end
    end.

(** Lines 214-304: the handler of [GET /visitor-auth/response]. It answers
    nothing ([None]) when the installation has no site. *)
Definition visitorAuthResponse (environment : Environment)
    (siteInstallation : SiteInstallation) (installationURL : string)
    (request : Request) : Js.M Event (option Response) :=
  if Js.truthy (site siteInstallation) then
    publishedContentUrls <-- getPublishedContentUrls environment ;;
    let oktaDomain := okta_domain (configuration siteInstallation) in
    let clientId := client_id (configuration siteInstallation) in
    let clientSecret := client_secret (configuration siteInstallation) in
    match Js.narrow clientId, Js.narrow clientSecret, Js.narrow oktaDomain with
    | Some clientId, Some clientSecret, Some oktaDomain =>
        oktaTokenResp <--
          exchange (tokenRequest installationURL clientId clientSecret oktaDomain request) ;;
        afterExchange environment request publishedContentUrls oktaTokenResp
    | _, _, _ =>
        Js.ret (Some (TextResponse
          "Error: Either client id, client secret or okta domain is missing" 400))
    end
  else Js.ret None.

(** [error.status || 500] *)
Definition status_or_500 (e : Js.Error) : Z :=
  match Js.status_of e with
  | Some s => if s =? 0 then 500 else s
  | None => 500
  end.

(** [new Response(body, { status })] for a status that is not a literal:
    the constructor throws a [RangeError] for a status outside 200-599 and
    a [TypeError] for a body together with a status that allows none (204,
    205, 304). *)
Definition new_Response (body : string) (status : Z) : Js.M Event Response :=
  if negb ((200 <=? status) && (status <=? 599)) then
    Js.throw (Js.RangeError "The status provided is outside the range [200, 599]")
  else if (status =? 204) || (status =? 205) || (status =? 304) then
    Js.throw (Js.TypeError "Response with null body status cannot have body")
  else Js.ret (TextResponse body status).

(** Lines 306-322: what becomes of the router's result. A thrown error is
    logged and becomes a response with the error's message and status (the
    [catch] block throws in its turn when that status makes no response),
    no response becomes a 404. *)
Definition respond (request : Request) (handled : Js.M Event (option Response))
  : Js.M Event (option Response) :=
  match handled with
  | (t, Js.Throw error) =>
      (t, Js.Return tt) ;;;
      Js.emit (LoggerError "error handling request" error) ;;;
      response <-- new_Response (Js.message error) (status_or_500 error) ;;
      Js.ret (Some response)
  | (t, Js.Return None) =>
      (t, Js.Return (Some (TextResponse
         ("No route matching " +:+ method request +:+ " " +:+ url request) 404)))
  | (t, Js.Return (Some response)) => (t, Js.Return (Some response))
  end.

(** [handleFetchEvent]: parse the public endpoint (outside any [try]),
    route the request and respond. Without a public endpoint nothing is
    returned. *)
Definition handleFetchEvent (request : Request) (environment : Environment)
  : Js.M Event (option Response) :=
  siteInstallation <-- assertSiteInstallation environment ;;
  match Js.narrow (publicEndpoint siteInstallation) with
  | Some installationURL =>
      _ <-- new_URL installationURL ;;
      let base := pathname w installationURL in
      respond request
        (if routes w "GET" (base +:+ "/visitor-auth/response") request
         then visitorAuthResponse environment siteInstallation installationURL request
         else Js.ret None)
  | None => Js.ret None
  end.

(** [fetch_visitor_authentication]: redirect the visitor to the identity
    provider's authorization endpoint. *)
Definition fetch_visitor_authentication (event : VisitorAuthEvent)
    (environment : Environment) : Js.M Event Response :=
  siteInstallation <-- assertSiteInstallation environment ;;
  let installationURL := publicEndpoint siteInstallation in
  let configuration := configuration siteInstallation in
  let oktaDomain := okta_domain configuration in
  let clientId := client_id configuration in
  let location := Js.or_empty (location event) in
  match Js.narrow clientId, Js.narrow oktaDomain with
  | Some clientId, Some oktaDomain =>
      url <-- new_URL ("https://" +:+ oktaDomain +:+ "/oauth2/v1/authorize") ;;
      let url := searchParams_append url "client_id" clientId in
      let url := searchParams_append url "response_type" "code" in
      let url := searchParams_append url "redirect_uri"
                   (Js.interpolate installationURL +:+ "/visitor-auth/response") in
      let url := searchParams_append url "response_mode" "query" in
      let url := searchParams_append url "scope" "openid" in
      let url := searchParams_append url "state" ("state-" +:+ location) in
      Js.ret (Redirect url)
  | _, _ => Js.throw (Js.ExposableError "OIDC configuration is missing")
  end.

End Handlers.

(** *** Observations on a run *)

(** Line 222: [!clientId || !clientSecret || !oktaDomain]. *)
Definition missing (c : OktaSiteInstallationConfiguration) : bool :=
  negb (Js.truthy (client_id c))
  || negb (Js.truthy (client_secret c))
  || negb (Js.truthy (okta_domain c)).

(** The public endpoint parses and the router sends the request to
    [GET /visitor-auth/response] below its path (lines 210-214). *)
Definition is_callback (w : World) (installationURL : string) (request : Request) : bool :=
  parses w installationURL
  && routes w "GET" (pathname w installationURL +:+ "/visitor-auth/response") request.

(** All the search parameters of a URL: those its string carried, then
    those appended. *)
Definition parameters (w : World) (u : URL) : list (string * string) :=
  query w (href u) ++ searchParams u.

(** The token-exchange request a run issued, if it issued one. *)
Fixpoint exchangeOf (t : list Event) : option FetchRequest :=
  match t with
  | [] => None
  | TokenExchange req :: _ => Some req
  | _ :: rest => exchangeOf rest
  end.

(** The run called the signer. *)
Fixpoint signed (t : list Event) : bool :=
  match t with
  | [] => false
  | JwtSign _ _ :: _ => true
  | _ :: rest => signed rest
  end.

(** The run returned a response with this body and status. *)
Definition answers (m : Js.M Event (option Response)) (body : string) (status : Z) : Prop :=
  Js.completion m = Js.Return (Some (TextResponse body status)).

(** The run returned a redirect. *)
Definition redirects (m : Js.M Event (option Response)) : Prop :=
  exists target, Js.completion m = Js.Return (Some (Redirect target)).

(** The run of [handleFetchEvent] got as far as the exchange, with [req]
    as its request: the installation has a public endpoint that parses and
    a site, the router took the request for the callback, the organization
    id is there, the three configuration values are there, and the run is
    the lookup of the published URLs, the exchange, and [afterExchange],
    responded to. *)
Definition reaches_exchange (w : World) (request : Request)
    (environment : Environment) (req : FetchRequest) : Prop :=
  exists si installationURL orgId clientId clientSecret oktaDomain,
    siteInstallation environment = Some si
    /\ Js.narrow (publicEndpoint si) = Some installationURL
    /\ is_callback w installationURL request = true
    /\ Js.truthy (site si) = true
    /\ Js.narrow (organization environment) = Some orgId
    /\ Js.narrow (client_id (configuration si)) = Some clientId
    /\ Js.narrow (client_secret (configuration si)) = Some clientSecret
    /\ Js.narrow (okta_domain (configuration si)) = Some oktaDomain
    /\ req = tokenRequest installationURL clientId clientSecret oktaDomain request
    /\ handleFetchEvent w request environment
       = respond request
           (let rest := afterExchange w environment request
                          (getSiteById w orgId (site si)) (fetch w req) in
            (GetSiteById orgId (site si) :: TokenExchange req :: Js.trace rest,
             Js.completion rest)).

End Okta.

(** ** Webhook reconciliation with GitLab ([gitlab/src/events.ts]) *)

Module GitLab.

(** [IntegrationInstallationStatus] of the host's API. *)
Inductive IntegrationInstallationStatus :=
  | Active
  | Pending
  | Paused.

(** [a === b] on statuses. *)
Definition status_eqb (a b : IntegrationInstallationStatus) : bool :=
  match a, b with
  | Active, Active | Pending, Pending | Paused, Paused => true
  | _, _ => false
  end.

(** Modelled from the spec: the declaration of
    [GitLabSpaceInstallationConfiguration] ([./configuration]) is not among
    the sources. The fields are the ones [events.ts] reads, which are the
    spec's configuration fingerprint (project, auth token, host, ref) and
    the webhook id kept with it; each may be missing. *)
Record GitLabSpaceInstallationConfiguration := {
  project : option string;
  auth_token : option string;
  gitlab_host : option string;
  ref : option string;
  hook_id : option Z;
}.

(** [{ ...configuration, hook_id: newHookId }] *)
Definition with_hook_id (c : GitLabSpaceInstallationConfiguration) (id : Z)
  : GitLabSpaceInstallationConfiguration :=
  {| project := project c; auth_token := auth_token c;
     gitlab_host := gitlab_host c; ref := ref c; hook_id := Some id |}.

(** The second argument of [shouldUpdateGitLabWebHook]. *)
Record Previous := {
  status : IntegrationInstallationStatus;
  conf : GitLabSpaceInstallationConfiguration;
}.

(** [event.previous] *)
Record PreviousInstallation := {
  previous_status : IntegrationInstallationStatus;
  previous_configuration : option GitLabSpaceInstallationConfiguration;
}.

(** [SpaceInstallationSetupEvent] *)
Record SpaceInstallationSetupEvent := {
  event_status : IntegrationInstallationStatus;
  installationId : string;
  spaceId : string;
  previous : PreviousInstallation;
}.

(** [environment.spaceInstallation], with [urls.publicEndpoint] as
    [publicEndpoint]. *)
Record SpaceInstallation := {
  configuration : option GitLabSpaceInstallationConfiguration;
  publicEndpoint : string;
}.

(** [context.environment], with [integration.name] as [integration_name]. *)
Record Environment := {
  integration_name : string;
  spaceInstallation : option SpaceInstallation;
}.

(** Calls that leave the adapter. *)
Inductive Event :=
  | ConsoleInfo (msg : string)
  | UninstallWebhook (hookId : Z) (config : GitLabSpaceInstallationConfiguration)
  | InstallWebhook (webhookUrl : string) (config : GitLabSpaceInstallationConfiguration)
  | UpdateIntegrationSpaceInstallation (integrationName installation space : string)
      (config : GitLabSpaceInstallationConfiguration).

(** Modelled from the spec: [installGitLabWebhook] and
    [uninstallGitLabWebhook] ([./webhooks]) are not among the sources.
    Installing registers a webhook with the provider and yields the
    identifier the provider assigned to it; uninstalling removes the
    registration with the given identifier. *)
Record World := {
  installGitLabWebhook : string -> GitLabSpaceInstallationConfiguration -> Z;
}.

(** [shouldUpdateGitLabWebHook] *)
Definition shouldUpdateGitLabWebHook (newConf : GitLabSpaceInstallationConfiguration)
    (previous : Previous) : Js.Value :=
  Js.or
    (Js.or
       (Js.or
          (Js.VBool (Js.strict_ne (project newConf) (project (conf previous))))
          (Js.VBool (Js.strict_ne (auth_token newConf) (auth_token (conf previous)))))
       (Js.VBool (Js.strict_ne (gitlab_host newConf) (gitlab_host (conf previous)))))
    (Js.and
       (Js.and
          (Js.VBool (status_eqb (status previous) Pending))
          (Js.VBool (negb (Js.truthy (ref (conf previous))))))
       (Js.of_string (ref newConf))).

Section Handler.

Variable w : World.

(** Lines 70-99: replace the webhook and record the new identifier. *)
Definition replaceWebhook (event : SpaceInstallationSetupEvent)
    (environment : Environment) (publicEndpoint : string)
    (configuration : GitLabSpaceInstallationConfiguration)
    (previousConfig : option GitLabSpaceInstallationConfiguration)
  : Js.M Event unit :=
  let prevHookId := previous_configuration (previous event) ≫= hook_id in
  match previousConfig, Js.narrow_num prevHookId with
  | Some previousConfig, Some prevHookId =>
      Js.emit (ConsoleInfo
        ("A webhook (ID: " +:+ pretty prevHookId
           +:+ ") is already installed in GitLab project "
           +:+ Js.interpolate (project previousConfig)
           +:+ " for Space installation " +:+ installationId event
           +:+ "/" +:+ spaceId event +:+ ". Uninstalling.")) ;;;
      Js.emit (UninstallWebhook prevHookId previousConfig)
  | _, _ => Js.ret tt
  end ;;;
  let webhookUrl := publicEndpoint +:+ "/webhook" in
  Js.emit (InstallWebhook webhookUrl configuration) ;;;
  let newHookId := installGitLabWebhook w webhookUrl configuration in
  Js.emit (UpdateIntegrationSpaceInstallation (integration_name environment)
             (installationId event) (spaceId event)
             (with_hook_id configuration newHookId)) ;;;
  Js.emit (ConsoleInfo
    ("Webhook ID: " +:+ pretty newHookId
       +:+ " installed in GitLab project "
       +:+ Js.interpolate (project configuration)
       +:+ " for Space installation " +:+ installationId event
       +:+ "/" +:+ spaceId event +:+ ".")).

(** [handleSpaceInstallationSetupEvent] *)
Definition handleSpaceInstallationSetupEvent (event : SpaceInstallationSetupEvent)
    (environment : Environment) : Js.M Event unit :=
  if status_eqb (event_status event) Pending then
    Js.emit (ConsoleInfo
      ("GitLab integration Space installation " +:+ spaceId event
         +:+ "/" +:+ installationId event +:+ " is not complete. Skipping."))
  else
    match spaceInstallation environment with
    | None =>
        Js.throw (Js.TypeError "Cannot destructure property of undefined")
    | Some installation =>
        if status_eqb (event_status event) Active then
          match configuration installation with
          | Some configuration =>
              if negb (Js.truthy (project configuration))
                 || negb (Js.truthy (auth_token configuration))
              then
                Js.throw (Js.PlainError
                  ("No GitLab project or auth token provided for Space installation "
                     +:+ spaceId event +:+ "/" +:+ installationId event))
              else
                let previousConfig := previous_configuration (previous event) in
                let unchanged :=
                  match previousConfig with
                  | Some previousConfig =>
                      negb (Js.truthy_value
                              (shouldUpdateGitLabWebHook configuration
                                 {| status := previous_status (previous event);
                                    conf := previousConfig |}))
                  | None => false
                  end in
                if unchanged then Js.ret tt
                else replaceWebhook event environment (publicEndpoint installation)
                       configuration previousConfig
          | None =>
              Js.throw (Js.PlainError
                ("No GitLab project or auth token provided for Space installation "
                   +:+ spaceId event +:+ "/" +:+ installationId event))
          end
        else Js.ret tt
    end.

End Handler.

(** *** Observations on a run *)

(** The webhook actions: install, uninstall, configuration update. *)
Definition is_action (e : Event) : bool :=
  match e with
  | ConsoleInfo _ => false
  | UninstallWebhook _ _ | InstallWebhook _ _
  | UpdateIntegrationSpaceInstallation _ _ _ _ => true
  end.

Definition actions (t : list Event) : list Event := List.filter is_action t.

(** The webhook identifier a configuration records, if it records one
    (a missing identifier and the number 0 count as none, as in
    [if (previousConfig && prevHookId)]). *)
Definition recorded_hook (c : option GitLabSpaceInstallationConfiguration) : option Z :=
  Js.narrow_num (c ≫= hook_id).

(** The webhooks registered with the provider for the installation after
    the calls of [t], starting from [hooks]: uninstalling removes the
    identifier, installing adds the one the provider assigns. *)
Fixpoint registered (w : World) (hooks : list Z) (t : list Event) : list Z :=
  match t with
  | [] => hooks
  | UninstallWebhook hookId _ :: rest =>
      registered w (List.filter (fun h => negb (h =? hookId)) hooks) rest
  | InstallWebhook webhookUrl config :: rest =>
      registered w (installGitLabWebhook w webhookUrl config :: hooks) rest
  | _ :: rest => registered w hooks rest
  end.

(** The identifier a run wrote back to the installation's configuration. *)
Fixpoint persisted_hook (t : list Event) : option Z :=
  match t with
  | [] => None
  | UpdateIntegrationSpaceInstallation _ _ _ config :: rest =>
      match persisted_hook rest with
      | Some id => Some id
      | None => hook_id config
      end
  | _ :: rest => persisted_hook rest
  end.

End GitLab.

(** ** The configuration component of the Okta adapter
    ([configBlock], lines 52-171) *)

Module OktaComponent.

(** [props.siteInstallation], of which only [configuration] is read. *)
Record PropsSiteInstallation := {
  props_configuration : option Okta.OktaSiteInstallationConfiguration;
}.

(** [OktaProps]; [props.installation] is never read. *)
Record OktaProps := {
  props_siteInstallation : option PropsSiteInstallation;
}.

(** [props.siteInstallation?.configuration?.<field>] *)
Definition configured (props : OktaProps)
    (field : Okta.OktaSiteInstallationConfiguration -> option string) : option string :=
  match props_siteInstallation props with
  | Some siteInstallation =>
      match props_configuration siteInstallation with
      | Some configuration => field configuration
      | None => None
      end
  | None => None
  end.

(** [initialState]: each field is the configured value, [''] in its
    place when there is none. *)
Definition initialState (props : OktaProps) : Okta.OktaSiteInstallationConfiguration :=
  {| Okta.client_id := Some (Js.or_empty (configured props Okta.client_id));
     Okta.okta_domain := Some (Js.or_empty (configured props Okta.okta_domain));
     Okta.client_secret := Some (Js.or_empty (configured props Okta.client_secret)) |}.

(** The environment of the component: the adapter's environment, with the
    [integration] and [installation] identifiers of its site installation
    (read only once the installation is known to be there). *)
Record ComponentEnvironment := {
  environment : Okta.Environment;
  integration : string;
  installation : string;
}.

(** The one call the component makes:
    [api.integrations.updateIntegrationSiteInstallation]. *)
Inductive Call :=
  | UpdateIntegrationSiteInstallation (integration installation : string)
      (site : option string) (configuration : Okta.OktaSiteInstallationConfiguration).

(** [{ type: 'complete' }] *)
Inductive ActionResult := Complete.

(** [assertSiteInstallation], called from the component. *)
Definition assertSiteInstallation (e : Okta.Environment)
  : Js.M Call Okta.SiteInstallation :=
  match Js.completion (Okta.assertSiteInstallation e) with
  | Js.Return siteInstallation => Js.ret siteInstallation
  | Js.Throw error => Js.throw error
  end.

(** [action], for its only action [save.config]: the configuration is the
    installation's, with the three fields of the element's state written
    over it. *)
Definition action (state : Okta.OktaSiteInstallationConfiguration)
    (context : ComponentEnvironment) : Js.M Call ActionResult :=
  siteInstallation <-- assertSiteInstallation (environment context) ;;
  let configurationBody :=
    {| Okta.client_id := Okta.client_id state;
       Okta.okta_domain := Okta.okta_domain state;
       Okta.client_secret := Okta.client_secret state |} in
  Js.emit (UpdateIntegrationSiteInstallation (integration context) (installation context)
             (Okta.site siteInstallation) configurationBody) ;;;
  Js.ret Complete.

(** Line 90 of [render]: the URL shown as the sign-in redirect URI. *)
Definition VACallbackURL (e : Okta.Environment) : string :=
  Js.interpolate (Okta.siteInstallation e ≫= Okta.publicEndpoint)
    +:+ "/visitor-auth/response".

(** The props the component gets once [configuration] is the site
    installation's configuration. *)
Definition props_of (configuration : Okta.OktaSiteInstallationConfiguration) : OktaProps :=
  {| props_siteInstallation := Some {| props_configuration := Some configuration |} |}.

(** The configuration a run of [action] wrote, if it wrote one. *)
Definition written (t : list Call) : option Okta.OktaSiteInstallationConfiguration :=
  match t with
  | UpdateIntegrationSiteInstallation _ _ _ configuration :: _ => Some configuration
  | [] => None
  end.

End OktaComponent.

(** ** Reading the runs of the Okta adapter *)

Module OktaTrace.

(** The first value under [name] in a list of parameters: for the list
    appended to a URL, the value first appended under that name. *)
Fixpoint get (params : list (string * string)) (name : string) : option string :=
  match params with
  | [] => None
  | (n, v) :: rest => if String.eqb n name then Some v else get rest name
  end.

(** The value a form body carries under [name]. *)
Definition field (req : Okta.FetchRequest) (name : string) : option string :=
  get (Okta.fetch_body req) name.

(** The calls to the outside, by kind; log lines are no calls. *)
Inductive Kind := Lookup | Exchange | Sign.

Definition kind (e : Okta.Event) : option Kind :=
  match e with
  | Okta.GetSiteById _ _ => Some Lookup
  | Okta.TokenExchange _ => Some Exchange
  | Okta.JwtSign _ _ => Some Sign
  | Okta.LoggerDebugJson _ | Okta.LoggerDebug _ | Okta.LoggerError _ _ => None
  end.

Definition kinds (t : list Okta.Event) : list Kind := omap kind t.

(** The world [w], with the error detail of every reply of the identity
    provider that holds an object replaced by [detail]; status and access
    token stay, and so do the replies that hold no object. *)
Definition with_error_detail (w : Okta.World)
    (detail : Okta.FetchRequest -> option string * option string) : Okta.World :=
  {| Okta.now := Okta.now w;
     Okta.parses := Okta.parses w;
     Okta.pathname := Okta.pathname w;
     Okta.query := Okta.query w;
     Okta.routes := Okta.routes w;
     Okta.getSiteById := Okta.getSiteById w;
     Okta.fetch := fun req =>
       {| Okta.http_status := Okta.http_status (Okta.fetch w req);
          Okta.body :=
            match Okta.body (Okta.fetch w req) with
            | Js.Return (Some object) =>
                Js.Return (Some
                  {| Okta.error := fst (detail req);
                     Okta.error_description := snd (detail req);
                     Okta.access_token := Okta.access_token object |})
            | other => other
            end |};
     Okta.jwt_decode := Okta.jwt_decode w;
     Okta.jwt_sign := Okta.jwt_sign w |}.

(** The 404 of line 317. *)
Definition not_found (request : Okta.Request) : Okta.Response :=
  Okta.TextResponse
    ("No route matching " +:+ Okta.method request +:+ " " +:+ Okta.url request) 404.

End OktaTrace.

(** ** Commit statuses for Git Sync ([gitlab/src/events.ts], lines 103-178) *)

Module GitLabSync.

(** The [state] of a commit status. *)
Inductive CommitState := Running | Success | Failure.

(** The [state] of a [space_gitsync_completed] event. *)
Inductive CompletedState := Succeeded | Failed.

Definition state_of (s : CompletedState) : CommitState :=
  match s with
  | Succeeded => Success
  | Failed => Failure
  end.

(** [revisionUrls]: the link to the app, and the public link if the space
    has one. *)
Record PreviewLinks := {
  app : string;
  public : option string;
}.

(** [SpaceGitSyncStartedEvent | SpaceGitSyncCompletedEvent] *)
Inductive GitSyncEvent :=
  | SpaceGitSyncStarted (commitId : string) (revisionUrls : PreviewLinks)
  | SpaceGitSyncCompleted (commitId : string) (revisionUrls : PreviewLinks)
      (state : CompletedState).

(** The status sent to GitLab. *)
Record CommitStatus := {
  context : string;
  description : string;
  state : CommitState;
  url : string;
}.

(** A call of [updateGitLabProjectCommitStatus], with its arguments. *)
Inductive Call :=
  | UpdateGitLabProjectCommitStatus (project : option string) (commitSha : string)
      (status : CommitStatus) (config : GitLab.GitLabSpaceInstallationConfiguration).

(** What the outside answers.
    - [hostname s] is [new URL(s).hostname], [None] when [new URL(s)]
      throws its [TypeError];
    - [rejects call] is the error the provider's API fails the call with,
      [None] when the call goes through. *)
Record World := {
  hostname : string -> option string;
  rejects : Call -> option Js.Error;
}.

(** [getCommitStatusDescription] *)
Definition getCommitStatusDescription (state : CommitState) : string :=
  match state with
  | Success => "Content is live on GitBook"
  | Failure => "Error while updating content, contact GitBook support"
  | _ => "Updating content on GitBook..."
  end.

Section Handlers.

Variable w : World.

(** Modelled from the spec: [updateGitLabProjectCommitStatus] ([./gitlab])
    is not among the sources; it is a pass-through call to the provider's
    REST API, recorded with its arguments, that resolves or rejects as the
    provider decides. *)
Definition updateGitLabProjectCommitStatus (project : option string) (commitSha : string)
    (status : CommitStatus) (config : GitLab.GitLabSpaceInstallationConfiguration)
  : Js.M Call unit :=
  let call := UpdateGitLabProjectCommitStatus project commitSha status config in
  Js.emit call ;;;
  match rejects w call with
  | Some e => Js.throw e
  | None => Js.ret tt
  end.

(** [updateCommitStatusWithPreviewLinks]; reading [configuration.project]
    of a missing configuration is a [TypeError], and so is a public link
    that is no URL. *)
Definition updateCommitStatusWithPreviewLinks (commitSha : string) (state : CommitState)
    (previewLinks : PreviewLinks)
    (configuration : option GitLab.GitLabSpaceInstallationConfiguration)
  : Js.M Call unit :=
  match Js.narrow (public previewLinks) with
  | Some publicUrl =>
      match configuration with
      | Some configuration =>
          match hostname w publicUrl with
          | Some host =>
              updateGitLabProjectCommitStatus (GitLab.project configuration) commitSha
                {| context := "GitBook - " +:+ host;
                   description := getCommitStatusDescription state;
                   state := state;
                   url := publicUrl |}
                configuration
          | None => Js.throw (Js.TypeError "Invalid URL")
          end
      | None => Js.throw (Js.TypeError "Cannot read properties of undefined")
      end
  | None => Js.ret tt
  end ;;;
  match configuration with
  | Some configuration =>
      updateGitLabProjectCommitStatus (GitLab.project configuration) commitSha
        {| context := "GitBook";
           description := getCommitStatusDescription state;
           state := state;
           url := app previewLinks |}
        configuration
  | None => Js.throw (Js.TypeError "Cannot read properties of undefined")
  end.

Definition commitId (event : GitSyncEvent) : string :=
  match event with
  | SpaceGitSyncStarted c _ => c
  | SpaceGitSyncCompleted c _ _ => c
  end.

Definition revisionUrls (event : GitSyncEvent) : PreviewLinks :=
  match event with
  | SpaceGitSyncStarted _ u => u
  | SpaceGitSyncCompleted _ u _ => u
  end.

(** [event.type === 'space_gitsync_completed' ? event.state : 'running'] *)
Definition status_of (event : GitSyncEvent) : CommitState :=
  match event with
  | SpaceGitSyncCompleted _ _ s => state_of s
  | SpaceGitSyncStarted _ _ => Running
  end.

(** [handleSpaceGitSyncProgressStatusEvents] *)
Definition handleSpaceGitSyncProgressStatusEvents (event : GitSyncEvent)
    (environment : GitLab.Environment) : Js.M Call unit :=
  match GitLab.spaceInstallation environment with
  | None => Js.ret tt
  | Some spaceInstallation =>
      updateCommitStatusWithPreviewLinks (commitId event) (status_of event)
        (revisionUrls event) (GitLab.configuration spaceInstallation)
  end.

End Handlers.

(** The statuses a run sent, in order. *)
Definition statuses (t : list Call) : list CommitStatus :=
  List.map (fun c => match c with UpdateGitLabProjectCommitStatus _ _ s _ => s end) t.

End GitLabSync.

(** ** Concrete inputs, used to run the procedures *)

Module Examples.

Import Okta.

(** The claims of an access token with subject, email and time stamps. *)
Definition claims : gmap string Json :=
  {[ "sub" := JStr "u1"; "email" := JStr "a@b.com";
     "iat" := JNum 1000; "exp" := JNum 2000 ]}.

(** A world whose identity provider answers every exchange with [reply],
    whose URL parser accepts the strings that start with [https://] and
    hold no space, whose router matches on method alone, whose decoder
    throws on a token without a dot, and whose signer prefixes the key with
    [signed:]. *)
Definition world (reply : FetchResponse) : World :=
  {| now := 1700000000123;
     parses := fun s => String.prefix "https://" s && Js.lacks " " s;
     pathname := fun _ => "/v1/integrations/okta";
     query := fun _ => [];
     routes := fun m _ r => String.eqb (method r) m;
     getSiteById := fun _ _ => Some {| published := Some "https://docs.example.com" |};
     fetch := fun _ => reply;
     jwt_decode := fun token =>
       if Js.lacks "." token
       then Js.Throw (Js.TypeError "Cannot read properties of undefined")
       else Js.Return (Some claims);
     jwt_sign := fun _ key => Some ("signed:" +:+ key) |}.

Definition granted : FetchResponse :=
  {| http_status := 200;
     body := Js.Return (Some
       {| error := None; error_description := None;
          access_token := Some "header.payload.signature" |}) |}.

Definition invalid_grant : FetchResponse :=
  {| http_status := 401;
     body := Js.Return (Some
       {| error := Some "invalid_grant";
          error_description := Some "The authorization code is invalid";
          access_token := None |}) |}.


(** A 502 with an empty body: [json()] rejects. *)
Definition bad_gateway : FetchResponse :=
  {| http_status := 502;
     body := Js.Throw (Js.Raised "Unexpected end of JSON input" None) |}.


(** A 200 whose access token is no JWT. *)
Definition opaque_token : FetchResponse :=
  {| http_status := 200;
     body := Js.Return (Some
       {| error := None; error_description := None; access_token := Some "abc" |}) |}.

Definition full_configuration : OktaSiteInstallationConfiguration :=
  {| client_id := Some "cid"; okta_domain := Some "dev.okta.com";
     client_secret := Some "secret" |}.

(** The configuration with the client id left out. *)
Definition no_client_id : OktaSiteInstallationConfiguration :=
  {| client_id := None; okta_domain := Some "dev.okta.com";
     client_secret := Some "secret" |}.

(** A configuration whose domain was typed with a space. *)
Definition spaced_domain : OktaSiteInstallationConfiguration :=
  {| client_id := Some "cid"; okta_domain := Some "dev okta.com";
     client_secret := Some "secret" |}.

Definition installed (c : OktaSiteInstallationConfiguration) : SiteInstallation :=
  {| site := Some "site_1";
     publicEndpoint := Some "https://integrations.example.com/v1/integrations/okta";
     configuration := c |}.

(** An installation that is bound to no site. *)
Definition siteless (c : OktaSiteInstallationConfiguration) : SiteInstallation :=
  {| site := None;
     publicEndpoint := Some "https://integrations.example.com/v1/integrations/okta";
     configuration := c |}.

Definition environment (c : OktaSiteInstallationConfiguration)
    (org key : option string) : Environment :=
  {| siteInstallation := Some (installed c); organization := org; signingSecret := key |}.

Definition callback (state : option string) : Request :=
  {| method := "GET";
     url := "https://integrations.example.com/v1/integrations/okta/visitor-auth/response";
     query_code := Some "abc";
     query_state := state |}.

(** A fully configured installation, with signing key [key]. *)
Definition configured (key : option string) : Environment :=
  environment full_configuration (Some "org_1") key.

(** The exchange request the handler builds for [callback state] in a
    configured installation. *)
Definition exchange_request (state : option string) : FetchRequest :=
  tokenRequest "https://integrations.example.com/v1/integrations/okta"
    "cid" "secret" "dev.okta.com" (callback state).

(** GitLab: a configuration for project [p] that records webhook [hook]. *)
Definition gitlab_configuration (p : string) (token : option string) (hook : option Z)
  : GitLab.GitLabSpaceInstallationConfiguration :=
  {| GitLab.project := Some p; GitLab.auth_token := token;
     GitLab.gitlab_host := Some "https://gitlab.com";
     GitLab.ref := Some "refs/heads/main"; GitLab.hook_id := hook |}.

(** The provider assigns identifier 42 to every webhook it registers. *)
Definition gitlab_world : GitLab.World :=
  {| GitLab.installGitLabWebhook := fun _ _ => 42 |}.

Definition gitlab_environment (c : GitLab.GitLabSpaceInstallationConfiguration)
  : GitLab.Environment :=
  {| GitLab.integration_name := "gitlab";
     GitLab.spaceInstallation :=
       Some {| GitLab.configuration := Some c;
               GitLab.publicEndpoint := "https://integrations.example.com/gitlab" |} |}.

(** A setup event with status [s] whose previous configuration was for
    project [old], with status [Active] and webhook [hook]. *)
Definition setup (s : GitLab.IntegrationInstallationStatus) (old : string)
    (hook : option Z) : GitLab.SpaceInstallationSetupEvent :=
  {| GitLab.event_status := s;
     GitLab.installationId := "inst_1";
     GitLab.spaceId := "space_1";
     GitLab.previous :=
       {| GitLab.previous_status := GitLab.Active;
          GitLab.previous_configuration :=
            Some (gitlab_configuration old (Some "glpat-token") hook) |} |}.

(** The world of [world granted], with a signer that throws. *)
Definition failing_signer : World :=
  {| now := now (world granted);
     parses := parses (world granted);
     pathname := pathname (world granted);
     query := query (world granted);
     routes := routes (world granted);
     getSiteById := getSiteById (world granted);
     fetch := fetch (world granted);
     jwt_decode := jwt_decode (world granted);
     jwt_sign := fun _ _ => None |}.

(** The world of [world granted], with a site that is not published. *)
Definition unpublished : World :=
  {| now := now (world granted);
     parses := parses (world granted);
     pathname := pathname (world granted);
     query := query (world granted);
     routes := routes (world granted);
     getSiteById := fun _ _ => Some {| published := None |};
     fetch := fetch (world granted);
     jwt_decode := jwt_decode (world granted);
     jwt_sign := jwt_sign (world granted) |}.

(** Git Sync: a link without a space is a URL on the host
    [docs.example.com], any other string is no URL; the provider accepts
    every status. *)
Definition sync_world : GitLabSync.World :=
  {| GitLabSync.hostname := fun s =>
       if Js.lacks " " s then Some "docs.example.com" else None;
     GitLabSync.rejects := fun _ => None |}.

(** The world of [sync_world], with a provider that refuses every status
    (the token has expired). *)
Definition sync_refused : GitLabSync.World :=
  {| GitLabSync.hostname := GitLabSync.hostname sync_world;
     GitLabSync.rejects := fun _ => Some (Js.Raised "401 Unauthorized" (Some 401)) |}.

Definition links (public : option string) : GitLabSync.PreviewLinks :=
  {| GitLabSync.app := "https://app.gitbook.com/s/space_1/~/revisions/r1";
     GitLabSync.public := public |}.

End Examples.

(** * Properties *)

(** ** Strings: [indexOf] and [substring] *)

Section StringFacts.

Lemma narrow_truthy (o : option string) :
  Js.truthy o = true <-> exists s, Js.narrow o = Some s.
Proof.
  destruct o as [s|]; cbn.
  - destruct (String.eqb s ""); cbn; split; intros H;
      try discriminate; eauto; destruct H as [? H]; discriminate.
  - split; [discriminate | intros [? H]; discriminate].
Qed.

Lemma narrow_None_falsy (o : option string) :
  Js.narrow o = None <-> Js.truthy o = false.
Proof.
  destruct o as [s|]; cbn; [destruct (String.eqb s "")|]; cbn;
    split; congruence.
Qed.

Lemma narrow_Some (o : option string) (s : string) :
  Js.narrow o = Some s -> o = Some s /\ s <> "".
Proof.
  destruct o as [s'|]; cbn; [|discriminate].
  destruct (String.eqb_spec s' ""); [discriminate|].
  intros [= ->]; auto.
Qed.

Lemma narrow_nonempty (s : string) : s <> "" -> Js.narrow (Some s) = Some s.
Proof.
  intros Hs; cbn. destruct (String.eqb_spec s ""); congruence.
Qed.

Lemma substring_0 (s : string) : Js.substring s 0 = s.
Proof. reflexivity. Qed.

(** Without an occurrence, [indexOf] answers [-1]. *)
Lemma indexOf_lacks (c : ascii) (s : string) :
  Js.lacks c s = true -> Js.indexOf s c = -1.
Proof.
  induction s as [|a rest IH]; cbn; [reflexivity|].
  destruct (Ascii.eqb a c); cbn; [discriminate|].
  intros H. rewrite (IH H). reflexivity.
Qed.

Lemma indexOf_nonneg_or_absent (c : ascii) (s : string) :
  -1 <= Js.indexOf s c.
Proof.
  induction s as [|a rest IH]; cbn; [lia|].
  destruct (Ascii.eqb a c); [lia|].
  destruct (Z.ltb_spec (Js.indexOf rest c) 0); lia.
Qed.

(** [indexOf] finds the first occurrence: after a prefix without [c] it
    answers the prefix's length. *)
Lemma indexOf_first (c : ascii) (pre rest : string) :
  Js.lacks c pre = true ->
  Js.indexOf (pre +:+ String c rest) c = Z.of_nat (String.length pre).
Proof.
  induction pre as [|a pre IH]; simpl.
  - rewrite Ascii.eqb_refl. reflexivity.
  - destruct (Ascii.eqb a c); simpl; [discriminate|].
    intros H. rewrite (IH H).
    destruct (Z.ltb_spec (Z.of_nat (String.length pre)) 0); lia.
Qed.

Lemma drop_chars_past (c : ascii) (pre rest : string) :
  Js.drop_chars (S (String.length pre)) (pre +:+ String c rest) = rest.
Proof.
  induction pre as [|a pre IH]; [reflexivity|]. exact IH.
Qed.

(** The text after the first [c]. *)
Lemma substring_after_first (c : ascii) (pre rest : string) :
  Js.lacks c pre = true ->
  let s := pre +:+ String c rest in
  Js.substring s (Js.indexOf s c + 1) = rest.
Proof.
  intros H s. subst s. rewrite (indexOf_first _ _ _ H).
  unfold Js.substring.
  replace (Z.to_nat (Z.max 0 (Z.of_nat (String.length pre) + 1)))
    with (S (String.length pre)) by lia.
  apply drop_chars_past.
Qed.

End StringFacts.

(** ** The state parameter *)

(** Whatever comes before the first [-], the decoded location is the text
    after it. *)
Lemma decodeLocation_after_first_dash (pre rest : string) :
  Js.lacks "-" pre = true ->
  Okta.decodeLocation (Some (pre +:+ String "-" rest)) = rest.
Proof.
  intros H. unfold Okta.decodeLocation.
  rewrite narrow_nonempty by (destruct pre; discriminate).
  exact (substring_after_first "-" pre rest H).
Qed.

(** C3: a state [state-<location>] decodes to [<location>], the text after
    the first [-], so every [-] inside the location is kept; and
    [state-/docs/page] decodes to [/docs/page]. *)
Theorem decodeLocation_state_prefix :
  (forall location : string,
      Okta.decodeLocation (Some ("state-" +:+ location)) = location)
  /\ Okta.decodeLocation (Some "state-/docs/page") = "/docs/page"
  /\ Okta.decodeLocation (Some "state-/a-b/c--d") = "/a-b/c--d".
Proof.
  split; [|split; reflexivity].
  intros location.
  exact (decodeLocation_after_first_dash "state" location eq_refl).
Qed.

(** C2, as the code has it: a non-empty state without any [-] decodes to
    the state itself ([indexOf] answers [-1], so the substring starts at
    0). *)
Theorem decodeLocation_no_dash (state : string) :
  state <> "" ->
  Js.lacks "-" state = true ->
  Okta.decodeLocation (Some state) = state.
Proof.
  intros Hne Hlacks. unfold Okta.decodeLocation.
  rewrite (narrow_nonempty _ Hne), (indexOf_lacks _ _ Hlacks).
  apply substring_0.
Qed.

Lemma decodeLocation_no_dash_witness :
  "home" <> "" /\ Js.lacks "-" "home" = true
  /\ Okta.decodeLocation (Some "home") = "home".
Proof.
  split; [discriminate|]. split; [reflexivity|].
  apply (decodeLocation_no_dash "home"); [discriminate | reflexivity].
Defined.

(** C2 as stated fails: the state [home] is not empty and has no [-], and
    its decoded location is [home], not the empty string. *)
Lemma decodeLocation_no_dash_not_empty :
  "home" <> "" /\ Js.lacks "-" "home" = true
  /\ Okta.decodeLocation (Some "home") = "home"
  /\ Okta.decodeLocation (Some "home") <> "".
Proof.
  repeat split; discriminate.
Qed.

(** ** Claims *)

(** [sanitizeJWTTokenClaims] drops [iat] and [exp], stores nothing for
    [__proto__], and keeps every other entry as it is. *)
Lemma sanitizeJWTTokenClaims_lookup (claims : gmap string Okta.Json) (key : string) :
  Okta.sanitizeJWTTokenClaims claims !! key
  = if bool_decide (key ∈ ["iat"; "exp"; "__proto__"]) then None else claims !! key.
Proof.
  unfold Okta.sanitizeJWTTokenClaims.
  apply (map_fold_weak_ind
           (fun (result : gmap string Okta.Json) (m : gmap string Okta.Json) =>
              result !! key
              = if bool_decide (key ∈ ["iat"; "exp"; "__proto__"]) then None
                else m !! key)).
  - rewrite !lookup_empty. by case_bool_decide.
  - intros k v m result Hfresh IH. unfold Okta.assign.
    destruct (decide (key = k)) as [->|Hne].
    + rewrite lookup_insert_eq.
      destruct (bool_decide_reflect (k ∈ ["iat"; "exp"])) as [Hstamp|Hstamp].
      * assert (k ∈ ["iat"; "exp"; "__proto__"]) as Hin
          by (rewrite !elem_of_cons in *; tauto).
        rewrite (bool_decide_eq_true_2 _ Hin) in *. exact IH.
      * destruct (bool_decide_reflect (k = "__proto__")) as [Hproto|Hproto].
        -- assert (k ∈ ["iat"; "exp"; "__proto__"]) as Hin
             by (rewrite !elem_of_cons; tauto).
           rewrite (bool_decide_eq_true_2 _ Hin) in *. exact IH.
        -- assert (k ∉ ["iat"; "exp"; "__proto__"]) as Hout
             by (rewrite !not_elem_of_cons in *; rewrite elem_of_nil; tauto).
           rewrite (bool_decide_eq_false_2 _ Hout).
           by rewrite lookup_insert_eq.
    + rewrite (lookup_insert_ne m) by done.
      destruct (bool_decide (k ∈ ["iat"; "exp"])); [done|].
      destruct (bool_decide (k = "__proto__")); [done|].
      by rewrite lookup_insert_ne.
Qed.



(** The spec's round trip: [sub] and [email] stay, the token's own [iat]
    and [exp] go, the new [exp] is one hour from now. *)
Example signedClaims_round_trip :
  Okta.signedClaims 1700000000123 (Some Examples.claims)
  = {[ "sub" := Okta.JStr "u1"; "email" := Okta.JStr "a@b.com";
       "exp" := Okta.JNum 1700003600 ]}.
Proof. vm_compute. reflexivity. Qed.

(** A token whose payload cannot be read is signed as the empty claims
    plus [exp]. *)
Lemma signedClaims_no_payload (now_ms : Z) :
  Okta.signedClaims now_ms None = {[ "exp" := Okta.JNum (now_ms / 1000 + 3600) ]}.
Proof. reflexivity. Qed.

(** ** The callback handler *)

Lemma bind_ret {E A B : Type} (a : A) (k : A -> Js.M E B) :
  Js.bind (Js.ret a) k = k a.
Proof. unfold Js.bind, Js.ret. destruct (k a) as [t r]. reflexivity. Qed.

Lemma ok_2xx (reply : Okta.FetchResponse) :
  Okta.ok reply = true <-> 200 <= Okta.http_status reply <= 299.
Proof. unfold Okta.ok. lia. Qed.

Lemma or_empty_Some (s : string) : Js.or_empty (Some s) = s.
Proof. unfold Js.or_empty. cbn. destruct (String.eqb_spec s ""); congruence. Qed.

(** An access token read through [json] is the access token of the object
    the body holds. *)
Lemma json_token (reply : Okta.FetchResponse) (token : string) :
  Js.narrow (Okta.access_token (Okta.json reply)) = Some token ->
  exists object,
    Okta.body reply = Js.Return (Some object)
    /\ Js.narrow (Okta.access_token object) = Some token.
Proof.
  unfold Okta.json. destruct (Okta.body reply) as [[object|]|e]; cbn; [eauto|discriminate..].
Qed.

(** Log lines are neither exchanges nor signatures. *)
Lemma exchangeOf_log (t : list Okta.Event) (msg : string) (e : Js.Error) :
  Okta.exchangeOf (t ++ [Okta.LoggerError msg e]) = Okta.exchangeOf t.
Proof. induction t as [|[] t IH]; cbn; auto. Qed.

Lemma signed_log (t : list Okta.Event) (msg : string) (e : Js.Error) :
  Okta.signed (t ++ [Okta.LoggerError msg e]) = Okta.signed t.
Proof. induction t as [|[] t IH]; cbn; auto. Qed.

Lemma kinds_log (t : list Okta.Event) (msg : string) (e : Js.Error) :
  OktaTrace.kinds (t ++ [Okta.LoggerError msg e]) = OktaTrace.kinds t.
Proof.
  unfold OktaTrace.kinds. rewrite omap_app. cbn. apply app_nil_r.
Qed.

(** The status of the response made of a caught error. *)
Lemma status_or_500_cases (e : Js.Error) :
  Okta.status_or_500 e = 500
  \/ exists s, Js.status_of e = Some s /\ s <> 0 /\ Okta.status_or_500 e = s.
Proof.
  unfold Okta.status_or_500. destruct (Js.status_of e) as [s|]; [|by left].
  destruct (Z.eqb_spec s 0); [by left|right; eauto].
Qed.

(** [new Response] returns a response with the body and status it was
    given, or throws for a status that makes no response. *)
Lemma new_Response_cases (body : string) (status : Z) :
  (200 <= status <= 599 /\ (status ∉ [204; 205; 304])
   /\ Okta.new_Response body status = ([], Js.Return (Okta.TextResponse body status)))
  \/ ((~ 200 <= status <= 599 \/ status ∈ [204; 205; 304])
      /\ exists e, Okta.new_Response body status = ([], Js.Throw e)).
Proof.
  unfold Okta.new_Response.
  destruct ((200 <=? status) && (status <=? 599)) eqn:Hrange; cbn [negb].
  - destruct ((status =? 204) || (status =? 205) || (status =? 304)) eqn:Hnull.
    + right. split; [|eauto]. right. rewrite !elem_of_cons. lia.
    + left. split; [lia|]. split; [|reflexivity].
      rewrite !not_elem_of_cons, elem_of_nil. lia.
  - right. split; [left; lia|eauto].
Qed.

Lemma new_Response_500 (body : string) :
  Okta.new_Response body 500 = ([], Js.Return (Okta.TextResponse body 500)).
Proof. reflexivity. Qed.

Section Callback.

Variable w : Okta.World.
Variable request : Okta.Request.
Variable environment : Okta.Environment.

(** *** What [respond] makes of the router's result *)

Lemma respond_response t response :
  Okta.respond request (t, Js.Return (Some response)) = (t, Js.Return (Some response)).
Proof. reflexivity. Qed.

Lemma respond_nothing t :
  Okta.respond request (t, Js.Return None)
  = (t, Js.Return (Some (OktaTrace.not_found request))).
Proof. reflexivity. Qed.

Lemma respond_caught t e :
  Okta.respond request (t, Js.Throw e)
  = (t ++ [Okta.LoggerError "error handling request" e],
     match Js.completion (Okta.new_Response (Js.message e) (Okta.status_or_500 e)) with
     | Js.Return response => Js.Return (Some response)
     | Js.Throw e' => Js.Throw e'
     end).
Proof.
  unfold Okta.respond.
  destruct (new_Response_cases (Js.message e) (Okta.status_or_500 e))
    as [(_ & _ & ->)|(_ & e' & ->)]; reflexivity.
Qed.


Lemma respond_exchangeOf m :
  Okta.exchangeOf (Js.trace (Okta.respond request m)) = Okta.exchangeOf (Js.trace m).
Proof.
  destruct m as [t [[response|]|e]]; [reflexivity..|].
  rewrite respond_caught. apply exchangeOf_log.
Qed.

Lemma respond_signed m :
  Okta.signed (Js.trace (Okta.respond request m)) = Okta.signed (Js.trace m).
Proof.
  destruct m as [t [[response|]|e]]; [reflexivity..|].
  rewrite respond_caught. apply signed_log.
Qed.

Lemma respond_kinds m :
  OktaTrace.kinds (Js.trace (Okta.respond request m)) = OktaTrace.kinds (Js.trace m).
Proof.
  destruct m as [t [[response|]|e]]; [reflexivity..|].
  rewrite respond_caught. apply kinds_log.
Qed.

(** *** The signing stage (lines 267-302) *)

Lemma signAndRedirect_no_key urls payload :
  Js.narrow (Okta.signingSecret environment) = None ->
  Okta.signAndRedirect w environment request urls payload
  = ([], Js.Return (Some (Okta.TextResponse
       "Error: Missing private key from site installation" 400))).
Proof. intros H. unfold Okta.signAndRedirect. rewrite H. reflexivity. Qed.

Lemma signAndRedirect_throws urls payload key :
  Js.narrow (Okta.signingSecret environment) = Some key ->
  Okta.jwt_sign w (Okta.signedClaims (Okta.now w) payload) key = None ->
  Okta.signAndRedirect w environment request urls payload
  = ([Okta.JwtSign (Okta.signedClaims (Okta.now w) payload) key],
     Js.Return (Some (Okta.TextResponse "Error: Could not sign JWT token" 500))).
Proof.
  intros Hkey Hsign. unfold Okta.signAndRedirect, Okta.sign.
  rewrite Hkey. cbn. rewrite Hsign. reflexivity.
Qed.

Lemma signAndRedirect_incomplete urls payload key jwt :
  Js.narrow (Okta.signingSecret environment) = Some key ->
  Okta.jwt_sign w (Okta.signedClaims (Okta.now w) payload) key = Some jwt ->
  Js.narrow (urls ≫= Okta.published) = None \/ jwt = "" ->
  Okta.signAndRedirect w environment request urls payload
  = ([Okta.JwtSign (Okta.signedClaims (Okta.now w) payload) key],
     Js.Return (Some (Okta.TextResponse
       "Error: Either JWT token or site's published URL is missing" 500))).
Proof.
  intros Hkey Hsign Hmissing. unfold Okta.signAndRedirect, Okta.sign.
  rewrite Hkey. cbn. rewrite Hsign. cbn.
  destruct Hmissing as [->| ->]; [reflexivity|].
  destruct (Js.narrow (urls ≫= Okta.published)); reflexivity.
Qed.

Lemma signAndRedirect_unparsable urls payload key jwt publishedUrl :
  Js.narrow (Okta.signingSecret environment) = Some key ->
  Okta.jwt_sign w (Okta.signedClaims (Okta.now w) payload) key = Some jwt ->
  jwt <> "" ->
  Js.narrow (urls ≫= Okta.published) = Some publishedUrl ->
  Okta.parses w (publishedUrl +:+ Okta.decodeLocation (Okta.query_state request)) = false ->
  Okta.signAndRedirect w environment request urls payload
  = ([Okta.JwtSign (Okta.signedClaims (Okta.now w) payload) key],
     Js.Return (Some (Okta.TextResponse "Error: Could not sign JWT token" 500))).
Proof.
  intros Hkey Hsign Hjwt Hurl Hparses. unfold Okta.signAndRedirect, Okta.sign.
  rewrite Hkey. cbn. rewrite Hsign. cbn. rewrite Hurl.
  destruct (String.eqb_spec jwt ""); [congruence|].
  unfold Okta.new_URL. rewrite or_empty_Some, Hparses. reflexivity.
Qed.

Lemma signAndRedirect_redirects urls payload key jwt publishedUrl :
  Js.narrow (Okta.signingSecret environment) = Some key ->
  Okta.jwt_sign w (Okta.signedClaims (Okta.now w) payload) key = Some jwt ->
  jwt <> "" ->
  Js.narrow (urls ≫= Okta.published) = Some publishedUrl ->
  Okta.parses w (publishedUrl +:+ Okta.decodeLocation (Okta.query_state request)) = true ->
  Okta.signAndRedirect w environment request urls payload
  = ([Okta.JwtSign (Okta.signedClaims (Okta.now w) payload) key],
     Js.Return (Some (Okta.Redirect
       {| Okta.href := publishedUrl +:+ Okta.decodeLocation (Okta.query_state request);
          Okta.searchParams := [("jwt_token", jwt)] |}))).
Proof.
  intros Hkey Hsign Hjwt Hurl Hparses. unfold Okta.signAndRedirect, Okta.sign.
  rewrite Hkey. cbn. rewrite Hsign. cbn. rewrite Hurl.
  destruct (String.eqb_spec jwt ""); [congruence|].
  unfold Okta.new_URL. rewrite or_empty_Some, Hparses. reflexivity.
Qed.

(** Every run of the signing stage: a response, after no call or after
    the one call of the signer with [signedClaims] and the key. *)
Lemma signAndRedirect_summary urls payload :
  exists t response,
    Okta.signAndRedirect w environment request urls payload = (t, Js.Return (Some response))
    /\ match Js.narrow (Okta.signingSecret environment) with
       | None => t = []
       | Some key => t = [Okta.JwtSign (Okta.signedClaims (Okta.now w) payload) key]
       end
    /\ match response with
       | Okta.TextResponse _ status => status ∈ [400; 500]
       | Okta.Redirect _ => Js.truthy (Okta.signingSecret environment) = true
       end.
Proof.
  destruct (Js.narrow (Okta.signingSecret environment)) as [key|] eqn:Hkey.
  2:{ eexists _, _. split; [apply signAndRedirect_no_key, Hkey|].
      split; [reflexivity|repeat constructor]. }
  assert (Js.truthy (Okta.signingSecret environment) = true) as Hkeyed
    by (apply narrow_truthy; eauto).
  destruct (Okta.jwt_sign w (Okta.signedClaims (Okta.now w) payload) key)
    as [jwt|] eqn:Hsign.
  2:{ eexists _, _. split; [apply (signAndRedirect_throws _ _ key); assumption|].
      split; [reflexivity|repeat constructor]. }
  destruct (Js.narrow (urls ≫= Okta.published)) as [publishedUrl|] eqn:Hurl.
  2:{ eexists _, _. split; [apply (signAndRedirect_incomplete _ _ key jwt); auto|].
      split; [reflexivity|repeat constructor]. }
  destruct (decide (jwt = "")) as [->|Hjwt].
  { eexists _, _. split; [apply (signAndRedirect_incomplete _ _ key ""); auto|].
    split; [reflexivity|repeat constructor]. }
  destruct (Okta.parses w (publishedUrl +:+ Okta.decodeLocation (Okta.query_state request)))
    eqn:Hparses.
  - eexists _, _.
    split; [apply (signAndRedirect_redirects _ _ key jwt publishedUrl); auto|].
    split; [reflexivity|exact Hkeyed].
  - eexists _, _.
    split; [apply (signAndRedirect_unparsable _ _ key jwt publishedUrl); auto|].
    split; [reflexivity|repeat constructor].
Qed.

(** *** After the exchange (lines 245-303) *)

Lemma afterExchange_not_ok urls reply :
  Okta.ok reply = false ->
  Okta.afterExchange w environment request urls reply
  = match Okta.body reply with
    | Js.Return errorResponse =>
        ([Okta.LoggerDebugJson errorResponse;
          Okta.LoggerDebug
            ("Did not receive access token. Error: "
               +:+ Js.or_empty (errorResponse ≫= Okta.error) +:+ " "
               +:+ Js.or_empty (errorResponse ≫= Okta.error_description))],
         Js.Return (Some (Okta.TextResponse "Error: Could not fetch token from Okta" 401)))
    | Js.Throw e => ([], Js.Throw e)
    end.
Proof.
  intros H. unfold Okta.afterExchange, Okta.await_json. rewrite H. cbn [negb].
  destruct (Okta.body reply) as [errorResponse|e]; reflexivity.
Qed.

Lemma afterExchange_ok urls reply :
  Okta.ok reply = true ->
  Okta.afterExchange w environment request urls reply
  = match Okta.body reply with
    | Js.Return (Some oktaTokenData) =>
        match Js.narrow (Okta.access_token oktaTokenData) with
        | Some accessToken =>
            match Okta.jwt_decode w accessToken with
            | Js.Return decodedPayload =>
                Okta.signAndRedirect w environment request urls decodedPayload
            | Js.Throw e => ([], Js.Throw e)
            end
        | None =>
            ([], Js.Return (Some (Okta.TextResponse
               "Error: No Access Token found in response from Okta" 401)))
        end
    | Js.Return None => ([], Js.Throw (Js.TypeError "Cannot read properties of null"))
    | Js.Throw e => ([], Js.Throw e)
    end.
Proof.
  intros H. unfold Okta.afterExchange, Okta.await_json, Okta.decode. rewrite H. cbn [negb].
  destruct (Okta.body reply) as [[oktaTokenData|]|e]; [|reflexivity..].
  rewrite bind_ret.
  destruct (Js.narrow (Okta.access_token oktaTokenData)) as [accessToken|]; [|reflexivity].
  destruct (Okta.jwt_decode w accessToken) as [decodedPayload|e]; [|reflexivity].
  rewrite bind_ret. reflexivity.
Qed.

(** A granted exchange whose token decodes goes on to the signing stage. *)
Lemma afterExchange_token urls reply token payload :
  Okta.ok reply = true ->
  Js.narrow (Okta.access_token (Okta.json reply)) = Some token ->
  Okta.jwt_decode w token = Js.Return payload ->
  Okta.afterExchange w environment request urls reply
  = Okta.signAndRedirect w environment request urls payload.
Proof.
  intros Hok Htoken Hdecode. rewrite (afterExchange_ok _ _ Hok).
  apply json_token in Htoken as (object & -> & ->). rewrite Hdecode. reflexivity.
Qed.

(** Every run of what follows the exchange: at most one call, of the
    signer; a redirect only after that call, on a 2xx reply with an access
    token and with a signing key; a call of the signer only with the claims
    decoded from the reply's access token. *)
Lemma afterExchange_summary urls reply :
  exists t c,
    Okta.afterExchange w environment request urls reply = (t, c)
    /\ (OktaTrace.kinds t = [] \/ OktaTrace.kinds t = [OktaTrace.Sign])
    /\ Okta.exchangeOf t = None
    /\ (forall payload key,
          Okta.JwtSign payload key ∈ t ->
          exists token decoded,
            Js.narrow (Okta.access_token (Okta.json reply)) = Some token
            /\ Okta.jwt_decode w token = Js.Return decoded
            /\ Js.narrow (Okta.signingSecret environment) = Some key
            /\ payload = Okta.signedClaims (Okta.now w) decoded)
    /\ match c with
       | Js.Return (Some (Okta.TextResponse _ status)) => status ∈ [400; 401; 500]
       | Js.Return (Some (Okta.Redirect _)) =>
           OktaTrace.kinds t = [OktaTrace.Sign]
           /\ Okta.ok reply = true
           /\ Js.truthy (Okta.access_token (Okta.json reply)) = true
           /\ Js.truthy (Okta.signingSecret environment) = true
       | Js.Return None => False
       | Js.Throw _ => t = []
       end.
Proof.
  assert (forall payload key,
            Okta.JwtSign payload key ∈ [Okta.LoggerDebugJson None] -> False) as Hno.
  { intros payload key H. apply elem_of_cons in H as [H|H]; [discriminate|].
    by apply elem_of_nil in H. }
  destruct (Okta.ok reply) eqn:Hok.
  2:{ rewrite (afterExchange_not_ok _ _ Hok).
      destruct (Okta.body reply) as [errorResponse|e]; eexists _, _;
        (split; [reflexivity|]); cbn; (split; [by left|]); (split; [reflexivity|]).
      - split; [|repeat constructor]. intros payload key H.
        repeat (apply elem_of_cons in H as [H|H]; [discriminate|]).
        by apply elem_of_nil in H.
      - split; [|reflexivity]. intros payload key H. by apply elem_of_nil in H. }
  rewrite (afterExchange_ok _ _ Hok). unfold Okta.json.
  destruct (Okta.body reply) as [[object|]|e].
  2,3: eexists _, _; (split; [reflexivity|]); cbn; (split; [by left|]);
       (split; [reflexivity|]); (split; [|reflexivity]);
       intros payload key H; by apply elem_of_nil in H.
  destruct (Js.narrow (Okta.access_token object)) as [token|] eqn:Htoken.
  2:{ eexists _, _. split; [reflexivity|]. cbn. split; [by left|].
      split; [reflexivity|]. split; [|repeat constructor].
      intros payload key H. by apply elem_of_nil in H. }
  destruct (Okta.jwt_decode w token) as [decoded|e] eqn:Hdecode.
  2:{ eexists _, _. split; [reflexivity|]. cbn. split; [by left|].
      split; [reflexivity|]. split; [|reflexivity].
      intros payload key H. by apply elem_of_nil in H. }
  destruct (signAndRedirect_summary urls decoded) as (t & response & -> & Ht & Hresponse).
  assert (Js.truthy (Okta.access_token object) = true) as Htruthy
    by (apply narrow_truthy; eauto).
  eexists _, _. split; [reflexivity|].
  destruct (Js.narrow (Okta.signingSecret environment)) as [key|] eqn:Hkey; subst t; cbn.
  - split; [by right|]. split; [reflexivity|]. split.
    + intros payload key' H.
      apply elem_of_cons in H as [[= -> ->]|H]; [|by apply elem_of_nil in H].
      exists token, decoded. auto.
    + destruct response as [body status|target].
      * repeat (apply elem_of_cons in Hresponse as [->|Hresponse]);
          [repeat constructor.. | by apply elem_of_nil in Hresponse].
      * auto.
  - split; [by left|]. split; [reflexivity|]. split.
    + intros payload key' H. by apply elem_of_nil in H.
    + destruct response as [body status|target].
      * repeat (apply elem_of_cons in Hresponse as [->|Hresponse]);
          [repeat constructor.. | by apply elem_of_nil in Hresponse].
      * apply narrow_truthy in Hresponse as [key Hkey']. congruence.
Qed.

(** *** The handler, case by case *)

Lemma run_no_installation :
  Okta.siteInstallation environment = None ->
  Okta.handleFetchEvent w request environment
  = ([], Js.Throw (Js.PlainError "No site installation found")).
Proof.
  intros H. unfold Okta.handleFetchEvent, Okta.assertSiteInstallation.
  rewrite H. reflexivity.
Qed.

Lemma run_no_endpoint si :
  Okta.siteInstallation environment = Some si ->
  Js.narrow (Okta.publicEndpoint si) = None ->
  Okta.handleFetchEvent w request environment = ([], Js.Return None).
Proof.
  intros Hsi Hurl. unfold Okta.handleFetchEvent, Okta.assertSiteInstallation.
  rewrite Hsi, bind_ret, Hurl. reflexivity.
Qed.

(** A public endpoint that is no URL: line 211 throws, outside any [try]. *)
Lemma run_unparsable si installationURL :
  Okta.siteInstallation environment = Some si ->
  Js.narrow (Okta.publicEndpoint si) = Some installationURL ->
  Okta.parses w installationURL = false ->
  Okta.handleFetchEvent w request environment
  = ([], Js.Throw (Js.TypeError "Invalid URL")).
Proof.
  intros Hsi Hurl Hparses.
  unfold Okta.handleFetchEvent, Okta.assertSiteInstallation, Okta.new_URL.
  rewrite Hsi, bind_ret, Hurl, Hparses. reflexivity.
Qed.

Lemma run_routed si installationURL :
  Okta.siteInstallation environment = Some si ->
  Js.narrow (Okta.publicEndpoint si) = Some installationURL ->
  Okta.parses w installationURL = true ->
  Okta.handleFetchEvent w request environment
  = Okta.respond request
      (if Okta.routes w "GET" (Okta.pathname w installationURL +:+ "/visitor-auth/response")
            request
       then Okta.visitorAuthResponse w environment si installationURL request
       else Js.ret None).
Proof.
  intros Hsi Hurl Hparses.
  unfold Okta.handleFetchEvent, Okta.assertSiteInstallation, Okta.new_URL.
  rewrite Hsi, bind_ret, Hurl, Hparses, bind_ret. reflexivity.
Qed.

Lemma run_unrouted si installationURL :
  Okta.siteInstallation environment = Some si ->
  Js.narrow (Okta.publicEndpoint si) = Some installationURL ->
  Okta.parses w installationURL = true ->
  Okta.routes w "GET" (Okta.pathname w installationURL +:+ "/visitor-auth/response") request
  = false
  \/ Js.truthy (Okta.site si) = false ->
  Okta.handleFetchEvent w request environment
  = ([], Js.Return (Some (OktaTrace.not_found request))).
Proof.
  intros Hsi Hurl Hparses Hnot. rewrite (run_routed si installationURL Hsi Hurl Hparses).
  destruct (Okta.routes w "GET" _ request); [|reflexivity].
  destruct Hnot as [Hnot|Hnot]; [discriminate|].
  unfold Okta.visitorAuthResponse. rewrite Hnot. reflexivity.
Qed.

Lemma is_callback_true installationURL :
  Okta.is_callback w installationURL request = true <->
  Okta.parses w installationURL = true
  /\ Okta.routes w "GET" (Okta.pathname w installationURL +:+ "/visitor-auth/response")
       request = true.
Proof. unfold Okta.is_callback. apply andb_true_iff. Qed.

Lemma run_no_org si installationURL :
  Okta.siteInstallation environment = Some si ->
  Js.narrow (Okta.publicEndpoint si) = Some installationURL ->
  Okta.is_callback w installationURL request = true ->
  Js.truthy (Okta.site si) = true ->
  Js.narrow (Okta.organization environment) = None ->
  Okta.handleFetchEvent w request environment
  = ([Okta.LoggerError "error handling request" (Js.PlainError "No org ID found")],
     Js.Return (Some (Okta.TextResponse "No org ID found" 500))).
Proof.
  intros Hsi Hurl [Hparses Hroute]%is_callback_true Hsite Horg.
  rewrite (run_routed si installationURL Hsi Hurl Hparses), Hroute.
  unfold Okta.visitorAuthResponse, Okta.getPublishedContentUrls, Okta.assertOrgId.
  rewrite Hsite, Horg. reflexivity.
Qed.

(** The route's handler at the configuration check: one call to the host
    API, then either the 400 of line 223 or the exchange and what follows
    it. *)
Lemma visitorAuthResponse_at_check si installationURL orgId :
  Okta.siteInstallation environment = Some si ->
  Js.truthy (Okta.site si) = true ->
  Js.narrow (Okta.organization environment) = Some orgId ->
  Okta.visitorAuthResponse w environment si installationURL request
  = match Js.narrow (Okta.client_id (Okta.configuration si)),
          Js.narrow (Okta.client_secret (Okta.configuration si)),
          Js.narrow (Okta.okta_domain (Okta.configuration si)) with
    | Some clientId, Some clientSecret, Some oktaDomain =>
        let req := Okta.tokenRequest installationURL clientId clientSecret oktaDomain request in
        let rest := Okta.afterExchange w environment request
                      (Okta.getSiteById w orgId (Okta.site si)) (Okta.fetch w req) in
        (Okta.GetSiteById orgId (Okta.site si) :: Okta.TokenExchange req :: Js.trace rest,
         Js.completion rest)
    | _, _, _ =>
        ([Okta.GetSiteById orgId (Okta.site si)],
         Js.Return (Some (Okta.TextResponse
           "Error: Either client id, client secret or okta domain is missing" 400)))
    end.
Proof.
  intros Hsi Hsite Horg.
  unfold Okta.visitorAuthResponse. rewrite Hsite.
  unfold Okta.getPublishedContentUrls, Okta.assertOrgId, Okta.assertSiteInstallation.
  rewrite Horg, Hsi. cbn.
  destruct (Js.narrow (Okta.client_id _)) as [clientId|]; [|reflexivity].
  destruct (Js.narrow (Okta.client_secret _)) as [clientSecret|]; [|reflexivity].
  destruct (Js.narrow (Okta.okta_domain _)) as [oktaDomain|]; [|reflexivity].
  cbn. destruct (Okta.afterExchange _ _ _ _ _) as [t c]. reflexivity.
Qed.

(** The run of a request that gets as far as the configuration check. *)
Lemma handleFetchEvent_at_check si installationURL orgId :
  Okta.siteInstallation environment = Some si ->
  Js.narrow (Okta.publicEndpoint si) = Some installationURL ->
  Okta.is_callback w installationURL request = true ->
  Js.truthy (Okta.site si) = true ->
  Js.narrow (Okta.organization environment) = Some orgId ->
  Okta.handleFetchEvent w request environment
  = Okta.respond request
      match Js.narrow (Okta.client_id (Okta.configuration si)),
            Js.narrow (Okta.client_secret (Okta.configuration si)),
            Js.narrow (Okta.okta_domain (Okta.configuration si)) with
      | Some clientId, Some clientSecret, Some oktaDomain =>
          let req := Okta.tokenRequest installationURL clientId clientSecret oktaDomain
                       request in
          let rest := Okta.afterExchange w environment request
                        (Okta.getSiteById w orgId (Okta.site si)) (Okta.fetch w req) in
          (Okta.GetSiteById orgId (Okta.site si) :: Okta.TokenExchange req :: Js.trace rest,
           Js.completion rest)
      | _, _, _ =>
          ([Okta.GetSiteById orgId (Okta.site si)],
           Js.Return (Some (Okta.TextResponse
             "Error: Either client id, client secret or okta domain is missing" 400)))
      end.
Proof.
  intros Hsi Hurl [Hparses Hroute]%is_callback_true Hsite Horg.
  rewrite (run_routed si installationURL Hsi Hurl Hparses), Hroute.
  by rewrite (visitorAuthResponse_at_check si installationURL orgId).
Qed.

(** Every run either stops before the exchange, having neither exchanged
    nor signed, or is a run of [reaches_exchange]. *)
Lemma handleFetchEvent_cases :
  (Okta.exchangeOf (Js.trace (Okta.handleFetchEvent w request environment)) = None
   /\ Okta.signed (Js.trace (Okta.handleFetchEvent w request environment)) = false)
  \/ exists req, Okta.reaches_exchange w request environment req.
Proof.
  destruct (Okta.siteInstallation environment) as [si|] eqn:Hsi;
    [|left; rewrite (run_no_installation Hsi); split; reflexivity].
  destruct (Js.narrow (Okta.publicEndpoint si)) as [installationURL|] eqn:Hurl;
    [|left; rewrite (run_no_endpoint si Hsi Hurl); split; reflexivity].
  destruct (Okta.parses w installationURL) eqn:Hparses;
    [|left; rewrite (run_unparsable si installationURL Hsi Hurl Hparses);
      split; reflexivity].
  destruct (Okta.routes w "GET" (Okta.pathname w installationURL +:+ "/visitor-auth/response")
              request) eqn:Hroute;
    [|left; rewrite (run_unrouted si installationURL Hsi Hurl Hparses (or_introl Hroute));
      split; reflexivity].
  destruct (Js.truthy (Okta.site si)) eqn:Hsite;
    [|left; rewrite (run_unrouted si installationURL Hsi Hurl Hparses (or_intror Hsite));
      split; reflexivity].
  assert (Okta.is_callback w installationURL request = true) as Hcallback
    by (apply is_callback_true; auto).
  destruct (Js.narrow (Okta.organization environment)) as [orgId|] eqn:Horg;
    [|left; rewrite (run_no_org si installationURL Hsi Hurl Hcallback Hsite Horg);
      split; reflexivity].
  pose proof (handleFetchEvent_at_check si installationURL orgId
                Hsi Hurl Hcallback Hsite Horg) as Hrun.
  destruct (Js.narrow (Okta.client_id _)) as [clientId|] eqn:Hid;
    [|left; rewrite Hrun; split; reflexivity].
  destruct (Js.narrow (Okta.client_secret _)) as [clientSecret|] eqn:Hsecret;
    [|left; rewrite Hrun; split; reflexivity].
  destruct (Js.narrow (Okta.okta_domain _)) as [oktaDomain|] eqn:Hdomain;
    [|left; rewrite Hrun; split; reflexivity].
  right. eexists.
  exists si, installationURL, orgId, clientId, clientSecret, oktaDomain.
  repeat (split; [eassumption || reflexivity|]). exact Hrun.
Qed.

(** A run that issued the exchange is a run of [reaches_exchange], with
    the request of lines 231-243. *)
Lemma exchangeOf_inv req :
  Okta.exchangeOf (Js.trace (Okta.handleFetchEvent w request environment)) = Some req ->
  Okta.reaches_exchange w request environment req.
Proof.
  intros Hreq.
  destruct handleFetchEvent_cases as [[Hnone _]|[req' Hreach]]; [congruence|].
  pose proof Hreach as (si & url & org & cid & csec & dom & _ & _ & _ & _ & _ & _ & _ & _ & _ & Hrun).
  rewrite Hrun, respond_exchangeOf in Hreq. cbn in Hreq. injection Hreq as <-. exact Hreach.
Qed.


(** The run of a request that reached the exchange, by what follows. *)
Lemma reaches_exchange_run req :
  Okta.reaches_exchange w request environment req ->
  exists si orgId,
    Okta.siteInstallation environment = Some si
    /\ Js.narrow (Okta.organization environment) = Some orgId
    /\ forall t c,
         Okta.afterExchange w environment request
           (Okta.getSiteById w orgId (Okta.site si)) (Okta.fetch w req) = (t, c) ->
         Okta.handleFetchEvent w request environment
         = Okta.respond request
             (Okta.GetSiteById orgId (Okta.site si) :: Okta.TokenExchange req :: t, c).
Proof.
  intros (si & url & org & cid & csec & dom & Hsi & _ & _ & _ & Horg & _ & _ & _ & _ & Hrun).
  exists si, org. split; [exact Hsi|]. split; [exact Horg|].
  intros t c Hrest. rewrite Hrun, Hrest. reflexivity.
Qed.

End Callback.

Lemma missing_narrow (c : Okta.OktaSiteInstallationConfiguration) :
  Okta.missing c = true <->
  Js.narrow (Okta.client_id c) = None
  \/ Js.narrow (Okta.client_secret c) = None
  \/ Js.narrow (Okta.okta_domain c) = None.
Proof.
  unfold Okta.missing. rewrite !narrow_None_falsy.
  destruct (Js.truthy (Okta.client_id c)), (Js.truthy (Okta.client_secret c)),
    (Js.truthy (Okta.okta_domain c)); cbn; intuition congruence.
Qed.

(** C1, as the code has it: with any of client id, client secret and Okta
    domain missing or empty in the site installation's configuration, no
    run of the handler issues the token exchange; and a callback request
    that gets as far as the configuration check (the installation has a
    public endpoint and a site, and the organization id for the lookup of
    the published URLs is there) is answered with status 400, after that
    lookup alone. *)
Theorem missing_configuration_is_400
    (w : Okta.World) (request : Okta.Request) (environment : Okta.Environment)
    (si : Okta.SiteInstallation) :
  Okta.siteInstallation environment = Some si ->
  Okta.missing (Okta.configuration si) = true ->
  Okta.exchangeOf (Js.trace (Okta.handleFetchEvent w request environment)) = None
  /\ (forall installationURL orgId,
        Js.narrow (Okta.publicEndpoint si) = Some installationURL ->
        Okta.is_callback w installationURL request = true ->
        Js.truthy (Okta.site si) = true ->
        Js.narrow (Okta.organization environment) = Some orgId ->
        Okta.handleFetchEvent w request environment
        = ([Okta.GetSiteById orgId (Okta.site si)],
           Js.Return (Some (Okta.TextResponse
             "Error: Either client id, client secret or okta domain is missing" 400)))).
Proof.
  intros Hsi Hmissing. apply missing_narrow in Hmissing. split.
  - destruct (Okta.exchangeOf _) as [req|] eqn:Hreq; [exfalso|reflexivity].
    destruct (exchangeOf_inv _ _ _ _ Hreq)
      as (si' & url & org & cid & csec & dom
          & Hsi' & _ & _ & _ & _ & Hid & Hsecret & Hdomain & _).
    assert (si' = si) as -> by congruence.
    destruct Hmissing as [H|[H|H]]; congruence.
  - intros installationURL orgId Hurl Hroute Hsite Horg.
    rewrite (handleFetchEvent_at_check _ _ _ si installationURL orgId
               Hsi Hurl Hroute Hsite Horg).
    destruct Hmissing as [H|[H|H]]; rewrite H; [reflexivity| |].
    + destruct (Js.narrow (Okta.client_id (Okta.configuration si))); reflexivity.
    + destruct (Js.narrow (Okta.client_id (Okta.configuration si))),
        (Js.narrow (Okta.client_secret (Okta.configuration si))); reflexivity.
Qed.

Lemma missing_configuration_is_400_witness :
  Okta.exchangeOf
    (Js.trace (Okta.handleFetchEvent (Examples.world Examples.granted)
                 (Examples.callback None)
                 (Examples.environment Examples.no_client_id (Some "org_1") (Some "key"))))
  = None
  /\ Okta.answers
       (Okta.handleFetchEvent (Examples.world Examples.granted)
          (Examples.callback None)
          (Examples.environment Examples.no_client_id (Some "org_1") (Some "key")))
       "Error: Either client id, client secret or okta domain is missing" 400.
Proof.
  destruct (missing_configuration_is_400 (Examples.world Examples.granted)
              (Examples.callback None)
              (Examples.environment Examples.no_client_id (Some "org_1") (Some "key"))
              (Examples.installed Examples.no_client_id) eq_refl eq_refl)
    as [Hnone Hanswer].
  split; [exact Hnone|].
  unfold Okta.answers.
  rewrite (Hanswer "https://integrations.example.com/v1/integrations/okta" "org_1"
             eq_refl eq_refl eq_refl eq_refl).
  reflexivity.
Defined.

(** C1 as stated fails: the configuration lacks the client id, and the
    callback request is answered with status 500 when the organization id
    is not there, and with status 404 when the installation has no site;
    neither run answers 400. *)
Lemma missing_configuration_not_always_400 :
  Okta.missing Examples.no_client_id = true
  /\ Okta.answers
       (Okta.handleFetchEvent (Examples.world Examples.granted)
          (Examples.callback None)
          (Examples.environment Examples.no_client_id None (Some "key")))
       "No org ID found" 500
  /\ Okta.answers
       (Okta.handleFetchEvent (Examples.world Examples.granted)
          (Examples.callback None)
          {| Okta.siteInstallation := Some (Examples.siteless Examples.no_client_id);
             Okta.organization := Some "org_1";
             Okta.signingSecret := Some "key" |})
       "No route matching GET https://integrations.example.com/v1/integrations/okta/visitor-auth/response"
       404
  /\ (forall body,
        ~ Okta.answers
            (Okta.handleFetchEvent (Examples.world Examples.granted)
               (Examples.callback None)
               (Examples.environment Examples.no_client_id None (Some "key")))
            body 400).
Proof.
  repeat split. intros body H. vm_compute in H. discriminate H.
Qed.




(** The provider's error detail reaches the log and nothing else: the run
    of a failed exchange is the lookup, the exchange, two log entries and
    the fixed 401. *)
Example invalid_grant_run :
  Okta.handleFetchEvent (Examples.world Examples.invalid_grant)
    (Examples.callback (Some "state-/docs/page")) (Examples.configured (Some "key"))
  = ([Okta.GetSiteById "org_1" (Some "site_1");
      Okta.TokenExchange (Examples.exchange_request (Some "state-/docs/page"));
      Okta.LoggerDebugJson (Some (Okta.json Examples.invalid_grant));
      Okta.LoggerDebug
        "Did not receive access token. Error: invalid_grant The authorization code is invalid"],
     Js.Return (Some (Okta.TextResponse "Error: Could not fetch token from Okta" 401))).
Proof. reflexivity. Qed.

(** A reply that is no JSON: the rejection of [json()] is caught by the
    router's [catch], logged, and answered 500. *)
Example bad_gateway_run :
  Okta.handleFetchEvent (Examples.world Examples.bad_gateway)
    (Examples.callback (Some "state-/docs/page")) (Examples.configured (Some "key"))
  = ([Okta.GetSiteById "org_1" (Some "site_1");
      Okta.TokenExchange (Examples.exchange_request (Some "state-/docs/page"));
      Okta.LoggerError "error handling request"
        (Js.Raised "Unexpected end of JSON input" None)],
     Js.Return (Some (Okta.TextResponse "Unexpected end of JSON input" 500))).
Proof. reflexivity. Qed.

(** A granted exchange ends in the redirect to the published URL followed
    by the location decoded from the state, with the signed token as
    [jwt_token]. *)
Example granted_run :
  Js.completion
    (Okta.handleFetchEvent (Examples.world Examples.granted)
       (Examples.callback (Some "state-/docs/page")) (Examples.configured (Some "key")))
  = Js.Return (Some (Okta.Redirect
      {| Okta.href := "https://docs.example.com/docs/page";
         Okta.searchParams := [("jwt_token", "signed:key")] |})).
Proof. reflexivity. Qed.

(** C10, as the code has it: when the exchange succeeded (a status in
    200-299 and a non-empty access token), that token decodes, and the site
    installation has no signing key, the handler answers 400 with the body
    [Error: Missing private key from site installation]; the signer is not
    called and no redirect is returned. The token is decoded before the
    key is looked at. *)
Theorem missing_private_key_is_400
    (w : Okta.World) (request : Okta.Request) (environment : Okta.Environment)
    (req : Okta.FetchRequest) (token : string) (payload : option (gmap string Okta.Json)) :
  Okta.exchangeOf (Js.trace (Okta.handleFetchEvent w request environment)) = Some req ->
  200 <= Okta.http_status (Okta.fetch w req) <= 299 ->
  Js.narrow (Okta.access_token (Okta.json (Okta.fetch w req))) = Some token ->
  Okta.jwt_decode w token = Js.Return payload ->
  Js.truthy (Okta.signingSecret environment) = false ->
  Okta.answers (Okta.handleFetchEvent w request environment)
    "Error: Missing private key from site installation" 400
  /\ Okta.signed (Js.trace (Okta.handleFetchEvent w request environment)) = false
  /\ ~ Okta.redirects (Okta.handleFetchEvent w request environment).
Proof.
  intros Hreq Hstatus Htoken Hdecode Hkey.
  destruct (reaches_exchange_run _ _ _ _ (exchangeOf_inv _ _ _ _ Hreq))
    as (si & org & _ & _ & Hrun).
  apply ok_2xx in Hstatus. apply narrow_None_falsy in Hkey.
  assert (Okta.afterExchange w environment request
            (Okta.getSiteById w org (Okta.site si)) (Okta.fetch w req)
          = ([], Js.Return (Some (Okta.TextResponse
               "Error: Missing private key from site installation" 400)))) as Hrest.
  { rewrite (afterExchange_token _ _ _ _ _ token payload Hstatus Htoken Hdecode).
    apply signAndRedirect_no_key, Hkey. }
  unfold Okta.answers, Okta.redirects. rewrite (Hrun _ _ Hrest). cbn.
  repeat split. intros [target H]. discriminate H.
Qed.

Lemma missing_private_key_is_400_witness :
  Okta.answers
    (Okta.handleFetchEvent (Examples.world Examples.granted)
       (Examples.callback (Some "state-/docs/page")) (Examples.configured None))
    "Error: Missing private key from site installation" 400
  /\ Okta.signed
       (Js.trace (Okta.handleFetchEvent (Examples.world Examples.granted)
                    (Examples.callback (Some "state-/docs/page"))
                    (Examples.configured None)))
     = false.
Proof.
  destruct (missing_private_key_is_400 (Examples.world Examples.granted)
              (Examples.callback (Some "state-/docs/page")) (Examples.configured None)
              (Examples.exchange_request (Some "state-/docs/page"))
              "header.payload.signature" (Some Examples.claims) eq_refl)
    as (Hanswer & Hsigned & _).
  - cbn. lia.
  - reflexivity.
  - reflexivity.
  - reflexivity.
  - split; assumption.
Defined.

(** C10 as stated fails: the exchange succeeded (status 200 and the
    non-empty access token [abc]) and the installation has no signing key,
    yet the handler answers 500: [abc] is no JWT, decoding it throws, and
    the token is decoded (line 266) before the key is looked at. *)
Lemma missing_private_key_not_always_400 :
  Okta.exchangeOf
    (Js.trace (Okta.handleFetchEvent (Examples.world Examples.opaque_token)
                 (Examples.callback (Some "state-/docs/page")) (Examples.configured None)))
  = Some (Examples.exchange_request (Some "state-/docs/page"))
  /\ 200 <= Okta.http_status Examples.opaque_token <= 299
  /\ Js.narrow (Okta.access_token (Okta.json Examples.opaque_token)) = Some "abc"
  /\ Js.truthy (Okta.signingSecret (Examples.configured None)) = false
  /\ (exists message,
        Okta.answers
          (Okta.handleFetchEvent (Examples.world Examples.opaque_token)
             (Examples.callback (Some "state-/docs/page")) (Examples.configured None))
          message 500)
  /\ (forall body,
        ~ Okta.answers
            (Okta.handleFetchEvent (Examples.world Examples.opaque_token)
               (Examples.callback (Some "state-/docs/page")) (Examples.configured None))
            body 400).
Proof.
  split; [reflexivity|]. split; [cbn; lia|]. split; [reflexivity|].
  split; [reflexivity|]. split; [eexists; reflexivity|].
  intros body H. vm_compute in H. discriminate H.
Qed.

(** ** The claims that are signed *)







(** ** The redirect initiator *)

(** C9, as the code has it: with client id and Okta domain present, and
    [https://{okta_domain}/oauth2/v1/authorize] a string that parses as a
    URL, the initiator returns a redirect to the URL parsed from that
    string, to which it has appended, in order, [client_id],
    [response_type=code],
    [redirect_uri={installationURL}/visitor-auth/response],
    [response_mode=query], [scope=openid] and [state=state-{location}]
    (the location may be empty or missing); they come after whatever
    parameters the string itself carries. When the string does not parse
    the initiator throws a [TypeError]; with client id or domain absent it
    throws [OIDC configuration is missing]; either way the error goes to
    its caller and no redirect is returned. *)
Theorem authorization_redirect
    (w : Okta.World) (event : Okta.VisitorAuthEvent) (environment : Okta.Environment)
    (si : Okta.SiteInstallation) :
  Okta.siteInstallation environment = Some si ->
  (forall clientId oktaDomain,
      Js.narrow (Okta.client_id (Okta.configuration si)) = Some clientId ->
      Js.narrow (Okta.okta_domain (Okta.configuration si)) = Some oktaDomain ->
      let authorize := "https://" +:+ oktaDomain +:+ "/oauth2/v1/authorize" in
      let appended :=
        [("client_id", clientId);
         ("response_type", "code");
         ("redirect_uri",
          Js.interpolate (Okta.publicEndpoint si) +:+ "/visitor-auth/response");
         ("response_mode", "query");
         ("scope", "openid");
         ("state", "state-" +:+ Js.or_empty (Okta.location event))] in
      (Okta.parses w authorize = true ->
       Okta.fetch_visitor_authentication w event environment
       = ([], Js.Return (Okta.Redirect
            {| Okta.href := authorize; Okta.searchParams := appended |}))
       /\ Okta.parameters w {| Okta.href := authorize; Okta.searchParams := appended |}
          = Okta.query w authorize ++ appended)
      /\ (Okta.parses w authorize = false ->
          exists message,
            Okta.fetch_visitor_authentication w event environment
            = ([], Js.Throw (Js.TypeError message))))
  /\ (Js.truthy (Okta.client_id (Okta.configuration si)) = false
      \/ Js.truthy (Okta.okta_domain (Okta.configuration si)) = false ->
      Okta.fetch_visitor_authentication w event environment
      = ([], Js.Throw (Js.ExposableError "OIDC configuration is missing"))).
Proof.
  intros Hsi.
  unfold Okta.fetch_visitor_authentication, Okta.assertSiteInstallation, Okta.new_URL.
  rewrite Hsi, bind_ret. split.
  - intros clientId oktaDomain Hid Hdomain. cbn zeta. rewrite Hid, Hdomain.
    split; intros Hparses; rewrite Hparses; [split; reflexivity|eexists; reflexivity].
  - intros [H|H]; apply narrow_None_falsy in H; rewrite H; [reflexivity|].
    destruct (Js.narrow (Okta.client_id (Okta.configuration si))); reflexivity.
Qed.

Lemma authorization_redirect_witness :
  Okta.fetch_visitor_authentication (Examples.world Examples.granted)
    {| Okta.location := Some "/docs/page" |} (Examples.configured (Some "key"))
  = ([], Js.Return (Okta.Redirect
       {| Okta.href := "https://dev.okta.com/oauth2/v1/authorize";
          Okta.searchParams :=
            [("client_id", "cid");
             ("response_type", "code");
             ("redirect_uri",
              "https://integrations.example.com/v1/integrations/okta/visitor-auth/response");
             ("response_mode", "query");
             ("scope", "openid");
             ("state", "state-/docs/page")] |}))
  /\ Okta.fetch_visitor_authentication (Examples.world Examples.granted)
       {| Okta.location := None |}
       (Examples.environment Examples.no_client_id (Some "org_1") (Some "key"))
     = ([], Js.Throw (Js.ExposableError "OIDC configuration is missing")).
Proof.
  split.
  - exact (proj1 (proj1 (proj1 (authorization_redirect (Examples.world Examples.granted)
                    {| Okta.location := Some "/docs/page" |}
                    (Examples.configured (Some "key"))
                    (Examples.installed Examples.full_configuration) eq_refl)
             "cid" "dev.okta.com" eq_refl eq_refl) eq_refl)).
  - apply (proj2 (authorization_redirect (Examples.world Examples.granted)
                    {| Okta.location := None |}
                    (Examples.environment Examples.no_client_id (Some "org_1") (Some "key"))
                    (Examples.installed Examples.no_client_id) eq_refl)).
    left. reflexivity.
Defined.

(** C9 as stated fails: client id and Okta domain are present, but the
    domain holds a space, [https://dev okta.com/oauth2/v1/authorize] is no
    URL, and the initiator throws a [TypeError] instead of returning a
    redirect. *)
Lemma authorization_redirect_not_always :
  Js.truthy (Okta.client_id Examples.spaced_domain) = true
  /\ Js.truthy (Okta.okta_domain Examples.spaced_domain) = true
  /\ (exists message,
        Okta.fetch_visitor_authentication (Examples.world Examples.granted)
          {| Okta.location := Some "/docs/page" |}
          (Examples.environment Examples.spaced_domain (Some "org_1") (Some "key"))
        = ([], Js.Throw (Js.TypeError message)))
  /\ (forall target,
        Js.completion
          (Okta.fetch_visitor_authentication (Examples.world Examples.granted)
             {| Okta.location := Some "/docs/page" |}
             (Examples.environment Examples.spaced_domain (Some "org_1") (Some "key")))
        <> Js.Return (Okta.Redirect target)).
Proof.
  split; [reflexivity|]. split; [reflexivity|]. split; [eexists; reflexivity|].
  intros target H. vm_compute in H. discriminate H.
Qed.

(** Without a site installation the initiator throws as well. *)
Lemma no_installation_no_redirect
    (w : Okta.World) (event : Okta.VisitorAuthEvent) (environment : Okta.Environment) :
  Okta.siteInstallation environment = None ->
  Okta.fetch_visitor_authentication w event environment
  = ([], Js.Throw (Js.PlainError "No site installation found")).
Proof.
  intros H. unfold Okta.fetch_visitor_authentication, Okta.assertSiteInstallation.
  rewrite H. reflexivity.
Qed.

(** ** Webhook reconciliation *)

Lemma strict_ne_true (a b : option string) : Js.strict_ne a b = true <-> a <> b.
Proof.
  unfold Js.strict_ne. case_bool_decide; cbn; split; congruence.
Qed.

Lemma status_eqb_eq (a b : GitLab.IntegrationInstallationStatus) :
  GitLab.status_eqb a b = true <-> a = b.
Proof. destruct a, b; cbn; split; congruence. Qed.

Lemma truthy_of_string (o : option string) :
  Js.truthy_value (Js.of_string o) = Js.truthy o.
Proof. destruct o; reflexivity. Qed.

(** The value of [shouldUpdateGitLabWebHook] is truthy exactly when one of
    the four conditions of its body holds. *)
Lemma shouldUpdateGitLabWebHook_truthy
    (newConf : GitLab.GitLabSpaceInstallationConfiguration) (previous : GitLab.Previous) :
  Js.truthy_value (GitLab.shouldUpdateGitLabWebHook newConf previous)
  = Js.strict_ne (GitLab.project newConf) (GitLab.project (GitLab.conf previous))
    || Js.strict_ne (GitLab.auth_token newConf) (GitLab.auth_token (GitLab.conf previous))
    || Js.strict_ne (GitLab.gitlab_host newConf) (GitLab.gitlab_host (GitLab.conf previous))
    || (GitLab.status_eqb (GitLab.status previous) GitLab.Pending
        && negb (Js.truthy (GitLab.ref (GitLab.conf previous)))
        && Js.truthy (GitLab.ref newConf)).
Proof.
  unfold GitLab.shouldUpdateGitLabWebHook.
  rewrite <- (truthy_of_string (GitLab.ref newConf)).
  destruct (Js.strict_ne (GitLab.project newConf) _),
    (Js.strict_ne (GitLab.auth_token newConf) _),
    (Js.strict_ne (GitLab.gitlab_host newConf) _),
    (GitLab.status_eqb _ _),
    (Js.truthy (GitLab.ref (GitLab.conf previous))); reflexivity.
Qed.

(** C6, as the code has it: [shouldUpdateGitLabWebHook] returns a truthy
    value exactly when the project changed, or the auth token changed, or
    the host changed, or the previous status is [Pending], the previous
    configuration has no ref and the new one has a ref. The value is
    [true] when project, token or host changed; when none of them changed
    and the previous installation was [Pending] without a ref, it is the
    new configuration's [ref] itself, a string or [undefined]; for one and
    the same configuration and a previous status [Active] it is [false]. *)
Theorem shouldUpdateGitLabWebHook_iff
    (newConf : GitLab.GitLabSpaceInstallationConfiguration) (previous : GitLab.Previous) :
  (Js.truthy_value (GitLab.shouldUpdateGitLabWebHook newConf previous) = true
   <-> GitLab.project newConf <> GitLab.project (GitLab.conf previous)
       \/ GitLab.auth_token newConf <> GitLab.auth_token (GitLab.conf previous)
       \/ GitLab.gitlab_host newConf <> GitLab.gitlab_host (GitLab.conf previous)
       \/ (GitLab.status previous = GitLab.Pending
           /\ Js.truthy (GitLab.ref (GitLab.conf previous)) = false
           /\ Js.truthy (GitLab.ref newConf) = true))
  /\ (GitLab.project newConf <> GitLab.project (GitLab.conf previous)
      \/ GitLab.auth_token newConf <> GitLab.auth_token (GitLab.conf previous)
      \/ GitLab.gitlab_host newConf <> GitLab.gitlab_host (GitLab.conf previous) ->
      GitLab.shouldUpdateGitLabWebHook newConf previous = Js.VBool true)
  /\ (GitLab.project newConf = GitLab.project (GitLab.conf previous) ->
      GitLab.auth_token newConf = GitLab.auth_token (GitLab.conf previous) ->
      GitLab.gitlab_host newConf = GitLab.gitlab_host (GitLab.conf previous) ->
      GitLab.status previous = GitLab.Pending ->
      Js.truthy (GitLab.ref (GitLab.conf previous)) = false ->
      GitLab.shouldUpdateGitLabWebHook newConf previous = Js.of_string (GitLab.ref newConf))
  /\ GitLab.shouldUpdateGitLabWebHook newConf
       {| GitLab.status := GitLab.Active; GitLab.conf := newConf |}
     = Js.VBool false.
Proof.
  split; [|split; [|split]].
  - rewrite shouldUpdateGitLabWebHook_truthy.
    rewrite !orb_true_iff, !andb_true_iff, !strict_ne_true, status_eqb_eq,
      negb_true_iff.
    tauto.
  - rewrite <- !strict_ne_true. unfold GitLab.shouldUpdateGitLabWebHook.
    destruct (Js.strict_ne (GitLab.project newConf) _); [reflexivity|].
    destruct (Js.strict_ne (GitLab.auth_token newConf) _); [reflexivity|].
    destruct (Js.strict_ne (GitLab.gitlab_host newConf) _); [reflexivity|].
    intros [H|[H|H]]; discriminate H.
  - intros Hproject Htoken Hhost Hpending Href.
    unfold GitLab.shouldUpdateGitLabWebHook, Js.strict_ne.
    rewrite !bool_decide_eq_true_2 by assumption.
    rewrite Hpending, Href. reflexivity.
  - unfold GitLab.shouldUpdateGitLabWebHook, Js.strict_ne. cbn.
    rewrite !bool_decide_eq_true_2 by reflexivity. reflexivity.
Qed.

(** C6 as stated fails: the previous installation was [Pending] without a
    ref and the new configuration has one, so the condition of the claim
    holds, but what the function returns is that ref, a string, not
    [true]. *)
Lemma shouldUpdateGitLabWebHook_not_true :
  GitLab.status
    {| GitLab.status := GitLab.Pending;
       GitLab.conf :=
         {| GitLab.project := Some "group/docs"; GitLab.auth_token := Some "glpat-token";
            GitLab.gitlab_host := Some "https://gitlab.com"; GitLab.ref := None;
            GitLab.hook_id := None |} |}
  = GitLab.Pending
  /\ Js.truthy (GitLab.ref (Examples.gitlab_configuration "group/docs" (Some "glpat-token")
                              (Some 7))) = true
  /\ GitLab.shouldUpdateGitLabWebHook
       (Examples.gitlab_configuration "group/docs" (Some "glpat-token") (Some 7))
       {| GitLab.status := GitLab.Pending;
          GitLab.conf :=
            {| GitLab.project := Some "group/docs"; GitLab.auth_token := Some "glpat-token";
               GitLab.gitlab_host := Some "https://gitlab.com"; GitLab.ref := None;
               GitLab.hook_id := None |} |}
     = Js.VString "refs/heads/main"
  /\ GitLab.shouldUpdateGitLabWebHook
       (Examples.gitlab_configuration "group/docs" (Some "glpat-token") (Some 7))
       {| GitLab.status := GitLab.Pending;
          GitLab.conf :=
            {| GitLab.project := Some "group/docs"; GitLab.auth_token := Some "glpat-token";
               GitLab.gitlab_host := Some "https://gitlab.com"; GitLab.ref := None;
               GitLab.hook_id := None |} |}
     <> Js.VBool true.
Proof. repeat split. discriminate. Qed.

(** The spec's three cases on concrete configurations. *)
Example shouldUpdateGitLabWebHook_cases :
  let c := Examples.gitlab_configuration "group/docs" (Some "glpat-token") (Some 7) in
  let no_ref :=
    {| GitLab.project := Some "group/docs"; GitLab.auth_token := Some "glpat-token";
       GitLab.gitlab_host := Some "https://gitlab.com"; GitLab.ref := None;
       GitLab.hook_id := None |} in
  GitLab.shouldUpdateGitLabWebHook
    (Examples.gitlab_configuration "group/other" (Some "glpat-token") (Some 7))
    {| GitLab.status := GitLab.Active; GitLab.conf := c |} = Js.VBool true
  /\ GitLab.shouldUpdateGitLabWebHook c
       {| GitLab.status := GitLab.Active; GitLab.conf := c |} = Js.VBool false
  /\ GitLab.shouldUpdateGitLabWebHook c
       {| GitLab.status := GitLab.Pending; GitLab.conf := no_ref |}
     = Js.VString "refs/heads/main".
Proof. repeat split. Qed.

(** C7: a setup event with status [Pending] is logged and skipped: the
    handler returns normally after one line on the console, with no
    install, no uninstall and no configuration update. *)
Theorem pending_setup_is_skipped
    (w : GitLab.World) (event : GitLab.SpaceInstallationSetupEvent)
    (environment : GitLab.Environment) :
  GitLab.event_status event = GitLab.Pending ->
  GitLab.handleSpaceInstallationSetupEvent w event environment
  = ([GitLab.ConsoleInfo
        ("GitLab integration Space installation " +:+ GitLab.spaceId event
           +:+ "/" +:+ GitLab.installationId event +:+ " is not complete. Skipping.")],
     Js.Return tt)
  /\ GitLab.actions
       (Js.trace (GitLab.handleSpaceInstallationSetupEvent w event environment)) = [].
Proof.
  intros Hpending. unfold GitLab.handleSpaceInstallationSetupEvent.
  rewrite Hpending. cbn. split; reflexivity.
Qed.

Lemma pending_setup_is_skipped_witness :
  GitLab.handleSpaceInstallationSetupEvent Examples.gitlab_world
    (Examples.setup GitLab.Pending "group/old" (Some 7))
    (Examples.gitlab_environment
       (Examples.gitlab_configuration "group/docs" (Some "glpat-token") (Some 7)))
  = ([GitLab.ConsoleInfo
        "GitLab integration Space installation space_1/inst_1 is not complete. Skipping."],
     Js.Return tt).
Proof.
  exact (proj1 (pending_setup_is_skipped Examples.gitlab_world
                  (Examples.setup GitLab.Pending "group/old" (Some 7))
                  (Examples.gitlab_environment
                     (Examples.gitlab_configuration "group/docs" (Some "glpat-token")
                        (Some 7)))
                  eq_refl)).
Defined.

(** C8, as the code has it: for a setup event with status [Active] whose
    configuration has a project and an auth token, and whose previous
    configuration makes [shouldUpdateGitLabWebHook] true, the handler
    returns normally and its webhook actions are, in this order: the
    uninstall of the previous webhook if and only if the previous
    configuration records a webhook id, the install of the new webhook, and
    the update that writes the new id into the installation's
    configuration. At no point of the run are two webhooks registered for
    the installation. *)
Theorem webhook_replaced
    (w : GitLab.World) (event : GitLab.SpaceInstallationSetupEvent)
    (environment : GitLab.Environment) (installation : GitLab.SpaceInstallation)
    (configuration previousConfig : GitLab.GitLabSpaceInstallationConfiguration) :
  GitLab.event_status event = GitLab.Active ->
  GitLab.spaceInstallation environment = Some installation ->
  GitLab.configuration installation = Some configuration ->
  Js.truthy (GitLab.project configuration) = true ->
  Js.truthy (GitLab.auth_token configuration) = true ->
  GitLab.previous_configuration (GitLab.previous event) = Some previousConfig ->
  Js.truthy_value
    (GitLab.shouldUpdateGitLabWebHook configuration
       {| GitLab.status := GitLab.previous_status (GitLab.previous event);
          GitLab.conf := previousConfig |}) = true ->
  let webhookUrl := GitLab.publicEndpoint installation +:+ "/webhook" in
  let newHookId := GitLab.installGitLabWebhook w webhookUrl configuration in
  let run := GitLab.handleSpaceInstallationSetupEvent w event environment in
  Js.completion run = Js.Return tt
  /\ GitLab.actions (Js.trace run)
     = match GitLab.recorded_hook (Some previousConfig) with
       | Some prevHookId => [GitLab.UninstallWebhook prevHookId previousConfig]
       | None => []
       end
       ++ [GitLab.InstallWebhook webhookUrl configuration;
           GitLab.UpdateIntegrationSpaceInstallation
             (GitLab.integration_name environment)
             (GitLab.installationId event) (GitLab.spaceId event)
             (GitLab.with_hook_id configuration newHookId)]
  /\ GitLab.persisted_hook (Js.trace run) = Some newHookId
  /\ forall n : nat,
       (length (GitLab.registered w
                  (option_list (GitLab.recorded_hook (Some previousConfig)))
                  (take n (Js.trace run))) <= 1)%nat.
Proof.
  intros Hactive Hinstallation Hconfiguration Hproject Htoken Hprevious Hshould.
  intros webhookUrl newHookId run. subst run.
  unfold GitLab.handleSpaceInstallationSetupEvent.
  rewrite Hactive, Hinstallation, Hconfiguration, Hproject, Htoken, Hprevious, Hshould.
  cbn [GitLab.status_eqb negb orb].
  unfold GitLab.replaceWebhook, GitLab.recorded_hook. rewrite Hprevious.
  cbn [mbind option_bind].
  destruct (Js.narrow_num (GitLab.hook_id previousConfig)) as [prevHookId|]; cbn.
  - repeat split.
    intros n. do 6 (destruct n as [|n]; cbn; rewrite ?Z.eqb_refl; cbn; [lia|]).
    lia.
  - repeat split.
    intros n. do 4 (destruct n as [|n]; cbn; [lia|]).
    lia.
Qed.

Lemma webhook_replaced_witness :
  GitLab.actions
    (Js.trace
       (GitLab.handleSpaceInstallationSetupEvent Examples.gitlab_world
          (Examples.setup GitLab.Active "group/old" (Some 7))
          (Examples.gitlab_environment
             (Examples.gitlab_configuration "group/docs" (Some "glpat-token") (Some 7)))))
  = [GitLab.UninstallWebhook 7
       (Examples.gitlab_configuration "group/old" (Some "glpat-token") (Some 7));
     GitLab.InstallWebhook "https://integrations.example.com/gitlab/webhook"
       (Examples.gitlab_configuration "group/docs" (Some "glpat-token") (Some 7));
     GitLab.UpdateIntegrationSpaceInstallation "gitlab" "inst_1" "space_1"
       (Examples.gitlab_configuration "group/docs" (Some "glpat-token") (Some 42))].
Proof.
  exact (proj1 (proj2
    (webhook_replaced Examples.gitlab_world
       (Examples.setup GitLab.Active "group/old" (Some 7))
       (Examples.gitlab_environment
          (Examples.gitlab_configuration "group/docs" (Some "glpat-token") (Some 7)))
       {| GitLab.configuration :=
            Some (Examples.gitlab_configuration "group/docs" (Some "glpat-token") (Some 7));
          GitLab.publicEndpoint := "https://integrations.example.com/gitlab" |}
       (Examples.gitlab_configuration "group/docs" (Some "glpat-token") (Some 7))
       (Examples.gitlab_configuration "group/old" (Some "glpat-token") (Some 7))
       eq_refl eq_refl eq_refl eq_refl eq_refl eq_refl eq_refl))).
Defined.

(** C8 as stated fails: [shouldUpdateGitLabWebHook] is true (the project
    changed) and the previous configuration records webhook 7, yet a
    [Pending] setup event uninstalls, installs and updates nothing, and an
    [Active] one whose configuration has no auth token throws before any
    webhook action. *)
Lemma webhook_not_replaced_unless_ready :
  Js.truthy_value
    (GitLab.shouldUpdateGitLabWebHook
       (Examples.gitlab_configuration "group/docs" (Some "glpat-token") (Some 7))
       {| GitLab.status := GitLab.Active;
          GitLab.conf :=
            Examples.gitlab_configuration "group/old" (Some "glpat-token") (Some 7) |})
  = true
  /\ GitLab.recorded_hook
       (GitLab.previous_configuration
          (GitLab.previous (Examples.setup GitLab.Pending "group/old" (Some 7))))
     = Some 7
  /\ GitLab.handleSpaceInstallationSetupEvent Examples.gitlab_world
       (Examples.setup GitLab.Pending "group/old" (Some 7))
       (Examples.gitlab_environment
          (Examples.gitlab_configuration "group/docs" (Some "glpat-token") (Some 7)))
     = ([GitLab.ConsoleInfo
           "GitLab integration Space installation space_1/inst_1 is not complete. Skipping."],
        Js.Return tt)
  /\ Js.truthy_value
       (GitLab.shouldUpdateGitLabWebHook
          (Examples.gitlab_configuration "group/docs" None (Some 7))
          {| GitLab.status := GitLab.Active;
             GitLab.conf :=
               Examples.gitlab_configuration "group/old" (Some "glpat-token") (Some 7) |})
     = true
  /\ GitLab.handleSpaceInstallationSetupEvent Examples.gitlab_world
       (Examples.setup GitLab.Active "group/old" (Some 7))
       (Examples.gitlab_environment
          (Examples.gitlab_configuration "group/docs" None (Some 7)))
     = ([], Js.Throw (Js.PlainError
          "No GitLab project or auth token provided for Space installation space_1/inst_1")).
Proof. repeat split. Qed.

(** * Further properties of the adapters *)

(** ** Runs of the callback handler, case by case *)

Section Runs.

Variable w : Okta.World.
Variable request : Okta.Request.
Variable environment : Okta.Environment.

(** What the router's [catch] makes of an error: a response with the
    error's message and its status, 500 if it has none, or a throw of its
    own when that status makes no response. *)
Lemma caught_outcome t e :
  match Js.completion (Okta.respond request (t, Js.Throw e)) with
  | Js.Return (Some (Okta.TextResponse body status)) =>
      body = Js.message e
      /\ (status = 500 \/ exists s, Js.status_of e = Some s /\ s <> 0 /\ status = s)
  | Js.Return (Some (Okta.Redirect _)) | Js.Return None => False
  | Js.Throw _ =>
      exists s, Js.status_of e = Some s /\ (~ 200 <= s <= 599 \/ s ∈ [204; 205; 304])
  end.
Proof.
  rewrite respond_caught. cbn [Js.completion snd].
  destruct (new_Response_cases (Js.message e) (Okta.status_or_500 e))
    as [(_ & _ & ->)|(Hbad & e' & ->)]; cbn [Js.completion snd].
  - split; [reflexivity|]. destruct (status_or_500_cases e) as [->|(s & Hs & Hnz & ->)];
      [by left|right; eauto].
  - destruct (status_or_500_cases e) as [H500|(s & Hs & Hnz & Hstatus)].
    + exfalso. rewrite H500 in Hbad. rewrite !elem_of_cons, elem_of_nil in Hbad. lia.
    + exists s. rewrite Hstatus in Hbad. auto.
Qed.

(** From the router's result to the handler's. *)
Lemma respond_summary (R : Prop) t c :
  match c with
  | Js.Return (Some (Okta.TextResponse _ status)) => status ∈ [400; 401; 500]
  | Js.Return (Some (Okta.Redirect _)) => R
  | Js.Return None | Js.Throw _ => True
  end ->
  exists t' c',
    Okta.respond request (t, c) = (t', c')
    /\ OktaTrace.kinds t' = OktaTrace.kinds t
    /\ Okta.exchangeOf t' = Okta.exchangeOf t
    /\ match c' with
       | Js.Return (Some (Okta.TextResponse body status)) =>
           status ∈ [400; 401; 404; 500]
           \/ exists e s,
                Okta.LoggerError "error handling request" e ∈ t'
                /\ Js.status_of e = Some s /\ s <> 0 /\ status = s /\ body = Js.message e
       | Js.Return (Some (Okta.Redirect _)) => R
       | Js.Return None => False
       | Js.Throw _ =>
           exists e s,
             Okta.LoggerError "error handling request" e ∈ t'
             /\ Js.status_of e = Some s
             /\ (~ 200 <= s <= 599 \/ s ∈ [204; 205; 304])
       end.
Proof.
  intros Hc. destruct c as [[[body status|target]|]|e].
  - eexists _, _. split; [reflexivity|]. split; [reflexivity|]. split; [reflexivity|].
    left. repeat (apply elem_of_cons in Hc as [->|Hc]);
      [repeat constructor.. | by apply elem_of_nil in Hc].
  - eexists _, _. repeat (split; [reflexivity|]). exact Hc.
  - eexists _, _. repeat (split; [reflexivity|]). left. repeat constructor.
  - pose proof (caught_outcome t e) as Hcaught.
    pose proof (respond_kinds request (t, Js.Throw e)) as Hkinds.
    pose proof (respond_exchangeOf request (t, Js.Throw e)) as Hexchange.
    assert (Okta.LoggerError "error handling request" e
            ∈ Js.trace (Okta.respond request (t, Js.Throw e))) as Hlogged.
    { rewrite respond_caught. cbn. apply elem_of_app. right. by left. }
    destruct (Okta.respond request (t, Js.Throw e)) as [t' c'].
    cbn [Js.trace Js.completion fst snd] in *.
    exists t', c'. repeat (split; [reflexivity || assumption|]).
    destruct c' as [[[body status|target]|]|e']; [|done..|].
    + destruct Hcaught as [-> [->|(s & Hs & Hnz & ->)]];
        [left; repeat constructor|right; eauto 10].
    + destruct Hcaught as (s & Hs & Hbad). eauto.
Qed.

(** Every run for an installation whose public endpoint parses: calls
    made in the order lookup, exchange, signature, each at most once; a
    response with one of the handler's four statuses or made of a caught
    error; a redirect only after all three calls, on a 2xx reply with an
    access token; a throw only from the router's [catch]. *)
Lemma routed_summary si installationURL :
  Okta.siteInstallation environment = Some si ->
  Js.narrow (Okta.publicEndpoint si) = Some installationURL ->
  Okta.parses w installationURL = true ->
  exists t c,
    Okta.handleFetchEvent w request environment = (t, c)
    /\ OktaTrace.kinds t `prefix_of` [OktaTrace.Lookup; OktaTrace.Exchange; OktaTrace.Sign]
    /\ match c with
       | Js.Return (Some (Okta.TextResponse body status)) =>
           status ∈ [400; 401; 404; 500]
           \/ exists e s,
                Okta.LoggerError "error handling request" e ∈ t
                /\ Js.status_of e = Some s /\ s <> 0 /\ status = s /\ body = Js.message e
       | Js.Return (Some (Okta.Redirect _)) =>
           OktaTrace.kinds t = [OktaTrace.Lookup; OktaTrace.Exchange; OktaTrace.Sign]
           /\ exists req,
                Okta.exchangeOf t = Some req
                /\ Okta.ok (Okta.fetch w req) = true
                /\ Js.truthy (Okta.access_token (Okta.json (Okta.fetch w req))) = true
                /\ Js.truthy (Okta.signingSecret environment) = true
       | Js.Return None => False
       | Js.Throw _ =>
           exists e s,
             Okta.LoggerError "error handling request" e ∈ t
             /\ Js.status_of e = Some s
             /\ (~ 200 <= s <= 599 \/ s ∈ [204; 205; 304])
       end.
Proof.
  intros Hsi Hurl Hparses.
  destruct (Okta.routes w "GET" (Okta.pathname w installationURL +:+ "/visitor-auth/response")
              request) eqn:Hroute.
  2:{ eexists _, _.
      split; [apply (run_unrouted w request environment si installationURL); auto|].
      split; [apply prefix_nil|]. left. repeat constructor. }
  destruct (Js.truthy (Okta.site si)) eqn:Hsite.
  2:{ eexists _, _.
      split; [apply (run_unrouted w request environment si installationURL); auto|].
      split; [apply prefix_nil|]. left. repeat constructor. }
  assert (Okta.is_callback w installationURL request = true) as Hcallback
    by (apply is_callback_true; auto).
  destruct (Js.narrow (Okta.organization environment)) as [orgId|] eqn:Horg.
  2:{ eexists _, _.
      split; [apply (run_no_org w request environment si installationURL); auto|].
      split; [apply prefix_nil|]. left. repeat constructor. }
  rewrite (handleFetchEvent_at_check w request environment si installationURL orgId
             Hsi Hurl Hcallback Hsite Horg).
  assert (exists t c,
            Okta.respond request
              ([Okta.GetSiteById orgId (Okta.site si)],
               Js.Return (Some (Okta.TextResponse
                 "Error: Either client id, client secret or okta domain is missing" 400)))
            = (t, c)
            /\ OktaTrace.kinds t `prefix_of`
                 [OktaTrace.Lookup; OktaTrace.Exchange; OktaTrace.Sign]
            /\ match c with
               | Js.Return (Some (Okta.TextResponse body status)) =>
                   status ∈ [400; 401; 404; 500]
                   \/ exists e s,
                        Okta.LoggerError "error handling request" e ∈ t
                        /\ Js.status_of e = Some s /\ s <> 0 /\ status = s
                        /\ body = Js.message e
               | Js.Return (Some (Okta.Redirect _)) =>
                   OktaTrace.kinds t
                   = [OktaTrace.Lookup; OktaTrace.Exchange; OktaTrace.Sign]
                   /\ exists req,
                        Okta.exchangeOf t = Some req
                        /\ Okta.ok (Okta.fetch w req) = true
                        /\ Js.truthy (Okta.access_token (Okta.json (Okta.fetch w req)))
                           = true
                        /\ Js.truthy (Okta.signingSecret environment) = true
               | Js.Return None => False
               | Js.Throw _ =>
                   exists e s,
                     Okta.LoggerError "error handling request" e ∈ t
                     /\ Js.status_of e = Some s
                     /\ (~ 200 <= s <= 599 \/ s ∈ [204; 205; 304])
               end) as Hmissing.
  { eexists _, _. split; [reflexivity|]. split; [by eexists|]. left. repeat constructor. }
  destruct (Js.narrow (Okta.client_id _)) as [clientId|]; [|exact Hmissing].
  destruct (Js.narrow (Okta.client_secret _)) as [clientSecret|]; [|exact Hmissing].
  destruct (Js.narrow (Okta.okta_domain _)) as [oktaDomain|]; [|exact Hmissing].
  clear Hmissing. cbn zeta.
  set (req := Okta.tokenRequest installationURL clientId clientSecret oktaDomain request).
  destruct (afterExchange_summary w request environment
              (Okta.getSiteById w orgId (Okta.site si)) (Okta.fetch w req))
    as (t & c & Hrest & Hkinds & Hnone & _ & Hc).
  rewrite Hrest. cbn [Js.trace Js.completion fst snd].
  destruct (respond_summary
              (OktaTrace.kinds t = [OktaTrace.Sign]
               /\ Okta.ok (Okta.fetch w req) = true
               /\ Js.truthy (Okta.access_token (Okta.json (Okta.fetch w req))) = true
               /\ Js.truthy (Okta.signingSecret environment) = true)
              (Okta.GetSiteById orgId (Okta.site si) :: Okta.TokenExchange req :: t) c)
    as (t' & c' & Hrun & Hkinds' & Hexchange' & Hc').
  { destruct c as [[[body status|target]|]|e]; [exact Hc|exact Hc|exact I|exact I]. }
  exists t', c'. split; [exact Hrun|].
  rewrite Hkinds', Hexchange'.
  unfold OktaTrace.kinds in *. cbn [omap list_omap OktaTrace.kind Okta.exchangeOf].
  split.
  - destruct Hkinds as [->| ->]; [by exists [OktaTrace.Sign] | by exists []].
  - destruct c' as [[[body status|target]|]|e]; [exact Hc'| |exact Hc'|exact Hc'].
    destruct Hc' as (-> & Hok & Htoken & Hkey). split; [reflexivity|]. exists req. auto.
Qed.

(** Every run of the handler, in one statement: it throws for want of a
    site installation or of a public endpoint that parses, or returns
    nothing for want of a public endpoint, or is a run of
    [routed_summary]. *)
Lemma run_summary :
  Okta.handleFetchEvent w request environment
  = ([], Js.Throw (Js.PlainError "No site installation found"))
  \/ Okta.handleFetchEvent w request environment = ([], Js.Return None)
  \/ Okta.handleFetchEvent w request environment
     = ([], Js.Throw (Js.TypeError "Invalid URL"))
  \/ exists t c,
       Okta.handleFetchEvent w request environment = (t, c)
       /\ OktaTrace.kinds t `prefix_of` [OktaTrace.Lookup; OktaTrace.Exchange; OktaTrace.Sign]
       /\ match c with
          | Js.Return (Some (Okta.TextResponse body status)) =>
              status ∈ [400; 401; 404; 500]
              \/ exists e s,
                   Okta.LoggerError "error handling request" e ∈ t
                   /\ Js.status_of e = Some s /\ s <> 0 /\ status = s
                   /\ body = Js.message e
          | Js.Return (Some (Okta.Redirect _)) =>
              OktaTrace.kinds t = [OktaTrace.Lookup; OktaTrace.Exchange; OktaTrace.Sign]
              /\ exists req,
                   Okta.exchangeOf t = Some req
                   /\ Okta.ok (Okta.fetch w req) = true
                   /\ Js.truthy (Okta.access_token (Okta.json (Okta.fetch w req))) = true
                   /\ Js.truthy (Okta.signingSecret environment) = true
          | Js.Return None => False
          | Js.Throw _ =>
              exists e s,
                Okta.LoggerError "error handling request" e ∈ t
                /\ Js.status_of e = Some s
                /\ (~ 200 <= s <= 599 \/ s ∈ [204; 205; 304])
          end.
Proof.
  destruct (Okta.siteInstallation environment) as [si|] eqn:Hsi;
    [|left; apply run_no_installation, Hsi].
  right.
  destruct (Js.narrow (Okta.publicEndpoint si)) as [installationURL|] eqn:Hurl;
    [|left; apply (run_no_endpoint w request environment si); assumption].
  right.
  destruct (Okta.parses w installationURL) eqn:Hparses;
    [|left; apply (run_unparsable w request environment si installationURL); assumption].
  right. apply (routed_summary si installationURL); assumption.
Qed.

End Runs.

(** ** What the callback handler returns *)


(** X2: a response of the handler is a redirect, or has one of the
    statuses 400, 401, 404 and 500, or is made of an error that was caught
    and logged and that carries a [status] of its own: then it has that
    status, and the error's message as body. *)
Theorem callback_statuses
    (w : Okta.World) (request : Okta.Request) (environment : Okta.Environment)
    (response : Okta.Response) :
  Js.completion (Okta.handleFetchEvent w request environment) = Js.Return (Some response) ->
  match response with
  | Okta.Redirect _ => True
  | Okta.TextResponse body status =>
      status ∈ [400; 401; 404; 500]
      \/ exists e s,
           Okta.LoggerError "error handling request" e
           ∈ Js.trace (Okta.handleFetchEvent w request environment)
           /\ Js.status_of e = Some s /\ s <> 0 /\ status = s /\ body = Js.message e
  end.
Proof.
  intros Hresponse.
  destruct (run_summary w request environment)
    as [Hrun|[Hrun|[Hrun|(t & c & Hrun & _ & Hc)]]];
    rewrite Hrun in Hresponse |- *; try discriminate Hresponse.
  cbn in Hresponse. subst c.
  destruct response; [exact Hc | exact I].
Qed.

Lemma callback_statuses_witness :
  (401 : Z) ∈ [400; 401; 404; 500]
  \/ exists e s,
       Okta.LoggerError "error handling request" e
       ∈ Js.trace (Okta.handleFetchEvent (Examples.world Examples.invalid_grant)
                     (Examples.callback (Some "state-/docs/page"))
                     (Examples.configured (Some "key")))
       /\ Js.status_of e = Some s /\ s <> 0 /\ 401 = s
       /\ "Error: Could not fetch token from Okta" = Js.message e.
Proof.
  exact (callback_statuses (Examples.world Examples.invalid_grant)
           (Examples.callback (Some "state-/docs/page")) (Examples.configured (Some "key"))
           (Okta.TextResponse "Error: Could not fetch token from Okta" 401) eq_refl).
Defined.

(** X3: in every run the handler calls the outside in the order lookup of
    the published URLs, token exchange, signature, each at most once, and
    stops at any point of that sequence. *)
Theorem callback_calls_in_order
    (w : Okta.World) (request : Okta.Request) (environment : Okta.Environment) :
  OktaTrace.kinds (Js.trace (Okta.handleFetchEvent w request environment))
  `prefix_of` [OktaTrace.Lookup; OktaTrace.Exchange; OktaTrace.Sign].
Proof.
  destruct (run_summary w request environment)
    as [Hrun|[Hrun|[Hrun|(t & c & Hrun & Hkinds & _)]]]; rewrite Hrun;
    [apply prefix_nil | apply prefix_nil | apply prefix_nil | exact Hkinds].
Qed.

(** X4: the handler returns a redirect only in a run that looked up the
    published URLs, exchanged the code, got a 2xx reply with a non-empty
    access token, had a signing key and called the signer. *)
Theorem redirect_only_after_exchange_and_signature
    (w : Okta.World) (request : Okta.Request) (environment : Okta.Environment) :
  Okta.redirects (Okta.handleFetchEvent w request environment) ->
  OktaTrace.kinds (Js.trace (Okta.handleFetchEvent w request environment))
  = [OktaTrace.Lookup; OktaTrace.Exchange; OktaTrace.Sign]
  /\ exists req,
       Okta.exchangeOf (Js.trace (Okta.handleFetchEvent w request environment)) = Some req
       /\ 200 <= Okta.http_status (Okta.fetch w req) <= 299
       /\ Js.truthy (Okta.access_token (Okta.json (Okta.fetch w req))) = true
       /\ Js.truthy (Okta.signingSecret environment) = true.
Proof.
  intros [target Htarget].
  destruct (run_summary w request environment)
    as [Hrun|[Hrun|[Hrun|(t & c & Hrun & _ & Hc)]]];
    rewrite Hrun in Htarget |- *; try discriminate Htarget.
  cbn in Htarget. subst c.
  destruct Hc as (Hkinds & req & Hreq & Hok & Htoken & Hkey).
  split; [exact Hkinds|]. exists req. rewrite <- ok_2xx. auto.
Qed.

Lemma redirect_only_after_exchange_and_signature_witness :
  OktaTrace.kinds
    (Js.trace (Okta.handleFetchEvent (Examples.world Examples.granted)
                 (Examples.callback (Some "state-/docs/page"))
                 (Examples.configured (Some "key"))))
  = [OktaTrace.Lookup; OktaTrace.Exchange; OktaTrace.Sign].
Proof.
  apply (redirect_only_after_exchange_and_signature (Examples.world Examples.granted)
           (Examples.callback (Some "state-/docs/page")) (Examples.configured (Some "key"))).
  eexists. reflexivity.
Defined.

(** X5: for an installation whose public endpoint parses, a request the
    router does not send to the callback route, or one for an installation
    without a site, is answered 404 with a body that names its method and
    URL; nothing outside is called. *)
Theorem unrouted_request_is_404
    (w : Okta.World) (request : Okta.Request) (environment : Okta.Environment)
    (si : Okta.SiteInstallation) (installationURL : string) :
  Okta.siteInstallation environment = Some si ->
  Js.narrow (Okta.publicEndpoint si) = Some installationURL ->
  Okta.parses w installationURL = true ->
  Okta.routes w "GET" (Okta.pathname w installationURL +:+ "/visitor-auth/response") request
  = false
  \/ Js.truthy (Okta.site si) = false ->
  Okta.handleFetchEvent w request environment
  = ([], Js.Return (Some (Okta.TextResponse
       ("No route matching " +:+ Okta.method request +:+ " " +:+ Okta.url request) 404))).
Proof. apply run_unrouted. Qed.

Lemma unrouted_request_is_404_witness :
  Okta.handleFetchEvent (Examples.world Examples.granted)
    {| Okta.method := "POST"; Okta.url := "https://integrations.example.com/other";
       Okta.query_code := None; Okta.query_state := None |}
    (Examples.configured (Some "key"))
  = ([], Js.Return (Some (Okta.TextResponse
       "No route matching POST https://integrations.example.com/other" 404))).
Proof.
  exact (unrouted_request_is_404 (Examples.world Examples.granted)
           {| Okta.method := "POST"; Okta.url := "https://integrations.example.com/other";
              Okta.query_code := None; Okta.query_state := None |}
           (Examples.configured (Some "key"))
           (Examples.installed Examples.full_configuration)
           "https://integrations.example.com/v1/integrations/okta" eq_refl eq_refl eq_refl
           (or_introl eq_refl)).
Defined.

(** X6: a callback request for an installation whose organization id is
    missing or empty is answered 500 with the thrown error's message,
    [No org ID found], as body; the error is logged, and neither the host
    API, nor the identity provider, nor the signer is called. *)
Theorem missing_organization_is_500
    (w : Okta.World) (request : Okta.Request) (environment : Okta.Environment)
    (si : Okta.SiteInstallation) (installationURL : string) :
  Okta.siteInstallation environment = Some si ->
  Js.narrow (Okta.publicEndpoint si) = Some installationURL ->
  Okta.is_callback w installationURL request = true ->
  Js.truthy (Okta.site si) = true ->
  Js.truthy (Okta.organization environment) = false ->
  Okta.handleFetchEvent w request environment
  = ([Okta.LoggerError "error handling request" (Js.PlainError "No org ID found")],
     Js.Return (Some (Okta.TextResponse "No org ID found" 500))).
Proof.
  intros Hsi Hurl Hroute Hsite Horg. apply narrow_None_falsy in Horg.
  apply (run_no_org w request environment si installationURL); assumption.
Qed.

Lemma missing_organization_is_500_witness :
  Okta.handleFetchEvent (Examples.world Examples.granted) (Examples.callback None)
    (Examples.environment Examples.full_configuration (Some "") (Some "key"))
  = ([Okta.LoggerError "error handling request" (Js.PlainError "No org ID found")],
     Js.Return (Some (Okta.TextResponse "No org ID found" 500))).
Proof.
  exact (missing_organization_is_500 (Examples.world Examples.granted)
           (Examples.callback None)
           (Examples.environment Examples.full_configuration (Some "") (Some "key"))
           (Examples.installed Examples.full_configuration)
           "https://integrations.example.com/v1/integrations/okta"
           eq_refl eq_refl eq_refl eq_refl eq_refl).
Defined.

(** ** The granted exchange and the signing stage *)

(** X7: when the exchange is granted (2xx, non-empty access token), the
    token decodes, the installation has a signing key, the signer returns
    a non-empty token, the site has a published URL, and that URL followed
    by the location decoded from [state] parses, the run is lookup,
    exchange, signature, and the response is a redirect to the URL so
    parsed, with the signed token appended as [jwt_token], after whatever
    parameters the location carries. *)
Theorem granted_exchange_redirects
    (w : Okta.World) (request : Okta.Request) (environment : Okta.Environment)
    (req : Okta.FetchRequest) (si : Okta.SiteInstallation)
    (orgId token key jwt publishedUrl : string)
    (payload : option (gmap string Okta.Json)) :
  Okta.exchangeOf (Js.trace (Okta.handleFetchEvent w request environment)) = Some req ->
  Okta.siteInstallation environment = Some si ->
  Js.narrow (Okta.organization environment) = Some orgId ->
  200 <= Okta.http_status (Okta.fetch w req) <= 299 ->
  Js.narrow (Okta.access_token (Okta.json (Okta.fetch w req))) = Some token ->
  Okta.jwt_decode w token = Js.Return payload ->
  Js.narrow (Okta.signingSecret environment) = Some key ->
  Okta.jwt_sign w (Okta.signedClaims (Okta.now w) payload) key = Some jwt ->
  jwt <> "" ->
  Js.narrow (Okta.getSiteById w orgId (Okta.site si) ≫= Okta.published) = Some publishedUrl ->
  Okta.parses w (publishedUrl +:+ Okta.decodeLocation (Okta.query_state request)) = true ->
  let target :=
    {| Okta.href := publishedUrl +:+ Okta.decodeLocation (Okta.query_state request);
       Okta.searchParams := [("jwt_token", jwt)] |} in
  Okta.handleFetchEvent w request environment
  = ([Okta.GetSiteById orgId (Okta.site si);
      Okta.TokenExchange req;
      Okta.JwtSign (Okta.signedClaims (Okta.now w) payload) key],
     Js.Return (Some (Okta.Redirect target)))
  /\ Okta.parameters w target
     = Okta.query w (publishedUrl +:+ Okta.decodeLocation (Okta.query_state request))
       ++ [("jwt_token", jwt)].
Proof.
  intros Hreq Hsi Horg Hstatus Htoken Hdecode Hkey Hsign Hjwt Hurl Hparses target.
  split; [|reflexivity].
  destruct (reaches_exchange_run _ _ _ _ (exchangeOf_inv _ _ _ _ Hreq))
    as (si' & org & Hsi' & Horg' & Hrun).
  assert (si' = si) as -> by congruence. assert (org = orgId) as -> by congruence.
  apply ok_2xx in Hstatus.
  rewrite (Hrun _ _ (eq_trans
             (afterExchange_token w request environment _ _ token payload
                Hstatus Htoken Hdecode)
             (signAndRedirect_redirects w request environment _ _ key jwt publishedUrl
                Hkey Hsign Hjwt Hurl Hparses))).
  reflexivity.
Qed.

Lemma granted_exchange_redirects_witness :
  Okta.handleFetchEvent (Examples.world Examples.granted)
    (Examples.callback (Some "state-/docs/page")) (Examples.configured (Some "key"))
  = ([Okta.GetSiteById "org_1" (Some "site_1");
      Okta.TokenExchange (Examples.exchange_request (Some "state-/docs/page"));
      Okta.JwtSign (Okta.signedClaims 1700000000123 (Some Examples.claims)) "key"],
     Js.Return (Some (Okta.Redirect
       {| Okta.href := "https://docs.example.com/docs/page";
          Okta.searchParams := [("jwt_token", "signed:key")] |}))).
Proof.
  refine (proj1 (granted_exchange_redirects (Examples.world Examples.granted)
           (Examples.callback (Some "state-/docs/page")) (Examples.configured (Some "key"))
           (Examples.exchange_request (Some "state-/docs/page"))
           (Examples.installed Examples.full_configuration)
           "org_1" "header.payload.signature" "key" "signed:key"
           "https://docs.example.com" (Some Examples.claims)
           eq_refl eq_refl eq_refl _ eq_refl eq_refl eq_refl eq_refl _ eq_refl eq_refl)).
  - cbn. lia.
  - discriminate.
Defined.

(** X8: once the exchange is granted, the token decodes and the
    installation has a signing key, the signer is called whatever follows;
    if it throws the handler answers 500
    [Error: Could not sign JWT token]; if it returns an empty token or the
    site has no published URL the handler answers 500
    [Error: Either JWT token or site's published URL is missing]; and if
    the published URL followed by the decoded location is no URL, the
    handler answers 500 [Error: Could not sign JWT token] as well, although
    the token was signed. *)
Theorem signing_stage_failures_are_500
    (w : Okta.World) (request : Okta.Request) (environment : Okta.Environment)
    (req : Okta.FetchRequest) (si : Okta.SiteInstallation) (orgId token key : string)
    (payload : option (gmap string Okta.Json)) :
  Okta.exchangeOf (Js.trace (Okta.handleFetchEvent w request environment)) = Some req ->
  Okta.siteInstallation environment = Some si ->
  Js.narrow (Okta.organization environment) = Some orgId ->
  200 <= Okta.http_status (Okta.fetch w req) <= 299 ->
  Js.narrow (Okta.access_token (Okta.json (Okta.fetch w req))) = Some token ->
  Okta.jwt_decode w token = Js.Return payload ->
  Js.narrow (Okta.signingSecret environment) = Some key ->
  Okta.JwtSign (Okta.signedClaims (Okta.now w) payload) key
  ∈ Js.trace (Okta.handleFetchEvent w request environment)
  /\ (Okta.jwt_sign w (Okta.signedClaims (Okta.now w) payload) key = None ->
      Okta.answers (Okta.handleFetchEvent w request environment)
        "Error: Could not sign JWT token" 500)
  /\ (forall jwt,
        Okta.jwt_sign w (Okta.signedClaims (Okta.now w) payload) key = Some jwt ->
        Js.narrow (Okta.getSiteById w orgId (Okta.site si) ≫= Okta.published) = None
        \/ jwt = "" ->
        Okta.answers (Okta.handleFetchEvent w request environment)
          "Error: Either JWT token or site's published URL is missing" 500)
  /\ (forall jwt publishedUrl,
        Okta.jwt_sign w (Okta.signedClaims (Okta.now w) payload) key = Some jwt ->
        jwt <> "" ->
        Js.narrow (Okta.getSiteById w orgId (Okta.site si) ≫= Okta.published)
        = Some publishedUrl ->
        Okta.parses w (publishedUrl +:+ Okta.decodeLocation (Okta.query_state request))
        = false ->
        Okta.answers (Okta.handleFetchEvent w request environment)
          "Error: Could not sign JWT token" 500).
Proof.
  intros Hreq Hsi Horg Hstatus Htoken Hdecode Hkey.
  destruct (reaches_exchange_run _ _ _ _ (exchangeOf_inv _ _ _ _ Hreq))
    as (si' & org & Hsi' & Horg' & Hrun).
  assert (si' = si) as -> by congruence. assert (org = orgId) as -> by congruence.
  apply ok_2xx in Hstatus. unfold Okta.answers.
  pose proof (afterExchange_token w request environment
                (Okta.getSiteById w orgId (Okta.site si)) _ token payload
                Hstatus Htoken Hdecode) as Hrest.
  split; [|split; [|split]].
  - destruct (signAndRedirect_summary w request environment
                (Okta.getSiteById w orgId (Okta.site si)) payload)
      as (t & response & Hsigned & Ht & _).
    rewrite Hkey in Ht. subst t.
    rewrite (Hrun _ _ (eq_trans Hrest Hsigned)). cbn.
    do 2 (apply elem_of_cons; right). apply elem_of_cons. by left.
  - intros Hsign.
    rewrite (Hrun _ _ (eq_trans Hrest
               (signAndRedirect_throws w request environment _ _ key Hkey Hsign))).
    reflexivity.
  - intros jwt Hsign Hmissing.
    rewrite (Hrun _ _ (eq_trans Hrest
               (signAndRedirect_incomplete w request environment _ _ key jwt
                  Hkey Hsign Hmissing))).
    reflexivity.
  - intros jwt publishedUrl Hsign Hjwt Hurl Hparses.
    rewrite (Hrun _ _ (eq_trans Hrest
               (signAndRedirect_unparsable w request environment _ _ key jwt publishedUrl
                  Hkey Hsign Hjwt Hurl Hparses))).
    reflexivity.
Qed.

Lemma signing_stage_failures_are_500_witness :
  Okta.answers
    (Okta.handleFetchEvent Examples.failing_signer
       (Examples.callback (Some "state-/docs/page")) (Examples.configured (Some "key")))
    "Error: Could not sign JWT token" 500
  /\ Okta.answers
       (Okta.handleFetchEvent Examples.unpublished
          (Examples.callback (Some "state-/docs/page")) (Examples.configured (Some "key")))
       "Error: Either JWT token or site's published URL is missing" 500
  /\ Okta.answers
       (Okta.handleFetchEvent (Examples.world Examples.granted)
          (Examples.callback (Some "state- /docs/page")) (Examples.configured (Some "key")))
       "Error: Could not sign JWT token" 500.
Proof.
  split; [|split].
  - refine (proj1 (proj2 (signing_stage_failures_are_500 Examples.failing_signer
             (Examples.callback (Some "state-/docs/page")) (Examples.configured (Some "key"))
             (Examples.exchange_request (Some "state-/docs/page"))
             (Examples.installed Examples.full_configuration)
             "org_1" "header.payload.signature" "key" (Some Examples.claims)
             eq_refl eq_refl eq_refl _ eq_refl eq_refl eq_refl)) eq_refl).
    cbn. lia.
  - refine (proj1 (proj2 (proj2 (signing_stage_failures_are_500 Examples.unpublished
             (Examples.callback (Some "state-/docs/page")) (Examples.configured (Some "key"))
             (Examples.exchange_request (Some "state-/docs/page"))
             (Examples.installed Examples.full_configuration)
             "org_1" "header.payload.signature" "key" (Some Examples.claims)
             eq_refl eq_refl eq_refl _ eq_refl eq_refl eq_refl))) "signed:key" eq_refl
             (or_introl eq_refl)).
    cbn. lia.
  - refine (proj2 (proj2 (proj2 (signing_stage_failures_are_500
             (Examples.world Examples.granted)
             (Examples.callback (Some "state- /docs/page")) (Examples.configured (Some "key"))
             (Examples.exchange_request (Some "state- /docs/page"))
             (Examples.installed Examples.full_configuration)
             "org_1" "header.payload.signature" "key" (Some Examples.claims)
             eq_refl eq_refl eq_refl _ eq_refl eq_refl eq_refl)))
             "signed:key" "https://docs.example.com" eq_refl _ eq_refl eq_refl).
    + cbn. lia.
    + discriminate.
Defined.

(** ** What the two procedures send *)

(** X9: the token-exchange request of a run is a form-encoded POST to
    [https://{okta_domain}/oauth2/v1/token/] that carries the grant type
    [authorization_code], the configured client id and secret, the
    [redirect_uri] of the callback below the public endpoint, and the
    [code] of the query; a callback without [code] is not refused, the
    exchange is issued with the text [undefined] as code. *)
Theorem exchange_request_contents
    (w : Okta.World) (request : Okta.Request) (environment : Okta.Environment)
    (req : Okta.FetchRequest) (si : Okta.SiteInstallation) :
  Okta.siteInstallation environment = Some si ->
  Okta.exchangeOf (Js.trace (Okta.handleFetchEvent w request environment)) = Some req ->
  Okta.fetch_method req = "POST"
  /\ Okta.fetch_headers req = [("content-type", "application/x-www-form-urlencoded")]
  /\ Some (Okta.fetch_url req)
     = (fun domain => "https://" +:+ domain +:+ "/oauth2/v1/token/")
         <$> Okta.okta_domain (Okta.configuration si)
  /\ OktaTrace.field req "grant_type" = Some "authorization_code"
  /\ OktaTrace.field req "client_id" = Okta.client_id (Okta.configuration si)
  /\ OktaTrace.field req "client_secret" = Okta.client_secret (Okta.configuration si)
  /\ OktaTrace.field req "redirect_uri"
     = (fun endpoint => endpoint +:+ "/visitor-auth/response") <$> Okta.publicEndpoint si
  /\ OktaTrace.field req "code"
     = Some (match Okta.query_code request with Some code => code | None => "undefined" end).
Proof.
  intros Hsi Hreq.
  destruct (exchangeOf_inv _ _ _ _ Hreq)
    as (si' & url & org & cid & csec & dom
        & Hsi' & Hurl & _ & _ & _ & Hid & Hsecret & Hdomain & -> & _).
  assert (si' = si) as -> by congruence.
  apply narrow_Some in Hurl as [-> _]. apply narrow_Some in Hid as [-> _].
  apply narrow_Some in Hsecret as [-> _]. apply narrow_Some in Hdomain as [-> _].
  repeat split.
Qed.

Lemma exchange_request_contents_witness :
  OktaTrace.field (Examples.exchange_request None) "client_secret" = Some "secret"
  /\ OktaTrace.field
       (Okta.tokenRequest "https://integrations.example.com/v1/integrations/okta"
          "cid" "secret" "dev.okta.com"
          {| Okta.method := "GET"; Okta.url := "https://integrations.example.com";
             Okta.query_code := None; Okta.query_state := None |})
       "code"
     = Some "undefined".
Proof.
  split.
  - exact (proj1 (proj2 (proj2 (proj2 (proj2 (proj2
      (exchange_request_contents (Examples.world Examples.granted)
         (Examples.callback None) (Examples.configured (Some "key"))
         (Examples.exchange_request None)
         (Examples.installed Examples.full_configuration) eq_refl eq_refl))))))).
  - exact (proj2 (proj2 (proj2 (proj2 (proj2 (proj2 (proj2
      (exchange_request_contents (Examples.world Examples.granted)
         {| Okta.method := "GET"; Okta.url := "https://integrations.example.com";
            Okta.query_code := None; Okta.query_state := None |}
         (Examples.configured (Some "key"))
         (Okta.tokenRequest "https://integrations.example.com/v1/integrations/okta"
            "cid" "secret" "dev.okta.com"
            {| Okta.method := "GET"; Okta.url := "https://integrations.example.com";
               Okta.query_code := None; Okta.query_state := None |})
         (Examples.installed Examples.full_configuration) eq_refl eq_refl)))))))).
Defined.

(** The redirect of the initiator, for a configured installation. *)
Lemma initiator_redirect (w : Okta.World) (event : Okta.VisitorAuthEvent)
    (environment : Okta.Environment) (target : Okta.URL) :
  Js.completion (Okta.fetch_visitor_authentication w event environment)
  = Js.Return (Okta.Redirect target) ->
  exists si clientId oktaDomain,
    Okta.siteInstallation environment = Some si
    /\ Js.narrow (Okta.client_id (Okta.configuration si)) = Some clientId
    /\ Js.narrow (Okta.okta_domain (Okta.configuration si)) = Some oktaDomain
    /\ target
       = {| Okta.href := "https://" +:+ oktaDomain +:+ "/oauth2/v1/authorize";
            Okta.searchParams :=
              [("client_id", clientId);
               ("response_type", "code");
               ("redirect_uri",
                Js.interpolate (Okta.publicEndpoint si) +:+ "/visitor-auth/response");
               ("response_mode", "query");
               ("scope", "openid");
               ("state", "state-" +:+ Js.or_empty (Okta.location event))] |}.
Proof.
  unfold Okta.fetch_visitor_authentication, Okta.assertSiteInstallation, Okta.new_URL.
  destruct (Okta.siteInstallation environment) as [si|]; [|discriminate].
  rewrite bind_ret.
  destruct (Js.narrow (Okta.client_id _)) as [clientId|] eqn:Hid; [|discriminate].
  destruct (Js.narrow (Okta.okta_domain _)) as [oktaDomain|] eqn:Hdomain; [|discriminate].
  destruct (Okta.parses w _); [|discriminate].
  cbn. intros [= <-]. exists si, clientId, oktaDomain. auto.
Qed.

(** X10: the [state] the initiator appends decodes, in the callback, to the
    location the visitor asked for (the empty string when the event has
    none), whatever [-] the location holds. *)
Theorem state_round_trip (w : Okta.World) (event : Okta.VisitorAuthEvent)
    (environment : Okta.Environment) (target : Okta.URL) :
  Js.completion (Okta.fetch_visitor_authentication w event environment)
  = Js.Return (Okta.Redirect target) ->
  exists state,
    OktaTrace.get (Okta.searchParams target) "state" = Some state
    /\ Okta.decodeLocation (Some state) = Js.or_empty (Okta.location event).
Proof.
  intros Hrun.
  destruct (initiator_redirect _ _ _ _ Hrun) as (si & clientId & oktaDomain & _ & _ & _ & ->).
  eexists. split; [reflexivity|].
  exact (decodeLocation_after_first_dash "state" _ eq_refl).
Qed.

Lemma state_round_trip_witness :
  exists state,
    OktaTrace.get
      [("client_id", "cid"); ("response_type", "code");
       ("redirect_uri",
        "https://integrations.example.com/v1/integrations/okta/visitor-auth/response");
       ("response_mode", "query"); ("scope", "openid"); ("state", "state-/a-b/c")]
      "state" = Some state
    /\ Okta.decodeLocation (Some state) = "/a-b/c".
Proof.
  exact (state_round_trip (Examples.world Examples.granted)
           {| Okta.location := Some "/a-b/c" |}
           (Examples.configured (Some "key")) _ eq_refl).
Defined.

(** X11: for one installation, the [redirect_uri] the initiator appends
    to the authorization URL and the [redirect_uri] the callback sends in
    the token exchange are the same. *)
Theorem redirect_uri_agrees
    (w : Okta.World) (event : Okta.VisitorAuthEvent) (request : Okta.Request)
    (environment : Okta.Environment) (target : Okta.URL) (req : Okta.FetchRequest) :
  Js.completion (Okta.fetch_visitor_authentication w event environment)
  = Js.Return (Okta.Redirect target) ->
  Okta.exchangeOf (Js.trace (Okta.handleFetchEvent w request environment)) = Some req ->
  exists uri,
    OktaTrace.get (Okta.searchParams target) "redirect_uri" = Some uri
    /\ OktaTrace.field req "redirect_uri" = Some uri.
Proof.
  intros Hredirect Hreq.
  destruct (initiator_redirect _ _ _ _ Hredirect)
    as (si & clientId & oktaDomain & Hsi & _ & _ & ->).
  destruct (exchangeOf_inv _ _ _ _ Hreq)
    as (si' & url & org & cid & csec & dom & Hsi' & Hurl & _ & _ & _ & _ & _ & _ & -> & _).
  assert (si' = si) as -> by congruence.
  apply narrow_Some in Hurl as [-> _].
  eexists. split; reflexivity.
Qed.

Lemma redirect_uri_agrees_witness :
  exists uri,
    OktaTrace.get
      [("client_id", "cid"); ("response_type", "code");
       ("redirect_uri",
        "https://integrations.example.com/v1/integrations/okta/visitor-auth/response");
       ("response_mode", "query"); ("scope", "openid"); ("state", "state-")]
      "redirect_uri" = Some uri
    /\ OktaTrace.field (Examples.exchange_request None) "redirect_uri" = Some uri.
Proof.
  exact (redirect_uri_agrees (Examples.world Examples.granted) {| Okta.location := None |}
           (Examples.callback None) (Examples.configured (Some "key")) _
           (Examples.exchange_request None) eq_refl eq_refl).
Defined.

(** X12: the URL the configuration component shows as sign-in redirect
    URI is the [redirect_uri] the initiator appends to the authorization
    redirect, and the [redirect_uri] of the token exchange. *)
Theorem shown_callback_url_is_redirect_uri
    (w : Okta.World) (event : Okta.VisitorAuthEvent) (request : Okta.Request)
    (environment : Okta.Environment) :
  (forall target,
      Js.completion (Okta.fetch_visitor_authentication w event environment)
      = Js.Return (Okta.Redirect target) ->
      OktaTrace.get (Okta.searchParams target) "redirect_uri"
      = Some (OktaComponent.VACallbackURL environment))
  /\ (forall req,
        Okta.exchangeOf (Js.trace (Okta.handleFetchEvent w request environment)) = Some req ->
        OktaTrace.field req "redirect_uri" = Some (OktaComponent.VACallbackURL environment)).
Proof.
  unfold OktaComponent.VACallbackURL. split.
  - intros target Hredirect.
    destruct (initiator_redirect _ _ _ _ Hredirect)
      as (si & clientId & oktaDomain & -> & _ & _ & ->).
    reflexivity.
  - intros req Hreq.
    destruct (exchangeOf_inv _ _ _ _ Hreq)
      as (si & url & org & cid & csec & dom & -> & Hurl & _ & _ & _ & _ & _ & _ & -> & _).
    apply narrow_Some in Hurl as [Hurl _]. cbn. rewrite Hurl. reflexivity.
Qed.

Lemma shown_callback_url_is_redirect_uri_witness :
  OktaTrace.field (Examples.exchange_request None) "redirect_uri"
  = Some (OktaComponent.VACallbackURL (Examples.configured (Some "key"))).
Proof.
  exact (proj2 (shown_callback_url_is_redirect_uri (Examples.world Examples.granted)
                  {| Okta.location := None |} (Examples.callback None)
                  (Examples.configured (Some "key")))
           (Examples.exchange_request None) eq_refl).
Defined.

(** ** Claims and state, once more *)

(** X13: sanitizing twice is sanitizing once, and re-signing a payload
    that was already re-signed gives the payload of re-signing the original
    claims: the earlier [exp] is dropped like the token's own. *)
Theorem resigning_forgets_earlier_expiry
    (now_ms earlier_ms : Z) (claims : gmap string Okta.Json) :
  Okta.sanitizeJWTTokenClaims (Okta.sanitizeJWTTokenClaims claims)
  = Okta.sanitizeJWTTokenClaims claims
  /\ Okta.signedClaims now_ms (Some (Okta.signedClaims earlier_ms (Some claims)))
     = Okta.signedClaims now_ms (Some claims).
Proof.
  split.
  - apply map_eq. intros key. rewrite !sanitizeJWTTokenClaims_lookup.
    by destruct (bool_decide (key ∈ ["iat"; "exp"; "__proto__"])).
  - unfold Okta.signedClaims, default. cbn [from_option id].
    apply map_eq. intros key.
    destruct (decide (key = "exp")) as [->|Hexp].
    + by rewrite !lookup_insert_eq.
    + rewrite !(lookup_insert_ne _ "exp" key) by done.
      rewrite !sanitizeJWTTokenClaims_lookup.
      rewrite lookup_insert_ne by done.
      rewrite sanitizeJWTTokenClaims_lookup.
      by destruct (bool_decide (key ∈ ["iat"; "exp"; "__proto__"])).
Qed.

Lemma drop_chars_suffix (n : nat) (s : string) :
  exists pre, s = pre +:+ Js.drop_chars n s.
Proof.
  revert s. induction n as [|n IH]; intros s; [by exists ""|].
  destruct s as [|a s]; [by exists ""|].
  destruct (IH s) as [pre Hpre]. exists (String a pre).
  change (String a s = String a (pre +:+ Js.drop_chars n s)). by f_equal.
Qed.

(** X14: the decoded location is always the end of the state it was read
    from: the handler cuts a prefix off and never adds or changes a
    character; a missing or empty state decodes to the empty location. *)
Theorem decodeLocation_is_suffix (state : option string) :
  (exists pre, Js.or_empty state = pre +:+ Okta.decodeLocation state)
  /\ Okta.decodeLocation None = ""
  /\ Okta.decodeLocation (Some "") = "".
Proof.
  split; [|split; reflexivity].
  unfold Okta.decodeLocation, Js.or_empty.
  destruct (Js.narrow state) as [s|]; [|by exists ""].
  apply drop_chars_suffix.
Qed.

(** ** The configuration component *)

(** X15: saving the form writes the form's three values, for the site of
    the installation, in one call to the host API; what is written is what
    the form shows when it is opened again. Without a site installation
    saving throws and writes nothing. *)
Theorem saved_form_is_shown_again
    (props : OktaComponent.OktaProps) (context : OktaComponent.ComponentEnvironment) :
  match Okta.siteInstallation (OktaComponent.environment context) with
  | Some si =>
      OktaComponent.action (OktaComponent.initialState props) context
      = ([OktaComponent.UpdateIntegrationSiteInstallation
            (OktaComponent.integration context) (OktaComponent.installation context)
            (Okta.site si) (OktaComponent.initialState props)],
         Js.Return OktaComponent.Complete)
      /\ OktaComponent.initialState
           (OktaComponent.props_of (OktaComponent.initialState props))
         = OktaComponent.initialState props
  | None =>
      OktaComponent.action (OktaComponent.initialState props) context
      = ([], Js.Throw (Js.PlainError "No site installation found"))
  end.
Proof.
  unfold OktaComponent.action, OktaComponent.assertSiteInstallation,
    Okta.assertSiteInstallation.
  destruct (Okta.siteInstallation (OktaComponent.environment context)) as [si|];
    [|reflexivity].
  split; [reflexivity|].
  unfold OktaComponent.initialState, OktaComponent.props_of, OktaComponent.configured.
  cbn. by rewrite !or_empty_Some.
Qed.

(** ** More on the setup handler *)

Section Setup.

Variable w : GitLab.World.
Variable event : GitLab.SpaceInstallationSetupEvent.
Variable environment : GitLab.Environment.

(** The decision the handler takes for an [Active] event whose
    configuration has a project and an auth token. *)
Lemma setup_ready installation configuration :
  GitLab.event_status event = GitLab.Active ->
  GitLab.spaceInstallation environment = Some installation ->
  GitLab.configuration installation = Some configuration ->
  Js.truthy (GitLab.project configuration) = true ->
  Js.truthy (GitLab.auth_token configuration) = true ->
  GitLab.handleSpaceInstallationSetupEvent w event environment
  = match GitLab.previous_configuration (GitLab.previous event) with
    | Some previousConfig =>
        if Js.truthy_value
             (GitLab.shouldUpdateGitLabWebHook configuration
                {| GitLab.status := GitLab.previous_status (GitLab.previous event);
                   GitLab.conf := previousConfig |})
        then GitLab.replaceWebhook w event environment
               (GitLab.publicEndpoint installation) configuration (Some previousConfig)
        else ([], Js.Return tt)
    | None =>
        GitLab.replaceWebhook w event environment
          (GitLab.publicEndpoint installation) configuration None
    end.
Proof.
  intros Hactive Hinstallation Hconfiguration Hproject Htoken.
  unfold GitLab.handleSpaceInstallationSetupEvent.
  rewrite Hactive, Hinstallation, Hconfiguration, Hproject, Htoken.
  cbn [GitLab.status_eqb negb orb].
  destruct (GitLab.previous_configuration (GitLab.previous event)) as [previousConfig|];
    [|reflexivity].
  destruct (Js.truthy_value _); reflexivity.
Qed.

(** What replacing does: an optional uninstall, then install and update;
    it always returns. *)
Lemma replaceWebhook_actions publicEndpoint configuration previousConfig :
  let webhookUrl := publicEndpoint +:+ "/webhook" in
  let newHookId := GitLab.installGitLabWebhook w webhookUrl configuration in
  GitLab.previous_configuration (GitLab.previous event) = previousConfig ->
  Js.completion (GitLab.replaceWebhook w event environment publicEndpoint configuration
                   previousConfig) = Js.Return tt
  /\ GitLab.actions
       (Js.trace (GitLab.replaceWebhook w event environment publicEndpoint configuration
                    previousConfig))
     = match previousConfig, GitLab.recorded_hook previousConfig with
       | Some previous, Some prevHookId => [GitLab.UninstallWebhook prevHookId previous]
       | _, _ => []
       end
       ++ [GitLab.InstallWebhook webhookUrl configuration;
           GitLab.UpdateIntegrationSpaceInstallation
             (GitLab.integration_name environment)
             (GitLab.installationId event) (GitLab.spaceId event)
             (GitLab.with_hook_id configuration newHookId)].
Proof.
  intros webhookUrl newHookId Hprevious.
  unfold GitLab.replaceWebhook, GitLab.recorded_hook. rewrite Hprevious.
  destruct previousConfig as [previous|]; cbn [mbind option_bind]; [|split; reflexivity].
  destruct (Js.narrow_num (GitLab.hook_id previous)); split; reflexivity.
Qed.

(** Every run of the setup handler: it throws having done nothing, or it
    returns, and its webhook actions are none, or install and update, or
    uninstall, install and update; the update records the identifier the
    install returned. *)
Lemma setup_summary :
  (exists e, GitLab.handleSpaceInstallationSetupEvent w event environment = ([], Js.Throw e))
  \/ (Js.completion (GitLab.handleSpaceInstallationSetupEvent w event environment)
      = Js.Return tt
      /\ (GitLab.actions
            (Js.trace (GitLab.handleSpaceInstallationSetupEvent w event environment)) = []
          \/ exists webhookUrl configuration uninstall,
               GitLab.actions
                 (Js.trace (GitLab.handleSpaceInstallationSetupEvent w event environment))
               = uninstall
                 ++ [GitLab.InstallWebhook webhookUrl configuration;
                     GitLab.UpdateIntegrationSpaceInstallation
                       (GitLab.integration_name environment)
                       (GitLab.installationId event) (GitLab.spaceId event)
                       (GitLab.with_hook_id configuration
                          (GitLab.installGitLabWebhook w webhookUrl configuration))]
               /\ (uninstall = []
                   /\ GitLab.recorded_hook
                        (GitLab.previous_configuration (GitLab.previous event)) = None
                   \/ exists prevHookId previous,
                        GitLab.previous_configuration (GitLab.previous event)
                        = Some previous
                        /\ GitLab.recorded_hook (Some previous) = Some prevHookId
                        /\ uninstall = [GitLab.UninstallWebhook prevHookId previous]))).
Proof.
  destruct (GitLab.event_status event) eqn:Hstatus.
  - destruct (GitLab.spaceInstallation environment) as [installation|] eqn:Hinstallation.
    2:{ left. eexists. unfold GitLab.handleSpaceInstallationSetupEvent.
        rewrite Hstatus, Hinstallation. reflexivity. }
    destruct (GitLab.configuration installation) as [configuration|] eqn:Hconfiguration.
    2:{ left. eexists. unfold GitLab.handleSpaceInstallationSetupEvent.
        rewrite Hstatus, Hinstallation, Hconfiguration. reflexivity. }
    destruct (Js.truthy (GitLab.project configuration)) eqn:Hproject.
    2:{ left. eexists. unfold GitLab.handleSpaceInstallationSetupEvent.
        rewrite Hstatus, Hinstallation, Hconfiguration, Hproject. reflexivity. }
    destruct (Js.truthy (GitLab.auth_token configuration)) eqn:Htoken.
    2:{ left. eexists. unfold GitLab.handleSpaceInstallationSetupEvent.
        rewrite Hstatus, Hinstallation, Hconfiguration, Hproject, Htoken. reflexivity. }
    right.
    rewrite (setup_ready installation configuration
               Hstatus Hinstallation Hconfiguration Hproject Htoken).
    destruct (GitLab.previous_configuration (GitLab.previous event))
      as [previous|] eqn:Hprevious.
    + destruct (Js.truthy_value _); [|split; [reflexivity|by left]].
      destruct (replaceWebhook_actions (GitLab.publicEndpoint installation) configuration
                  (Some previous) Hprevious) as [Hreturn Hactions].
      split; [exact Hreturn|]. right. rewrite Hactions.
      eexists _, _, _. split; [reflexivity|].
      destruct (GitLab.recorded_hook (Some previous)) as [prevHookId|] eqn:Hhook;
        [right; eauto|left; split; reflexivity].
    + destruct (replaceWebhook_actions (GitLab.publicEndpoint installation) configuration
                  None Hprevious) as [Hreturn Hactions].
      split; [exact Hreturn|]. right. rewrite Hactions.
      eexists _, _, _. split; [reflexivity|]. left. split; reflexivity.
  - right. unfold GitLab.handleSpaceInstallationSetupEvent. rewrite Hstatus.
    split; [reflexivity|by left].
  - destruct (GitLab.spaceInstallation environment) as [installation|] eqn:Hinstallation.
    + right. unfold GitLab.handleSpaceInstallationSetupEvent.
      rewrite Hstatus, Hinstallation. split; [reflexivity|by left].
    + left. eexists. unfold GitLab.handleSpaceInstallationSetupEvent.
      rewrite Hstatus, Hinstallation. reflexivity.
Qed.

End Setup.

(** X16: an [Active] setup event whose configuration has a project and an
    auth token, and for which [shouldUpdateGitLabWebHook] is false against
    the previous configuration, changes nothing: no call, no log line, a
    normal return. So does an event whose status is neither [Pending] nor
    [Active], for an environment with a space installation. *)
Theorem setup_without_change_does_nothing
    (w : GitLab.World) (event : GitLab.SpaceInstallationSetupEvent)
    (environment : GitLab.Environment) (installation : GitLab.SpaceInstallation) :
  GitLab.spaceInstallation environment = Some installation ->
  (forall configuration previousConfig,
      GitLab.event_status event = GitLab.Active ->
      GitLab.configuration installation = Some configuration ->
      Js.truthy (GitLab.project configuration) = true ->
      Js.truthy (GitLab.auth_token configuration) = true ->
      GitLab.previous_configuration (GitLab.previous event) = Some previousConfig ->
      Js.truthy_value
        (GitLab.shouldUpdateGitLabWebHook configuration
           {| GitLab.status := GitLab.previous_status (GitLab.previous event);
              GitLab.conf := previousConfig |}) = false ->
      GitLab.handleSpaceInstallationSetupEvent w event environment = ([], Js.Return tt))
  /\ (GitLab.event_status event = GitLab.Paused ->
      GitLab.handleSpaceInstallationSetupEvent w event environment = ([], Js.Return tt)).
Proof.
  intros Hinstallation. split.
  - intros configuration previousConfig Hactive Hconfiguration Hproject Htoken
      Hprevious Hshould.
    rewrite (setup_ready w event environment installation configuration
               Hactive Hinstallation Hconfiguration Hproject Htoken).
    rewrite Hprevious, Hshould. reflexivity.
  - intros Hpaused. unfold GitLab.handleSpaceInstallationSetupEvent.
    rewrite Hpaused, Hinstallation. reflexivity.
Qed.

Lemma setup_without_change_does_nothing_witness :
  GitLab.handleSpaceInstallationSetupEvent Examples.gitlab_world
    (Examples.setup GitLab.Active "group/docs" (Some 7))
    (Examples.gitlab_environment
       (Examples.gitlab_configuration "group/docs" (Some "glpat-token") (Some 7)))
  = ([], Js.Return tt)
  /\ GitLab.handleSpaceInstallationSetupEvent Examples.gitlab_world
       (Examples.setup GitLab.Paused "group/old" (Some 7))
       (Examples.gitlab_environment
          (Examples.gitlab_configuration "group/docs" (Some "glpat-token") (Some 7)))
     = ([], Js.Return tt).
Proof.
  split.
  - exact (proj1 (setup_without_change_does_nothing Examples.gitlab_world
             (Examples.setup GitLab.Active "group/docs" (Some 7))
             (Examples.gitlab_environment
                (Examples.gitlab_configuration "group/docs" (Some "glpat-token") (Some 7)))
             _ eq_refl)
             (Examples.gitlab_configuration "group/docs" (Some "glpat-token") (Some 7))
             (Examples.gitlab_configuration "group/docs" (Some "glpat-token") (Some 7))
             eq_refl eq_refl eq_refl eq_refl eq_refl eq_refl).
  - exact (proj2 (setup_without_change_does_nothing Examples.gitlab_world
             (Examples.setup GitLab.Paused "group/old" (Some 7))
             (Examples.gitlab_environment
                (Examples.gitlab_configuration "group/docs" (Some "glpat-token") (Some 7)))
             _ eq_refl) eq_refl).
Defined.

(** X17: the first [Active] setup of an installation (the event has no
    previous configuration) installs a webhook at
    [{publicEndpoint}/webhook] and writes the identifier it got into the
    configuration, without consulting [shouldUpdateGitLabWebHook] and
    without uninstalling anything. *)
Theorem first_setup_installs
    (w : GitLab.World) (event : GitLab.SpaceInstallationSetupEvent)
    (environment : GitLab.Environment) (installation : GitLab.SpaceInstallation)
    (configuration : GitLab.GitLabSpaceInstallationConfiguration) :
  GitLab.event_status event = GitLab.Active ->
  GitLab.spaceInstallation environment = Some installation ->
  GitLab.configuration installation = Some configuration ->
  Js.truthy (GitLab.project configuration) = true ->
  Js.truthy (GitLab.auth_token configuration) = true ->
  GitLab.previous_configuration (GitLab.previous event) = None ->
  let webhookUrl := GitLab.publicEndpoint installation +:+ "/webhook" in
  let newHookId := GitLab.installGitLabWebhook w webhookUrl configuration in
  Js.completion (GitLab.handleSpaceInstallationSetupEvent w event environment)
  = Js.Return tt
  /\ GitLab.actions
       (Js.trace (GitLab.handleSpaceInstallationSetupEvent w event environment))
     = [GitLab.InstallWebhook webhookUrl configuration;
        GitLab.UpdateIntegrationSpaceInstallation
          (GitLab.integration_name environment)
          (GitLab.installationId event) (GitLab.spaceId event)
          (GitLab.with_hook_id configuration newHookId)]
  /\ GitLab.persisted_hook
       (Js.trace (GitLab.handleSpaceInstallationSetupEvent w event environment))
     = Some newHookId.
Proof.
  intros Hactive Hinstallation Hconfiguration Hproject Htoken Hprevious.
  rewrite (setup_ready w event environment installation configuration
             Hactive Hinstallation Hconfiguration Hproject Htoken).
  rewrite Hprevious. unfold GitLab.replaceWebhook.
  repeat split.
Qed.

Lemma first_setup_installs_witness :
  GitLab.persisted_hook
    (Js.trace
       (GitLab.handleSpaceInstallationSetupEvent Examples.gitlab_world
          {| GitLab.event_status := GitLab.Active;
             GitLab.installationId := "inst_1";
             GitLab.spaceId := "space_1";
             GitLab.previous :=
               {| GitLab.previous_status := GitLab.Pending;
                  GitLab.previous_configuration := None |} |}
          (Examples.gitlab_environment
             (Examples.gitlab_configuration "group/docs" (Some "glpat-token") None))))
  = Some 42.
Proof.
  exact (proj2 (proj2
    (first_setup_installs Examples.gitlab_world
       {| GitLab.event_status := GitLab.Active;
          GitLab.installationId := "inst_1";
          GitLab.spaceId := "space_1";
          GitLab.previous :=
            {| GitLab.previous_status := GitLab.Pending;
               GitLab.previous_configuration := None |} |}
       (Examples.gitlab_environment
          (Examples.gitlab_configuration "group/docs" (Some "glpat-token") None))
       _ (Examples.gitlab_configuration "group/docs" (Some "glpat-token") None)
       eq_refl eq_refl eq_refl eq_refl eq_refl eq_refl))).
Defined.

(** X18: an [Active] setup event for an installation whose configuration
    is missing, or lacks a project or an auth token (missing or empty),
    throws an error that names the space and the installation, before any
    webhook action and whatever the previous configuration is. *)
Theorem incomplete_configuration_throws
    (w : GitLab.World) (event : GitLab.SpaceInstallationSetupEvent)
    (environment : GitLab.Environment) (installation : GitLab.SpaceInstallation) :
  GitLab.event_status event = GitLab.Active ->
  GitLab.spaceInstallation environment = Some installation ->
  match GitLab.configuration installation with
  | Some configuration =>
      Js.truthy (GitLab.project configuration) = false
      \/ Js.truthy (GitLab.auth_token configuration) = false
  | None => True
  end ->
  GitLab.handleSpaceInstallationSetupEvent w event environment
  = ([], Js.Throw (Js.PlainError
       ("No GitLab project or auth token provided for Space installation "
          +:+ GitLab.spaceId event +:+ "/" +:+ GitLab.installationId event))).
Proof.
  intros Hactive Hinstallation Hmissing.
  unfold GitLab.handleSpaceInstallationSetupEvent.
  rewrite Hactive, Hinstallation. cbn [GitLab.status_eqb].
  destruct (GitLab.configuration installation) as [configuration|]; [|reflexivity].
  destruct Hmissing as [-> | ->]; [reflexivity|].
  destruct (Js.truthy (GitLab.project configuration)); reflexivity.
Qed.

Lemma incomplete_configuration_throws_witness :
  GitLab.handleSpaceInstallationSetupEvent Examples.gitlab_world
    (Examples.setup GitLab.Active "group/docs" (Some 7))
    (Examples.gitlab_environment
       (Examples.gitlab_configuration "group/docs" (Some "") (Some 7)))
  = ([], Js.Throw (Js.PlainError
       "No GitLab project or auth token provided for Space installation space_1/inst_1")).
Proof.
  exact (incomplete_configuration_throws Examples.gitlab_world
           (Examples.setup GitLab.Active "group/docs" (Some 7))
           (Examples.gitlab_environment
              (Examples.gitlab_configuration "group/docs" (Some "") (Some 7)))
           _ eq_refl eq_refl (or_intror eq_refl)).
Defined.

(** X20: unless the previous installation was [Pending] without a ref,
    [shouldUpdateGitLabWebHook] looks at project, auth token and host only:
    two calls that agree on these give the same answer, a boolean,
    whatever the refs and the recorded webhook ids are. *)
Theorem shouldUpdateGitLabWebHook_ignores_ref_and_hook
    (newConf newConf' : GitLab.GitLabSpaceInstallationConfiguration)
    (previous previous' : GitLab.Previous) :
  GitLab.project newConf = GitLab.project newConf' ->
  GitLab.auth_token newConf = GitLab.auth_token newConf' ->
  GitLab.gitlab_host newConf = GitLab.gitlab_host newConf' ->
  GitLab.project (GitLab.conf previous) = GitLab.project (GitLab.conf previous') ->
  GitLab.auth_token (GitLab.conf previous) = GitLab.auth_token (GitLab.conf previous') ->
  GitLab.gitlab_host (GitLab.conf previous) = GitLab.gitlab_host (GitLab.conf previous') ->
  GitLab.status previous <> GitLab.Pending
  \/ Js.truthy (GitLab.ref (GitLab.conf previous)) = true ->
  GitLab.status previous' <> GitLab.Pending
  \/ Js.truthy (GitLab.ref (GitLab.conf previous')) = true ->
  GitLab.shouldUpdateGitLabWebHook newConf previous
  = GitLab.shouldUpdateGitLabWebHook newConf' previous'
  /\ exists b, GitLab.shouldUpdateGitLabWebHook newConf previous = Js.VBool b.
Proof.
  intros Hp Ht Hh Hp' Ht' Hh' Hprevious Hprevious'.
  unfold GitLab.shouldUpdateGitLabWebHook.
  rewrite <- Hp, <- Ht, <- Hh, <- Hp', <- Ht', <- Hh'.
  assert (forall p : GitLab.Previous,
            GitLab.status p <> GitLab.Pending
            \/ Js.truthy (GitLab.ref (GitLab.conf p)) = true ->
            forall v,
              Js.and (Js.and (Js.VBool (GitLab.status_eqb (GitLab.status p) GitLab.Pending))
                        (Js.VBool (negb (Js.truthy (GitLab.ref (GitLab.conf p)))))) v
              = Js.VBool false) as Hfalse.
  { intros p [Hstatus|Href] v.
    - destruct (GitLab.status p); [reflexivity|congruence|reflexivity].
    - rewrite Href. destruct (GitLab.status_eqb _ _); reflexivity. }
  rewrite (Hfalse previous Hprevious), (Hfalse previous' Hprevious').
  split; [reflexivity|].
  destruct (Js.strict_ne (GitLab.project newConf) _),
    (Js.strict_ne (GitLab.auth_token newConf) _),
    (Js.strict_ne (GitLab.gitlab_host newConf) _); eexists; reflexivity.
Qed.

Lemma shouldUpdateGitLabWebHook_ignores_ref_and_hook_witness :
  GitLab.shouldUpdateGitLabWebHook
    (Examples.gitlab_configuration "group/docs" (Some "glpat-token") (Some 7))
    {| GitLab.status := GitLab.Active;
       GitLab.conf := Examples.gitlab_configuration "group/docs" (Some "glpat-token") None |}
  = GitLab.shouldUpdateGitLabWebHook
      {| GitLab.project := Some "group/docs"; GitLab.auth_token := Some "glpat-token";
         GitLab.gitlab_host := Some "https://gitlab.com";
         GitLab.ref := Some "refs/heads/next"; GitLab.hook_id := None |}
      {| GitLab.status := GitLab.Paused;
         GitLab.conf :=
           Examples.gitlab_configuration "group/docs" (Some "glpat-token") (Some 9) |}.
Proof.
  refine (proj1 (shouldUpdateGitLabWebHook_ignores_ref_and_hook _ _ _ _
                   eq_refl eq_refl eq_refl eq_refl eq_refl eq_refl
                   (or_introl _) (or_introl _))); discriminate.
Defined.

(** ** Commit statuses for Git Sync *)

(** X21: for an installation with a configuration, a Git Sync event
    sends the commit status with context [GitBook] and the app link as
    URL as its last call, once: alone when the revision has no (or an
    empty) public link, and after the status with that link as URL and
    [GitBook - {hostname of the link}] as context when it has one, the link
    is a URL and the provider accepted that status. When the link is no
    URL the handler throws a [TypeError] before sending anything, and when
    the provider rejects the status for the public link the status for the
    app link is not sent. All statuses are for the configured project and
    the event's commit; the handler resolves or rejects as its last call
    does. *)
Theorem sync_sends_app_status_last
    (w : GitLabSync.World) (event : GitLabSync.GitSyncEvent)
    (environment : GitLab.Environment) (installation : GitLab.SpaceInstallation)
    (configuration : GitLab.GitLabSpaceInstallationConfiguration) :
  GitLab.spaceInstallation environment = Some installation ->
  GitLab.configuration installation = Some configuration ->
  let update status :=
    GitLabSync.UpdateGitLabProjectCommitStatus (GitLab.project configuration)
      (GitLabSync.commitId event) status configuration in
  let state := GitLabSync.status_of event in
  let app_status :=
    {| GitLabSync.context := "GitBook";
       GitLabSync.description := GitLabSync.getCommitStatusDescription state;
       GitLabSync.state := state;
       GitLabSync.url := GitLabSync.app (GitLabSync.revisionUrls event) |} in
  let outcome call :=
    match GitLabSync.rejects w call with
    | Some e => Js.Throw e
    | None => Js.Return tt
    end in
  match Js.narrow (GitLabSync.public (GitLabSync.revisionUrls event)) with
  | None =>
      GitLabSync.handleSpaceGitSyncProgressStatusEvents w event environment
      = ([update app_status], outcome (update app_status))
  | Some publicUrl =>
      match GitLabSync.hostname w publicUrl with
      | None =>
          exists message,
            GitLabSync.handleSpaceGitSyncProgressStatusEvents w event environment
            = ([], Js.Throw (Js.TypeError message))
      | Some host =>
          let public_status :=
            {| GitLabSync.context := "GitBook - " +:+ host;
               GitLabSync.description := GitLabSync.getCommitStatusDescription state;
               GitLabSync.state := state;
               GitLabSync.url := publicUrl |} in
          match GitLabSync.rejects w (update public_status) with
          | Some e =>
              GitLabSync.handleSpaceGitSyncProgressStatusEvents w event environment
              = ([update public_status], Js.Throw e)
          | None =>
              GitLabSync.handleSpaceGitSyncProgressStatusEvents w event environment
              = ([update public_status; update app_status], outcome (update app_status))
          end
      end
  end.
Proof.
  intros Hinstallation Hconfiguration update state app_status outcome.
  subst update state app_status outcome.
  unfold GitLabSync.handleSpaceGitSyncProgressStatusEvents,
    GitLabSync.updateCommitStatusWithPreviewLinks,
    GitLabSync.updateGitLabProjectCommitStatus.
  rewrite Hinstallation, Hconfiguration.
  destruct (Js.narrow (GitLabSync.public (GitLabSync.revisionUrls event)))
    as [publicUrl|].
  - destruct (GitLabSync.hostname w publicUrl) as [host|]; [|eexists; reflexivity].
    cbn. destruct (GitLabSync.rejects w _) as [e|]; [reflexivity|].
    cbn. destruct (GitLabSync.rejects w _) as [e|]; reflexivity.
  - cbn. destruct (GitLabSync.rejects w _) as [e|]; reflexivity.
Qed.

Lemma sync_sends_app_status_last_witness :
  GitLabSync.statuses
    (Js.trace
       (GitLabSync.handleSpaceGitSyncProgressStatusEvents Examples.sync_world
          (GitLabSync.SpaceGitSyncCompleted "c0ffee"
             (Examples.links (Some "https://docs.example.com/space")) GitLabSync.Succeeded)
          (Examples.gitlab_environment
             (Examples.gitlab_configuration "group/docs" (Some "glpat-token") (Some 7)))))
  = [{| GitLabSync.context := "GitBook - docs.example.com";
        GitLabSync.description := "Content is live on GitBook";
        GitLabSync.state := GitLabSync.Success;
        GitLabSync.url := "https://docs.example.com/space" |};
     {| GitLabSync.context := "GitBook";
        GitLabSync.description := "Content is live on GitBook";
        GitLabSync.state := GitLabSync.Success;
        GitLabSync.url := "https://app.gitbook.com/s/space_1/~/revisions/r1" |}].
Proof.
  exact (f_equal (fun run => GitLabSync.statuses (Js.trace run))
           (sync_sends_app_status_last Examples.sync_world
              (GitLabSync.SpaceGitSyncCompleted "c0ffee"
                 (Examples.links (Some "https://docs.example.com/space"))
                 GitLabSync.Succeeded)
              (Examples.gitlab_environment
                 (Examples.gitlab_configuration "group/docs" (Some "glpat-token") (Some 7)))
              _ (Examples.gitlab_configuration "group/docs" (Some "glpat-token") (Some 7))
              eq_refl eq_refl)).
Defined.

(** A public link that is no URL stops the handler before it sends
    anything, and a provider that refuses the first status never gets the
    second. *)
Example sync_failures :
  GitLabSync.handleSpaceGitSyncProgressStatusEvents Examples.sync_world
    (GitLabSync.SpaceGitSyncStarted "c0ffee" (Examples.links (Some "not a link")))
    (Examples.gitlab_environment
       (Examples.gitlab_configuration "group/docs" (Some "glpat-token") (Some 7)))
  = ([], Js.Throw (Js.TypeError "Invalid URL"))
  /\ GitLabSync.statuses
       (Js.trace
          (GitLabSync.handleSpaceGitSyncProgressStatusEvents Examples.sync_refused
             (GitLabSync.SpaceGitSyncStarted "c0ffee"
                (Examples.links (Some "https://docs.example.com/space")))
             (Examples.gitlab_environment
                (Examples.gitlab_configuration "group/docs" (Some "glpat-token")
                   (Some 7)))))
     = [{| GitLabSync.context := "GitBook - docs.example.com";
           GitLabSync.description := "Updating content on GitBook...";
           GitLabSync.state := GitLabSync.Running;
           GitLabSync.url := "https://docs.example.com/space" |}].
Proof. split; reflexivity. Qed.

(** X22: whatever the environment, the statuses a Git Sync event sends are
    at most two and all tell the same: a started event reports [Running]
    with [Updating content on GitBook...], a completed one reports its
    outcome, [Content is live on GitBook] for a success and
    [Error while updating content, contact GitBook support] for a failure.
    A started event is never reported as finished. *)
Theorem sync_statuses_tell_the_event
    (w : GitLabSync.World) (event : GitLabSync.GitSyncEvent)
    (environment : GitLab.Environment) :
  let sent :=
    GitLabSync.statuses
      (Js.trace (GitLabSync.handleSpaceGitSyncProgressStatusEvents w event environment)) in
  (length sent <= 2)%nat
  /\ Forall
       (fun status =>
          match event with
          | GitLabSync.SpaceGitSyncStarted _ _ =>
              GitLabSync.state status = GitLabSync.Running
              /\ GitLabSync.description status = "Updating content on GitBook..."
          | GitLabSync.SpaceGitSyncCompleted _ _ GitLabSync.Succeeded =>
              GitLabSync.state status = GitLabSync.Success
              /\ GitLabSync.description status = "Content is live on GitBook"
          | GitLabSync.SpaceGitSyncCompleted _ _ GitLabSync.Failed =>
              GitLabSync.state status = GitLabSync.Failure
              /\ GitLabSync.description status
                 = "Error while updating content, contact GitBook support"
          end)
       sent.
Proof.
  intros sent. subst sent.
  unfold GitLabSync.handleSpaceGitSyncProgressStatusEvents,
    GitLabSync.updateCommitStatusWithPreviewLinks,
    GitLabSync.updateGitLabProjectCommitStatus.
  destruct (GitLab.spaceInstallation environment) as [installation|];
    [|split; [cbn; lia | constructor]].
  destruct (GitLab.configuration installation) as [configuration|],
    (Js.narrow (GitLabSync.public (GitLabSync.revisionUrls event))) as [publicUrl|];
    try destruct (GitLabSync.hostname w publicUrl) as [host|];
    cbn;
    repeat (match goal with
            | |- context [GitLabSync.rejects w ?c] => destruct (GitLabSync.rejects w c)
            end; cbn);
    (split; [lia|]);
    destruct event as [c u|c u [|]]; repeat constructor.
Qed.

(** X23: a Git Sync event for an environment without a space installation
    is dropped: nothing is sent and the handler returns; with an
    installation that has no configuration the handler throws a
    [TypeError] before sending anything; with a configuration, nothing is
    sent exactly when the revision's public link is no URL. *)
Theorem sync_without_installation_sends_nothing
    (w : GitLabSync.World) (event : GitLabSync.GitSyncEvent)
    (environment : GitLab.Environment) :
  match GitLab.spaceInstallation environment with
  | None =>
      GitLabSync.handleSpaceGitSyncProgressStatusEvents w event environment
      = ([], Js.Return tt)
  | Some installation =>
      match GitLab.configuration installation with
      | None =>
          exists message,
            GitLabSync.handleSpaceGitSyncProgressStatusEvents w event environment
            = ([], Js.Throw (Js.TypeError message))
      | Some _ =>
          Js.trace (GitLabSync.handleSpaceGitSyncProgressStatusEvents w event environment)
          = []
          <-> exists publicUrl,
                Js.narrow (GitLabSync.public (GitLabSync.revisionUrls event))
                = Some publicUrl
                /\ GitLabSync.hostname w publicUrl = None
      end
  end.
Proof.
  unfold GitLabSync.handleSpaceGitSyncProgressStatusEvents,
    GitLabSync.updateCommitStatusWithPreviewLinks,
    GitLabSync.updateGitLabProjectCommitStatus.
  destruct (GitLab.spaceInstallation environment) as [installation|]; [|reflexivity].
  destruct (GitLab.configuration installation) as [configuration|].
  2:{ destruct (Js.narrow (GitLabSync.public (GitLabSync.revisionUrls event)));
        cbn; eauto. }
  destruct (Js.narrow (GitLabSync.public (GitLabSync.revisionUrls event)))
    as [publicUrl|].
  - destruct (GitLabSync.hostname w publicUrl) as [host|] eqn:Hhost.
    + cbn.
      repeat (match goal with
              | |- context [GitLabSync.rejects w ?c] => destruct (GitLabSync.rejects w c)
              end; cbn);
        (split; [discriminate|]); intros (url & [= <-] & H); congruence.
    + cbn. split; [eauto|reflexivity].
  - cbn. destruct (GitLabSync.rejects w _); cbn;
      (split; [discriminate|]); intros (url & H & _); discriminate H.
Qed.

(** ** The provider's error detail *)

Lemma respond_completion (request : Okta.Request)
    (m m' : Js.M Okta.Event (option Okta.Response)) :
  Js.completion m = Js.completion m' ->
  Js.completion (Okta.respond request m) = Js.completion (Okta.respond request m').
Proof.
  destruct m as [t c], m' as [t' c']. intros H. cbn in H. subst c.
  destruct c' as [[response|]|e]; [reflexivity..|].
  rewrite !respond_caught. reflexivity.
Qed.

(** What follows the exchange does not depend on the error detail. *)
Lemma afterExchange_detail
    (w : Okta.World) (request : Okta.Request) (environment : Okta.Environment)
    (detail : Okta.FetchRequest -> option string * option string)
    (urls : option Okta.SiteUrls) (req : Okta.FetchRequest) :
  let rest := Okta.afterExchange w environment request urls (Okta.fetch w req) in
  let rest' :=
    Okta.afterExchange (OktaTrace.with_error_detail w detail) environment request urls
      (Okta.fetch (OktaTrace.with_error_detail w detail) req) in
  Js.completion rest' = Js.completion rest
  /\ OktaTrace.kinds (Js.trace rest') = OktaTrace.kinds (Js.trace rest).
Proof.
  cbn zeta.
  assert (Okta.ok (Okta.fetch (OktaTrace.with_error_detail w detail) req)
          = Okta.ok (Okta.fetch w req)) as Hsame by reflexivity.
  destruct (Okta.ok (Okta.fetch w req)) eqn:Hok.
  - rewrite (afterExchange_ok _ _ _ _ _ Hsame), (afterExchange_ok _ _ _ _ _ Hok). cbn.
    destruct (Okta.body (Okta.fetch w req)) as [[object|]|e]; [|split; reflexivity..].
    cbn. destruct (Js.narrow (Okta.access_token object)) as [token|]; [|split; reflexivity].
    destruct (Okta.jwt_decode w token) as [decoded|e]; split; reflexivity.
  - rewrite (afterExchange_not_ok _ _ _ _ _ Hsame), (afterExchange_not_ok _ _ _ _ _ Hok).
    cbn. destruct (Okta.body (Okta.fetch w req)) as [[object|]|e]; split; reflexivity.
Qed.

(** X24: what the handler returns, and which calls it makes, do not depend
    on the [error] and [error_description] of the identity provider's
    reply: two worlds that differ in nothing else give the same response,
    the same exchange and the same calls in the same order. The detail
    only reaches the log. *)
Theorem response_ignores_error_detail
    (w : Okta.World) (request : Okta.Request) (environment : Okta.Environment)
    (detail : Okta.FetchRequest -> option string * option string) :
  let run := Okta.handleFetchEvent w request environment in
  let run' :=
    Okta.handleFetchEvent (OktaTrace.with_error_detail w detail) request environment in
  Js.completion run' = Js.completion run
  /\ Okta.exchangeOf (Js.trace run') = Okta.exchangeOf (Js.trace run)
  /\ OktaTrace.kinds (Js.trace run') = OktaTrace.kinds (Js.trace run).
Proof.
  cbn zeta.
  enough (forall m m' : Js.M Okta.Event (option Okta.Response),
            Js.completion m' = Js.completion m
            /\ Okta.exchangeOf (Js.trace m') = Okta.exchangeOf (Js.trace m)
            /\ OktaTrace.kinds (Js.trace m') = OktaTrace.kinds (Js.trace m) ->
            Js.completion (Okta.respond request m') = Js.completion (Okta.respond request m)
            /\ Okta.exchangeOf (Js.trace (Okta.respond request m'))
               = Okta.exchangeOf (Js.trace (Okta.respond request m))
            /\ OktaTrace.kinds (Js.trace (Okta.respond request m'))
               = OktaTrace.kinds (Js.trace (Okta.respond request m))) as Hrespond.
  2:{ intros m m' (Hc & He & Hk).
      rewrite !respond_exchangeOf, !respond_kinds.
      split; [apply respond_completion, Hc|]. split; assumption. }
  destruct (Okta.siteInstallation environment) as [si|] eqn:Hsi.
  2:{ rewrite !run_no_installation by assumption. repeat split. }
  destruct (Js.narrow (Okta.publicEndpoint si)) as [url|] eqn:Hurl.
  2:{ rewrite !(run_no_endpoint _ _ _ si) by assumption. repeat split. }
  destruct (Okta.parses w url) eqn:Hparses.
  2:{ rewrite (run_unparsable w _ _ si url Hsi Hurl Hparses),
        (run_unparsable (OktaTrace.with_error_detail w detail) _ _ si url Hsi Hurl Hparses).
      repeat split. }
  rewrite (run_routed w _ _ si url Hsi Hurl Hparses),
    (run_routed (OktaTrace.with_error_detail w detail) _ _ si url Hsi Hurl Hparses).
  apply Hrespond.
  cbn [OktaTrace.with_error_detail Okta.routes Okta.pathname].
  destruct (Okta.routes w "GET" _ request); [|repeat split].
  destruct (Js.truthy (Okta.site si)) eqn:Hsite.
  2:{ unfold Okta.visitorAuthResponse. rewrite Hsite. repeat split. }
  destruct (Js.narrow (Okta.organization environment)) as [org|] eqn:Horg.
  2:{ unfold Okta.visitorAuthResponse, Okta.getPublishedContentUrls, Okta.assertOrgId.
      rewrite Hsite, Horg. repeat split. }
  rewrite !(visitorAuthResponse_at_check _ _ _ si url org Hsi Hsite Horg).
  destruct (Js.narrow (Okta.client_id _)) as [cid|]; [|repeat split].
  destruct (Js.narrow (Okta.client_secret _)) as [csec|]; [|repeat split].
  destruct (Js.narrow (Okta.okta_domain _)) as [dom|]; [|repeat split].
  destruct (afterExchange_detail w request environment detail
              (Okta.getSiteById w org (Okta.site si))
              (Okta.tokenRequest url cid csec dom request)) as [Hc Hk].
  split; [exact Hc|]. split; [reflexivity|].
  exact (f_equal (fun kinds => OktaTrace.Lookup :: OktaTrace.Exchange :: kinds) Hk).
Qed.

(** ** One webhook per installation *)

Lemma registered_actions (w : GitLab.World) (t : list GitLab.Event) (hooks : list Z) :
  GitLab.registered w hooks t = GitLab.registered w hooks (GitLab.actions t).
Proof.
  revert hooks. induction t as [|e t IH]; intros hooks; [reflexivity|].
  destruct e; cbn; auto.
Qed.

Lemma actions_take (t : list GitLab.Event) (n : nat) :
  exists m, GitLab.actions (take n t) = take m (GitLab.actions t).
Proof.
  revert n. induction t as [|e t IH]; intros n.
  - exists 0%nat. by destruct n.
  - destruct n as [|n]; [by exists 0%nat|].
    destruct (IH n) as [m Hm]. cbn [take].
    unfold GitLab.actions in *. cbn [List.filter].
    destruct (GitLab.is_action e); [exists (S m); cbn; by rewrite Hm | by exists m].
Qed.

(** X25: starting from the webhook the previous configuration records (or
    from none), at no point of any run of the setup handler are two
    webhooks registered for the installation: an install is always
    preceded by the uninstall of the recorded one. *)
Theorem never_two_webhooks
    (w : GitLab.World) (event : GitLab.SpaceInstallationSetupEvent)
    (environment : GitLab.Environment) (n : nat) :
  (length
     (GitLab.registered w
        (option_list
           (GitLab.recorded_hook (GitLab.previous_configuration (GitLab.previous event))))
        (take n (Js.trace (GitLab.handleSpaceInstallationSetupEvent w event environment))))
   <= 1)%nat.
Proof.
  rewrite registered_actions.
  destruct (actions_take
              (Js.trace (GitLab.handleSpaceInstallationSetupEvent w event environment)) n)
    as [m ->].
  assert (forall hook : option Z, (length (option_list hook) <= 1)%nat) as Hinitial
    by (intros [h|]; cbn; lia).
  destruct (setup_summary w event environment)
    as [[e ->]|[_ [->|(webhookUrl & configuration & uninstall & -> & Huninstall)]]].
  - cbn. rewrite take_nil. apply Hinitial.
  - rewrite take_nil. apply Hinitial.
  - destruct Huninstall as [[-> ->]|(prevHookId & previous & -> & -> & ->)].
    + do 3 (destruct m as [|m]; cbn; [lia|]). lia.
    + do 4 (destruct m as [|m]; cbn; rewrite ?Z.eqb_refl; cbn; [lia|]). lia.
Qed.
